(** * ReplyX: the automation loop of the content script, and the reply cache

    A shallow embedding of the parts of the repository the specification
    talks about:

    - [content_script.js], the optimized content script (module [Fast]):
      the action queue, the engagement functions, the automation cycle and
      the automation controls, with the interleaving of its asynchronous
      functions as a transition system;
    - [background.js], the optimized background script: the bounded
      response cache of [processApiRequest];
    - the original content script (module [Original]): [likePost],
      [handleGroqResponse], [handleCommentError], [smoothScroll] and
      [runAutomation];
    - both background scripts (module [Worker]): the request queue, the
      request to the generation service with the cleaning of its answer,
      and the fallback replies;
    - [popup.js] (module [Popup]): loading and saving the settings.

    The page is the environment.  Every handler observes it afresh through a
    record [Env]; what a handler does to the page is recorded as a list of
    [Effect]s, and the page decides which of these calls throw.  Numbers
    that the code only compares or adds (pixels, milliseconds, counters) are
    integers; [Math.random()] and the scroll distances computed from it or
    from a fraction of the viewport are rationals. *)

From stdpp Require Import base decidable option list strings gmap sets.
From Stdlib Require Import ZArith QArith Qround Lia Ascii.

Local Open Scope string_scope.
Local Open Scope list_scope.
Local Open Scope Z_scope.

(** ** A JavaScript [Map] with string keys

    [Map] iterates in insertion order; [set] on a key that is present
    replaces the value in place and keeps the key's position. *)

Module JsMap.

Definition t : Type := list (string * string).

Definition empty : t := [].

Definition keys (m : t) : list string := m.*1.

Definition size (m : t) : Z := Z.of_nat (length m).

Fixpoint get (k : string) (m : t) : option string :=
  match m with
  | [] => None
  | (k', v) :: m' => if String.eqb k' k then Some v else get k m'
  end.

Definition has (k : string) (m : t) : bool :=
  match get k m with Some _ => true | None => false end.

Fixpoint set (k v : string) (m : t) : t :=
  match m with
  | [] => [(k, v)]
  | (k', v') :: m' =>
      if String.eqb k' k then (k', v) :: m' else (k', v') :: set k v m'
  end.

Fixpoint delete (k : string) (m : t) : t :=
  match m with
  | [] => []
  | (k', v') :: m' =>
      if String.eqb k' k then m' else (k', v') :: delete k m'
  end.

(** [m.keys().next().value]: [undefined] on an empty map. *)
Definition first_key (m : t) : option string := head (keys m).

End JsMap.

(** [map.set(key, value); if (map.size > cap) map.delete(map.keys().next().value)]:
    the store-and-trim statement shared by [getTweetTextFast]
    (content_script.js:318-324, cap 50) and [processApiRequest]
    (background.js, content_script.js:775-781, cap 100). *)
Definition set_and_trim (cap : Z) (k v : string) (m : JsMap.t) : JsMap.t :=
  let m1 := JsMap.set k v m in
  if JsMap.size m1 >? cap then
    match JsMap.first_key m1 with
    | Some firstKey => JsMap.delete firstKey m1
    | None => m1
    end
  else m1.

Definition tweetCache_capacity : Z := 50.
Definition apiCache_capacity : Z := 100.

(** A cache as the scripts can build it: from the empty map, by
    store-and-trim steps only. *)
Inductive cache_reachable (cap : Z) : JsMap.t -> Prop :=
| cache_start : cache_reachable cap JsMap.empty
| cache_store k v m :
    cache_reachable cap m -> cache_reachable cap (set_and_trim cap k v m).


(** ** The page and what the scripts do to it *)

(** A node of the page.  A queued action and [currentTweetForComment] hold a
    reference to the node, not a copy of what was seen on it. *)
Definition Element : Type := nat.

(** [getBoundingClientRect()]. *)
Record Rect : Type := mkRect {
  rect_top : Z;
  rect_bottom : Z;
  rect_height : Z;
  rect_width : Z
}.

(** What the queries of the scripts return on one [article] element at the
    time of a step. *)
Record Article : Type := mkArticle {
  dataset_tweetId : option string;
      (* tweet.dataset.tweetId, when it is set *)
  freshId : string;
      (* the `tweet_${Date.now()}_${Math.random()...}` it is given otherwise *)
  rect : Rect;
      (* tweet.getBoundingClientRect() *)
  rectInCycle : Rect;
      (* original runAutomation: the rectangle after its scrollIntoView *)
  rectInEngage : Rect;
      (* original engageWithTweet: the rectangle after its scrollIntoView *)
  likeButton : bool;
      (* tweet.querySelector('[data-testid="like"]') is not null *)
  likeButtonRetry : bool;
      (* original likePost: the same query one second later *)
  unlikeMarker : bool;
      (* tweet.querySelector('[data-testid="unlike"]') is not null *)
  unlikeAfterClick : bool;
      (* the same query after likeButton.click() and the verification delay *)
  tweetText : option string;
      (* '[data-testid="tweetText"]': its textContent.trim(), when present *)
  langSpanText : option string;
      (* '[lang] span': its textContent.trim(), when present *)
  cssClassText : option string;
      (* '.css-901oao...': its textContent.trim(), when present *)
  tweetBodyText : option string;
      (* the parent of the tweetText element: its textContent.trim() *)
  replyButton : bool
      (* tweet.querySelector('[data-testid="reply"]') is not null *)
}.

(** [getTweetId] (content_script.js:508-513): the id stored on the element,
    which is assigned at first sight and read afterwards. *)
Definition getTweetId (a : Article) : string :=
  match dataset_tweetId a with
  | Some id => id
  | None => freshId a
  end.

Inductive Target : Type :=
| LikeButton (tweet : Element)
| ReplyButton (tweet : Element)
| SubmitButton (selector : nat) (index : nat)
| CloseButton (index : nat).

Inductive Effect : Type :=
| ScrollIntoView (tweet : Element)
| Focus (t : Target)
| Click (t : Target)
| MouseMove (t : Target)
| SendGroqRequest (prompt : string)
| InsertText (text : string)      (* document.execCommand('insertText', false, text) *)
| SetTextContent (text : string)  (* activeElement.textContent = text, then an input event *)
| TypeKeys (text : string)        (* keydown, input, keyup on the active element per character *)
| PressEscape                     (* a keydown of Escape dispatched on document *)
| ScrollBy (top : Q)
| ScrollTo (y : Q)
| UpdateCounterDisplay (tweets likes comments : Z)
| CreateCounterDisplay
| RemoveCounterDisplay
| StorageHeartbeat                (* chrome.storage.local.set({scriptAlive, tabUrl}) *)
| SendResponse (status : string)
| ReloadAfter (ms : Z)            (* setTimeout(() => window.location.reload(), ms) *)
| Delay (ms : Z)                  (* await delay(ms) *)
| DelayJitter (base spread : Z)   (* await delay(base + Math.random() * spread) *)
| LogError (message : string).    (* console.error(message, ...) *)

(** [document.activeElement]. *)
Record ActiveElement : Type := mkActive {
  contentEditable : bool;   (* contentEditable === 'true' *)
  isTextArea : bool;        (* tagName === 'TEXTAREA' *)
  textContent : string;     (* the content after the insertion was attempted *)
}.

(** A button of the page with its [textContent]. *)
Record Button : Type := mkButton { button_text : string }.

Record Env : Type := mkEnv {
  Date_now : Z;
  Math_random : Q;
  window_innerHeight : Z;
  window_scrollY : Z;
  documentElement_scrollHeight : Z;
  body_scrollHeight : Z;
  tweets : list Element;
      (* document.querySelectorAll('article[data-testid="tweet"]') *)
  article : Element -> Article;
  activeElement : option ActiveElement;
  execCommand_defined : bool;
  buttons : nat -> list Button;
      (* document.querySelectorAll(selector), for the selectors of
         findReplyButton in their order: tweetButton, tweetButtonInline,
         button[type="submit"], button *)
  closeButtons : nat;
      (* how many elements match '[aria-label="Close"], [data-testid="app-bar-close"]' *)
  throws : Effect -> bool
      (* whether the page makes this call raise an exception *)
}.

(** ** Handlers as state transformers with exceptions and a trace *)

Module JS.

Inductive Res (A : Type) : Type :=
| Ok (a : A)
| Exn.
Arguments Ok {A} a.
Arguments Exn {A}.

Section Monad.

Context {S : Type}.

Definition M (A : Type) : Type := Env -> S -> Res A * S * list Effect.

Definition ret {A} (a : A) : M A := fun _ s => (Ok a, s, []).

Definition bind {A B} (m : M A) (k : A -> M B) : M B := fun env s =>
  match m env s with
  | (Ok a, s1, t1) => let '(r, s2, t2) := k a env s1 in (r, s2, t1 ++ t2)
  | (Exn, s1, t1) => (Exn, s1, t1)
  end.

(** Reading a variable of the script, and the page. *)
Definition gets {A} (f : S -> A) : M A := fun _ s => (Ok (f s), s, []).
Definition asks {A} (f : Env -> A) : M A := fun env s => (Ok (f env), s, []).

(** An assignment to variables of the script. *)
Definition modify (f : S -> S) : M unit := fun _ s => (Ok tt, f s, []).

(** A call into the page, which the page may make throw. *)
Definition perform (eff : Effect) : M unit := fun env s =>
  if throws env eff then (Exn, s, []) else (Ok tt, s, [eff]).

(** [await delay(..)] and [console.error(..)] do not throw. *)
Definition emit (eff : Effect) : M unit := fun _ s => (Ok tt, s, [eff]).

Definition throw {A} : M A := fun _ s => (Exn, s, []).

(** [try { body } catch (error) { handler }]. *)
Definition try_catch {A} (body handler : M A) : M A := fun env s =>
  match body env s with
  | (Exn, s1, t1) => let '(r, s2, t2) := handler env s1 in (r, s2, t1 ++ t2)
  | done => done
  end.

(** [try { body } catch (error) { handler } finally { final }], for a
    body without a return value. *)
Definition try_catch_finally (body handler final : M unit) : M unit :=
  fun env s =>
    let '(r1, s1, t1) := try_catch body handler env s in
    let '(r2, s2, t2) := final env s1 in
    (match r2 with Ok _ => r1 | Exn => Exn end, s2, t1 ++ t2).

(** A call of an asynchronous function that is not awaited.  It is run
    here as one step; the caller does not see a rejection of its promise. *)
Definition detached {A} (m : M A) : M unit := fun env s =>
  let '(_, s1, t1) := m env s in (Ok tt, s1, t1).

(** The outcome of the rest of a handler, after the effects [t]. *)
Definition after {A} (t : list Effect) (x : Res A * S * list Effect)
  : Res A * S * list Effect :=
  (x.1.1, x.1.2, t ++ x.2).

Definition state_of {A} (x : Res A * S * list Effect) : S := x.1.2.
Definition result_of {A} (x : Res A * S * list Effect) : Res A := x.1.1.
Definition trace_of {A} (x : Res A * S * list Effect) : list Effect := x.2.

End Monad.

Arguments M : clear implicits.

End JS.

Import JS.

Declare Scope js_scope.
Delimit Scope js_scope with js.
Notation "x <- m ;; k" := (JS.bind m (fun x => k))
  (at level 100, m at next level, k at level 200, right associativity) : js_scope.
Notation "m ;; k" := (JS.bind m (fun _ => k))
  (at level 100, k at level 200, right associativity) : js_scope.
Local Open Scope js_scope.

(** [when c m]: [if (c) { m }]. *)
Definition when {S} (c : bool) (m : JS.M S unit) : JS.M S unit :=
  if c then m else JS.ret tt.


(** [String.prototype.trim], [toLowerCase] and [includes] on ASCII text. *)
Fixpoint trim_start (s : string) : string :=
  match s with
  | String c s' => if Ascii.is_space c then trim_start s' else s
  | EmptyString => EmptyString
  end.

Definition trim (s : string) : string :=
  String.rev (trim_start (String.rev (trim_start s))).

Definition lower_ascii (c : ascii) : ascii :=
  let n := nat_of_ascii c in
  if (65 <=? n)%nat && (n <=? 90)%nat then ascii_of_nat (n + 32) else c.

Fixpoint toLowerCase (s : string) : string :=
  match s with
  | String c s' => String (lower_ascii c) (toLowerCase s')
  | EmptyString => EmptyString
  end.

Fixpoint includes (needle s : string) : bool :=
  String.prefix needle s
  || match s with
     | String _ s' => includes needle s'
     | EmptyString => false
     end.

(** [maintains P m]: running [m] keeps [P] of the variables, whatever the
    page answers and whether or not an exception is raised.
    [preserves f m]: running [m] never changes [f] of the variables. *)
Definition maintains {S A} (P : S -> Prop) (m : JS.M S A) : Prop :=
  forall env s, P s -> P (JS.state_of (m env s)).

Definition preserves {S X A} (f : S -> X) (m : JS.M S A) : Prop :=
  forall x, maintains (fun s => f s = x) m.

(** [triple env P m Q]: on the page [env], from variables satisfying [P],
    [m] ends with a result and variables satisfying [Q]. *)
Definition triple {S A} (env : Env) (P : S -> Prop) (m : JS.M S A)
    (Q : JS.Res A -> S -> Prop) : Prop :=
  forall s, P s -> Q (JS.result_of (m env s)) (JS.state_of (m env s)).

(** ** Settings pushed by the popup *)

Record Settings : Type := mkSettings {
  enableLiking : bool;
  enableCommenting : bool;
  settings_automationEnabled : bool
}.

(** * The optimized content script (content_script.js) *)

Module Fast.

(** An entry of [actionQueue] (content_script.js:160-164). *)
Record QueuedAction : Type := mkAction {
  tweet : Element;
  tweetId : string;
  timestamp : Z
}.

(** The variables of the script (content_script.js:4-22), and the timers
    it has armed in the browser. *)
Record State : Type := mkState {
  settings : option Settings;
  isRunning : bool;
  lastActionTime : Z;
  processedTweets : gset string;
  automationEnabled : bool;
  automationInterval : option nat;
  pageVisibilityInterval : option nat;
  totalTweets : Z;
  processedLikes : Z;
  processedComments : Z;
  currentTweetForComment : option Element;
  tweetCache : JsMap.t;
  actionQueue : list QueuedAction;
  isProcessingQueue : bool;
  fastMode : bool;
  (* browser side *)
  runTimeouts : nat;      (* armed setTimeout(() => runAutomation(), ..) callbacks *)
  debounceTimer : bool;   (* observer.debounceTimer is armed *)
  timerSeq : nat          (* the last timer id handed out *)
}.

Definition initial_state : State :=
  {| settings := None; isRunning := false; lastActionTime := 0;
     processedTweets := ∅; automationEnabled := false;
     automationInterval := None; pageVisibilityInterval := None;
     totalTweets := 0; processedLikes := 0; processedComments := 0;
     currentTweetForComment := None; tweetCache := JsMap.empty;
     actionQueue := []; isProcessingQueue := false; fastMode := true;
     runTimeouts := 0; debounceTimer := false; timerSeq := 0 |}.

(** Assignments. *)
Definition set_settings v (s : State) : State :=
  let '(mkState _ b c d e f g h i j k l m n o p q r) := s in
  mkState v b c d e f g h i j k l m n o p q r.
Definition set_isRunning v (s : State) : State :=
  let '(mkState a _ c d e f g h i j k l m n o p q r) := s in
  mkState a v c d e f g h i j k l m n o p q r.
Definition set_lastActionTime v (s : State) : State :=
  let '(mkState a b _ d e f g h i j k l m n o p q r) := s in
  mkState a b v d e f g h i j k l m n o p q r.
Definition set_processedTweets v (s : State) : State :=
  let '(mkState a b c _ e f g h i j k l m n o p q r) := s in
  mkState a b c v e f g h i j k l m n o p q r.
Definition set_automationEnabled v (s : State) : State :=
  let '(mkState a b c d _ f g h i j k l m n o p q r) := s in
  mkState a b c d v f g h i j k l m n o p q r.
Definition set_automationInterval v (s : State) : State :=
  let '(mkState a b c d e _ g h i j k l m n o p q r) := s in
  mkState a b c d e v g h i j k l m n o p q r.
Definition set_pageVisibilityInterval v (s : State) : State :=
  let '(mkState a b c d e f _ h i j k l m n o p q r) := s in
  mkState a b c d e f v h i j k l m n o p q r.
Definition set_totalTweets v (s : State) : State :=
  let '(mkState a b c d e f g _ i j k l m n o p q r) := s in
  mkState a b c d e f g v i j k l m n o p q r.
Definition set_processedLikes v (s : State) : State :=
  let '(mkState a b c d e f g h _ j k l m n o p q r) := s in
  mkState a b c d e f g h v j k l m n o p q r.
Definition set_processedComments v (s : State) : State :=
  let '(mkState a b c d e f g h i _ k l m n o p q r) := s in
  mkState a b c d e f g h i v k l m n o p q r.
Definition set_currentTweetForComment v (s : State) : State :=
  let '(mkState a b c d e f g h i j _ l m n o p q r) := s in
  mkState a b c d e f g h i j v l m n o p q r.
Definition set_tweetCache v (s : State) : State :=
  let '(mkState a b c d e f g h i j k _ m n o p q r) := s in
  mkState a b c d e f g h i j k v m n o p q r.
Definition set_actionQueue v (s : State) : State :=
  let '(mkState a b c d e f g h i j k l _ n o p q r) := s in
  mkState a b c d e f g h i j k l v n o p q r.
Definition set_isProcessingQueue v (s : State) : State :=
  let '(mkState a b c d e f g h i j k l m _ o p q r) := s in
  mkState a b c d e f g h i j k l m v o p q r.
Definition set_runTimeouts v (s : State) : State :=
  let '(mkState a b c d e f g h i j k l m n o _ q r) := s in
  mkState a b c d e f g h i j k l m n o v q r.
Definition set_debounceTimer v (s : State) : State :=
  let '(mkState a b c d e f g h i j k l m n o p _ r) := s in
  mkState a b c d e f g h i j k l m n o p v r.
Definition set_timerSeq v (s : State) : State :=
  let '(mkState a b c d e f g h i j k l m n o p q _) := s in
  mkState a b c d e f g h i j k l m n o p q v.

Abbreviation M := (JS.M State).

Definition delay (ms : Z) : M unit := JS.emit (Delay ms).

(** [setInterval(..)]: a fresh, non-zero timer id. *)
Definition setInterval : M nat :=
  n <- JS.gets timerSeq;;
  JS.modify (set_timerSeq (S n));;
  JS.ret (S n).

(** [updateCounterDisplay] (content_script.js:565-575). *)
Definition updateCounterDisplay : M unit :=
  t <- JS.gets totalTweets;;
  l <- JS.gets processedLikes;;
  c <- JS.gets processedComments;;
  JS.perform (UpdateCounterDisplay t l c).

(** [shouldCommentFast] (content_script.js:515-517). *)
Definition shouldCommentFast : M bool :=
  r <- JS.asks Math_random;;
  JS.ret (negb (Qle_bool (1 # 4) r)).

(** [updateLastActionTime] (content_script.js:519-521). *)
Definition updateLastActionTime : M unit :=
  now <- JS.asks Date_now;;
  JS.modify (set_lastActionTime now).

(** [likePostFast] (content_script.js:239-270). *)
Definition likePostFast (tweet : Element) : M bool :=
  a <- JS.asks (fun env => article env tweet);;
  fast <- JS.gets fastMode;;
  if negb (likeButton a) then JS.ret false
  else if unlikeMarker a then
    JS.modify (fun s => set_processedLikes (processedLikes s + 1) s);;
    JS.ret true
  else
    JS.try_catch
      (JS.perform (Focus (LikeButton tweet));;
       delay (if fast then 100 else 500);;
       JS.perform (Click (LikeButton tweet));;
       delay (if fast then 300 else 1000);;
       if unlikeAfterClick a then
         JS.modify (fun s => set_processedLikes (processedLikes s + 1) s);;
         updateCounterDisplay;;
         JS.ret true
       else JS.ret false)
      (JS.emit (LogError "Error in fast like");;
       JS.ret false).

(** [getTweetTextFast] (content_script.js:308-330). *)
Definition getTweetTextFast (tweet : Element) : M string :=
  a <- JS.asks (fun env => article env tweet);;
  cache <- JS.gets tweetCache;;
  let tweetId := getTweetId a in
  match JsMap.get tweetId cache with
  | Some cached => JS.ret cached
  | None =>
      match tweetText a with
      | Some text =>
          JS.modify (set_tweetCache
                       (set_and_trim tweetCache_capacity tweetId text cache));;
          JS.ret text
      | None => JS.ret EmptyString
      end
  end.

(** [commentOnPostFast] (content_script.js:273-305). *)
Definition commentOnPostFast (tweet : Element) : M bool :=
  JS.try_catch
    (text <- getTweetTextFast tweet;;
     a <- JS.asks (fun env => article env tweet);;
     fast <- JS.gets fastMode;;
     if String.eqb text EmptyString then JS.ret false
     else if negb (replyButton a) then JS.ret false
     else
       JS.perform (Focus (ReplyButton tweet));;
       delay (if fast then 100 else 500);;
       JS.perform (Click (ReplyButton tweet));;
       delay (if fast then 1000 else 2000);;
       JS.modify (set_currentTweetForComment (Some tweet));;
       JS.perform (SendGroqRequest text);;
       JS.ret true)
    (JS.emit (LogError "Error in fast comment");;
     JS.ret false).

(** [settings.enableLiking], [settings.enableCommenting]: a [TypeError]
    when [settings] is null. *)
Definition setting (f : Settings -> bool) : M bool :=
  st <- JS.gets settings;;
  match st with
  | Some st => JS.ret (f st)
  | None => JS.throw
  end.

(** [engageWithTweetFast] (content_script.js:201-236). *)
Definition engageWithTweetFast (tweet : Element) (tweetId : string) : M bool :=
  JS.try_catch
    (a <- JS.asks (fun env => article env tweet);;
     innerHeight <- JS.asks window_innerHeight;;
     fast <- JS.gets fastMode;;
     when (rect_bottom (rect a) >? innerHeight)
       (JS.perform (ScrollIntoView tweet);;
        delay (if fast then 500 else 1000));;
     wantLike <- setting enableLiking;;
     liked <- (if wantLike then likePostFast tweet else JS.ret false);;
     wantComment <- setting enableCommenting;;
     gate <- (if wantComment then shouldCommentFast else JS.ret false);;
     commented <- (if gate then commentOnPostFast tweet else JS.ret false);;
     let actionTaken := liked || commented in
     when actionTaken
       (JS.modify (fun s => set_processedTweets ({[ tweetId ]} ∪ processedTweets s) s);;
        updateLastActionTime;;
        JS.modify (fun s => set_totalTweets (totalTweets s + 1) s);;
        updateCounterDisplay);;
     JS.ret actionTaken)
    (JS.emit (LogError "Error in fast engagement");;
     JS.ret false).

(** [findReplyButton] (content_script.js:374-387): the first element
    matching [tweetButton], else the first matching [tweetButtonInline]. *)
Definition findReplyButton (env : Env) : option Target :=
  match buttons env 0 with
  | _ :: _ => Some (SubmitButton 0 0)
  | [] =>
      match buttons env 1 with
      | _ :: _ => Some (SubmitButton 1 0)
      | [] => None
      end
  end.

(** [quickScroll] (content_script.js:390-399). *)
Definition quickScroll : M bool :=
  innerHeight <- JS.asks window_innerHeight;;
  fast <- JS.gets fastMode;;
  JS.perform (ScrollBy (inject_Z innerHeight * (3 # 10)));;
  delay (if fast then 300 else 1000);;
  JS.ret true.

(** [handleCommentError] (content_script.js:527-536). *)
Definition handleCommentError : M unit :=
  JS.perform PressEscape;;
  delay 500.

(** [handleGroqResponse] (content_script.js:333-371). *)
Definition handleGroqResponse (reply : string) : M unit :=
  JS.try_catch
    (fast <- JS.gets fastMode;;
     delay (if fast then 500 else 1000);;
     active <- JS.asks activeElement;;
     execCommand <- JS.asks execCommand_defined;;
     when (match active with
           | Some el => contentEditable el || isTextArea el
           | None => false
           end)
       (if execCommand then JS.perform (InsertText reply)
        else JS.perform (SetTextContent reply));;
     delay (if fast then 500 else 1000);;
     replyButton <- JS.asks findReplyButton;;
     match replyButton with
     | Some button =>
         JS.perform (Click button);;
         JS.modify (fun s => set_processedComments (processedComments s + 1) s);;
         updateCounterDisplay;;
         delay (if fast then 1000 else 2000);;
         _ <- quickScroll;;
         JS.ret tt
     | None => JS.ret tt
     end)
    (JS.emit (LogError "Error in fast response handling");;
     handleCommentError).

(** *** The automation cycle

    [runAutomation] (content_script.js:403-466) is an asynchronous function.
    It runs without interruption from the call to its first [await]; other
    handlers run while it is suspended.  What a suspended activation still
    has to do is a [Cycle].

    The functions above (an engagement, the handling of a reply) have
    [await]s of their own.  They are run as one step, with their delays in
    the trace, at the moment they complete; the scheduler around them
    ([runAutomation], [processActionQueue]) is cut at its [await]s. *)
Inductive Cycle : Type :=
| AwaitEngage (tweet : Element) (tweetId : string)
    (* suspended at `await engageWithTweetFast(tweet, tweetId)` (line 424) *)
| AwaitScroll.
    (* suspended at `await delay(1500)` (line 457) *)

(** The test of lines 419-423 on one article. *)
Definition unprocessed_in_view (env : Env) (s : State) (tweet : Element) : bool :=
  let a := article env tweet in
  negb (bool_decide (getTweetId a ∈ processedTweets s))
  && ((rect_height (rect a) >? 10)
      && ((rect_height (rect a) >? 10)
          && (rect_top (rect a) >=? 0)
          && (rect_top (rect a) <? window_innerHeight env))).

(** Lines 409-459, up to the first [await]. *)
Definition cycle_body : M Cycle :=
  tweets <- JS.asks tweets;;
  JS.modify (set_totalTweets (Z.of_nat (length tweets)));;
  updateCounterDisplay;;
  env <- JS.asks id;;
  s <- JS.gets id;;
  match List.find (unprocessed_in_view env s) tweets with
  | Some tweet => JS.ret (AwaitEngage tweet (getTweetId (article env tweet)))
  | None =>
      innerHeight <- JS.asks window_innerHeight;;
      JS.perform (ScrollBy (inject_Z innerHeight * (85 # 100)));;
      JS.ret AwaitScroll
  end.

(** The call of [runAutomation]: the guard (line 404), [isRunning = true],
    and the body up to its first [await].  [Some c]: the activation is
    suspended inside [try]; [None]: it has returned. *)
Definition runAutomation : M (option Cycle) :=
  s <- JS.gets id;;
  if negb (bool_decide (is_Some (settings s))) || isRunning s || negb (automationEnabled s)
  then JS.ret None
  else
    JS.modify (set_isRunning true);;
    JS.try_catch
      (c <- cycle_body;; JS.ret (Some c))
      (JS.emit (LogError "Error in robust automation cycle");;
       JS.modify (set_isRunning false);;      (* finally *)
       JS.ret None).

(** The rest of a suspended activation: what it awaited completes (the
    engagement is run here as one step), then [catch] and [finally]. *)
Definition runAutomation_resume (c : Cycle) : M unit :=
  JS.try_catch_finally
    (match c with
     | AwaitEngage tweet tweetId =>
         _ <- engageWithTweetFast tweet tweetId;;
         JS.ret tt                     (* processedInThisCycle = true; break *)
     | AwaitScroll => JS.ret tt
     end)
    (JS.emit (LogError "Error in robust automation cycle"))
    (JS.modify (set_isRunning false)).

(** *** The action queue *)

(** What is left of a suspended activation of [processActionQueue]. *)
Inductive Drain : Type :=
| DrainEngaging (action : QueuedAction)
    (* suspended at `await engageWithTweetFast(action.tweet, action.tweetId)` *)
| DrainPacing.
    (* suspended at `await delay(fastMode ? 2000 : 5000)` *)

(** The head of the [while] loop (content_script.js:182-188) run until an
    action is dispatched or the queue is empty: [shift], and [continue] on an
    action older than 30 seconds. *)
Fixpoint next_action (now : Z) (queue : list QueuedAction)
  : option QueuedAction * list QueuedAction :=
  match queue with
  | [] => (None, [])
  | action :: rest =>
      if now - timestamp action >? 30000 then next_action now rest
      else (Some action, rest)
  end.

(** The loop from its head to the next [await], or to its end with
    [isProcessingQueue = false] (line 197). *)
Definition drain_loop : M (option Drain) :=
  now <- JS.asks Date_now;;
  queue <- JS.gets actionQueue;;
  let '(next, rest) := next_action now queue in
  JS.modify (set_actionQueue rest);;
  match next with
  | Some action => JS.ret (Some (DrainEngaging action))
  | None => JS.modify (set_isProcessingQueue false);; JS.ret None
  end.

(** [processActionQueue] (content_script.js:177-198), up to its first
    [await]. *)
Definition processActionQueue : M (option Drain) :=
  s <- JS.gets id;;
  if isProcessingQueue s || (length (actionQueue s) =? 0)%nat then JS.ret None
  else
    JS.modify (set_isProcessingQueue true);;
    drain_loop.

(** A suspended activation goes on: the engagement completes and the pacing
    delay starts, or the pacing delay is over and the loop is at its head. *)
Definition drain_resume (d : Drain) : M (option Drain) :=
  match d with
  | DrainEngaging action =>
      _ <- engageWithTweetFast (tweet action) (tweetId action);;
      fast <- JS.gets fastMode;;
      delay (if fast then 2000 else 5000);;
      JS.ret (Some DrainPacing)
  | DrainPacing => drain_loop
  end.

(** The test of lines 154-158 on one article. *)
Definition unprocessed_visible (env : Env) (s : State) (tweet : Element) : bool :=
  let a := article env tweet in
  negb (bool_decide (getTweetId a ∈ processedTweets s))
  && ((rect_height (rect a) >? 0)
      && (rect_top (rect a) <? window_innerHeight env)
      && (rect_bottom (rect a) >? 0)).

(** The scan of [processTweetsQuickly]: the action it pushes, if any. *)
Definition scan (env : Env) (s : State) : option QueuedAction :=
  match List.find (unprocessed_visible env s) (tweets env) with
  | Some tweet =>
      Some {| tweet := tweet;
              tweetId := getTweetId (article env tweet);
              timestamp := Date_now env |}
  | None => None
  end.

(** Lines 147-164 of [processTweetsQuickly]: the guard, the scan and
    [actionQueue.push]. *)
Definition scan_and_push : M bool :=
  s <- JS.gets id;;
  if negb (bool_decide (is_Some (settings s))) || negb (automationEnabled s) || isRunning s
  then JS.ret false
  else
    env <- JS.asks id;;
    match scan env s with
    | Some action =>
        JS.modify (fun s => set_actionQueue (actionQueue s ++ [action]) s);;
        JS.ret true
    | None => JS.ret false
    end.

(** [processTweetsQuickly] (content_script.js:146-174): after a push it
    starts the queue unless it is being processed. *)
Definition processTweetsQuickly : M (option Drain) :=
  pushed <- scan_and_push;;
  if pushed then
    processing <- JS.gets isProcessingQueue;;
    if negb processing then processActionQueue else JS.ret None
  else JS.ret None.

(** *** The automation controls *)

(** [startAutomationFast] (content_script.js:481-493). *)
Definition startAutomationFast : M unit :=
  interval <- JS.gets automationInterval;;
  match interval with
  | Some _ => JS.ret tt
  | None =>
      JS.modify (fun s => set_runTimeouts (S (runTimeouts s)) s);;
      handle <- setInterval;;
      JS.modify (set_automationInterval (Some handle))
  end.

(** [stopAutomation] (content_script.js:495-505). *)
Definition stopAutomation : M unit :=
  interval <- JS.gets automationInterval;;
  when (bool_decide (is_Some interval))
    (JS.modify (set_automationInterval None));;
  heartbeat <- JS.gets pageVisibilityInterval;;
  when (bool_decide (is_Some heartbeat))
    (JS.modify (set_pageVisibilityInterval None));;
  JS.modify (set_isRunning false).

(** [toggleAutomation] (content_script.js:469-479). *)
Definition toggleAutomation (enabled : bool) : M unit :=
  JS.modify (set_automationEnabled enabled);;
  if enabled then
    JS.perform CreateCounterDisplay;;
    startAutomationFast
  else
    stopAutomation;;
    JS.perform RemoveCounterDisplay.

(** [startBackgroundMode] (content_script.js:90-113): the heartbeat
    interval; its [visibilitychange] listener is [onVisibilityChange]. *)
Definition startBackgroundMode : M unit :=
  handle <- setInterval;;
  JS.modify (set_pageVisibilityInterval (Some handle)).

(** [initialize] (content_script.js:55-87).  [stored]: the settings read
    from storage, [None] when the read fails. *)
Definition initialize (stored : option Settings) : M unit :=
  let loaded :=
    match stored with
    | Some st => st
    | None => {| enableLiking := true; enableCommenting := true;
                 settings_automationEnabled := false |}
    end in
  JS.modify (set_settings (Some loaded));;
  when (settings_automationEnabled loaded) (toggleAutomation true);;
  startBackgroundMode.

(** *** Callbacks *)

(** The messages of the background script (content_script.js:25-52). *)
Inductive Message : Type :=
| settingsUpdated (st : Settings)
| automationToggle (enabled : bool)
| groqApiResponse (data : string)
| groqApiError
| ping.

Definition onMessage (message : Message) : M unit :=
  match message with
  | settingsUpdated st =>
      JS.modify (set_settings (Some st));;
      enabled <- JS.gets automationEnabled;;
      when (negb (Bool.eqb (settings_automationEnabled st) enabled))
        (toggleAutomation (settings_automationEnabled st));;
      JS.perform (SendResponse "received")
  | automationToggle enabled =>
      toggleAutomation enabled;;
      JS.perform (SendResponse "toggled")
  | groqApiResponse data =>
      JS.detached (handleGroqResponse data);;
      JS.perform (SendResponse "handled")
  | groqApiError =>
      JS.emit (LogError "Groq API error:");;
      JS.detached handleCommentError;;
      JS.perform (SendResponse "error_handled")
  | ping => JS.perform (SendResponse "alive")
  end.

(** The [visibilitychange] listener (content_script.js:101-112). *)
Definition onVisibilityChange (hidden : bool) : M unit :=
  if hidden then JS.ret tt
  else
    s <- JS.gets id;;
    when (automationEnabled s && negb (isRunning s))
      (JS.modify (fun s => set_runTimeouts (S (runTimeouts s)) s)).

(** The callback of the [MutationObserver] (content_script.js:117-137);
    [addedNodes]: the [addedNodes.length] of each mutation of the batch. *)
Definition onMutations (addedNodes : list nat) : M unit :=
  s <- JS.gets id;;
  if isRunning s || negb (automationEnabled s) then JS.ret tt
  else
    let hasNewTweets := existsb (fun n => (0 <? n)%nat) addedNodes in
    when hasNewTweets (JS.modify (set_debounceTimer true)).

(** The callback of the automation interval (content_script.js:488-492). *)
Definition onInterval : M (option Cycle) :=
  running <- JS.gets isRunning;;
  if negb running then runAutomation else JS.ret None.

(** The callback of the heartbeat interval (content_script.js:92-98). *)
Definition onHeartbeat : M unit := JS.perform StorageHeartbeat.

(** The guard of [runAutomation] (line 404). *)
Definition guard_fails (s : State) : bool :=
  negb (bool_decide (is_Some (settings s))) || isRunning s
  || negb (automationEnabled s).

(** A property of the variables that no assignment of an engagement can
    break: it does not depend on the like counter, the text cache, the tweet
    awaiting a reply, the processed set, the last action time or the seen
    counter. *)
Definition engage_stable (P : State -> Prop) : Prop :=
  (forall v s, P s -> P (set_processedLikes v s))
  /\ (forall v s, P s -> P (set_tweetCache v s))
  /\ (forall v s, P s -> P (set_currentTweetForComment v s))
  /\ (forall v s, P s -> P (set_processedTweets v s))
  /\ (forall v s, P s -> P (set_lastActionTime v s))
  /\ (forall v s, P s -> P (set_totalTweets v s)).

End Fast.

(** ** The optimized content script as a transition system

    JavaScript runs one callback at a time, to its end or to its next
    [await].  A step of the system is one such run: a message, a timer, an
    observer batch, or the completion of what a suspended activation is
    awaiting.  The page ([Env]) is observed anew at every step. *)

Module Sched.

Import Fast.

Record System : Type := mkSystem {
  vars : State;
  cycles : list Cycle;    (* suspended activations of runAutomation *)
  drains : list Drain;    (* suspended activations of processActionQueue *)
  trace : list Effect     (* what has been done to the page so far *)
}.

Inductive Event : Type :=
| Receive (message : Message)      (* chrome.runtime.onMessage *)
| RunTimeout                       (* an armed setTimeout(() => runAutomation()) fires *)
| IntervalTick                     (* the automation interval fires *)
| HeartbeatTick                    (* the heartbeat interval fires *)
| VisibilityChange (hidden : bool)
| Mutations (addedNodes : list nat)
| DebounceTimeout                  (* the debounce timer fires *)
| CycleResumes (i : nat)           (* the i-th suspended cycle goes on *)
| DrainResumes (i : nat).          (* the i-th suspended queue loop goes on *)

Definition with_vars (s : State) (sys : System) : System :=
  {| vars := s; cycles := cycles sys; drains := drains sys; trace := trace sys |}.

(** One callback run on the system. *)
Definition handle {A} (m : M A) (env : Env) (sys : System) : JS.Res A * System :=
  let '(r, s, t) := m env (vars sys) in
  (r, {| vars := s; cycles := cycles sys; drains := drains sys;
         trace := trace sys ++ t |}).

Definition suspend_cycle (x : JS.Res (option Cycle) * System) : System :=
  match x with
  | (JS.Ok (Some c), sys) =>
      {| vars := vars sys; cycles := cycles sys ++ [c]; drains := drains sys;
         trace := trace sys |}
  | (_, sys) => sys
  end.

Definition suspend_drain (x : JS.Res (option Drain) * System) : System :=
  match x with
  | (JS.Ok (Some d), sys) =>
      {| vars := vars sys; cycles := cycles sys; drains := drains sys ++ [d];
         trace := trace sys |}
  | (_, sys) => sys
  end.

Definition take_cycle (i : nat) (sys : System) : System :=
  {| vars := vars sys; cycles := delete i (cycles sys); drains := drains sys;
     trace := trace sys |}.

Definition take_drain (i : nat) (sys : System) : System :=
  {| vars := vars sys; cycles := cycles sys; drains := delete i (drains sys);
     trace := trace sys |}.

Definition step (env : Env) (ev : Event) (sys : System) : System :=
  match ev with
  | Receive message => (handle (onMessage message) env sys).2
  | RunTimeout =>
      match runTimeouts (vars sys) with
      | O => sys
      | S n =>
          suspend_cycle
            (handle runAutomation env (with_vars (set_runTimeouts n (vars sys)) sys))
      end
  | IntervalTick =>
      match automationInterval (vars sys) with
      | Some _ => suspend_cycle (handle onInterval env sys)
      | None => sys
      end
  | HeartbeatTick =>
      match pageVisibilityInterval (vars sys) with
      | Some _ => (handle onHeartbeat env sys).2
      | None => sys
      end
  | VisibilityChange hidden => (handle (onVisibilityChange hidden) env sys).2
  | Mutations addedNodes => (handle (onMutations addedNodes) env sys).2
  | DebounceTimeout =>
      if debounceTimer (vars sys) then
        suspend_drain
          (handle processTweetsQuickly env
             (with_vars (set_debounceTimer false (vars sys)) sys))
      else sys
  | CycleResumes i =>
      match cycles sys !! i with
      | Some c => (handle (runAutomation_resume c) env (take_cycle i sys)).2
      | None => sys
      end
  | DrainResumes i =>
      match drains sys !! i with
      | Some d => suspend_drain (handle (drain_resume d) env (take_drain i sys))
      | None => sys
      end
  end.

(** A run: the steps in order, each with the page it observes. *)
Definition run (steps : list (Env * Event)) (sys : System) : System :=
  fold_left (fun sys '(env, ev) => step env ev sys) steps sys.

(** The script is loaded: [initialize] on the initial variables. *)
Definition boot (stored : option Settings) (env : Env) : System :=
  (handle (initialize stored) env
     {| vars := initial_state; cycles := []; drains := []; trace := [] |}).2.




End Sched.

(** * The original content script *)


Module Original.

(** The variables of the script. *)
Record State : Type := mkState {
  settings : option Settings;
  isRunning : bool;
  lastActionTime : Z;
  processedTweets : gset string;
  automationEnabled : bool;
  automationInterval : option nat;
  totalTweets : Z;
  processedLikes : Z;
  processedComments : Z;
  currentTweetForComment : option Element
}.

Definition initial_state : State :=
  {| settings := None; isRunning := false; lastActionTime := 0;
     processedTweets := ∅; automationEnabled := false;
     automationInterval := None; totalTweets := 0; processedLikes := 0;
     processedComments := 0; currentTweetForComment := None |}.

Definition set_isRunning v (s : State) : State :=
  let '(mkState a _ c d e f g h i j) := s in mkState a v c d e f g h i j.
Definition set_lastActionTime v (s : State) : State :=
  let '(mkState a b _ d e f g h i j) := s in mkState a b v d e f g h i j.
Definition set_processedTweets v (s : State) : State :=
  let '(mkState a b c _ e f g h i j) := s in mkState a b c v e f g h i j.
Definition set_totalTweets v (s : State) : State :=
  let '(mkState a b c d e f _ h i j) := s in mkState a b c d e f v h i j.
Definition set_processedLikes v (s : State) : State :=
  let '(mkState a b c d e f g _ i j) := s in mkState a b c d e f g v i j.
Definition set_processedComments v (s : State) : State :=
  let '(mkState a b c d e f g h _ j) := s in mkState a b c d e f g h v j.
Definition set_currentTweetForComment v (s : State) : State :=
  let '(mkState a b c d e f g h i _) := s in mkState a b c d e f g h i v.

Abbreviation M := (JS.M State).

Definition delay (ms : Z) : M unit := JS.emit (Delay ms).

Definition updateCounterDisplay : M unit :=
  t <- JS.gets totalTweets;;
  l <- JS.gets processedLikes;;
  c <- JS.gets processedComments;;
  JS.perform (UpdateCounterDisplay t l c).

(** [simulateMouseMovement(element)]: a [TypeError] on a null element. *)
Definition simulateMouseMovement (found : bool) (t : Target) : M unit :=
  if found then JS.perform (MouseMove t) else JS.throw.

(** [likePost], after the like button was looked up. *)
Definition likePost_found (tweet : Element) : M bool :=
  a <- JS.asks (fun env => article env tweet);;
  if unlikeMarker a then
    JS.modify (fun s => set_processedLikes (processedLikes s + 1) s);;
    updateCounterDisplay;;
    JS.ret true
  else
    JS.try_catch
      (simulateMouseMovement (likeButton a) (LikeButton tweet);;
       JS.emit (DelayJitter 100 200);;
       JS.perform (Click (LikeButton tweet));;
       delay 1000;;
       if unlikeAfterClick a then
         JS.modify (fun s => set_processedLikes (processedLikes s + 1) s);;
         updateCounterDisplay;;
         JS.ret true
       else JS.ret false)
      (JS.emit (LogError "Error while liking:");;
       JS.ret false).

(** [likePost] (part_000:406-449). *)
Definition likePost (tweet : Element) : M bool :=
  a <- JS.asks (fun env => article env tweet);;
  if negb (likeButton a) then
    delay 1000;;
    if negb (likeButtonRetry a) then JS.ret false
    else likePost_found tweet
  else likePost_found tweet.

(** [getTweetText] (part_000:256-282). *)
Definition getTweetText (a : Article) : string :=
  let nonempty (o : option string) :=
    match o with
    | Some text => negb (String.eqb text EmptyString)
    | None => false
    end in
  match List.find nonempty [tweetText a; langSpanText a; cssClassText a] with
  | Some (Some text) => text
  | _ =>
      match tweetBodyText a with
      | Some text => if (10 <? String.length text)%nat then text else EmptyString
      | None => EmptyString
      end
  end.

Definition quote : string := String (ascii_of_nat 34) EmptyString.
Definition newline : string := String (ascii_of_nat 10) EmptyString.

(** The prompt of [commentOnPost] (part_000:487). *)
Definition prompt_for (tweetText : string) : string :=
  ("Generate a short, natural, and engaging reply to this tweet: "
   ++ quote ++ tweetText ++ quote ++ newline ++ newline
   ++ "Requirements:" ++ newline
   ++ "- Keep it under 200 characters" ++ newline
   ++ "- Sound like a real person" ++ newline
   ++ "- Be relevant to the tweet content" ++ newline
   ++ "- Use casual language" ++ newline
   ++ "- Don't use hashtags or mentions" ++ newline ++ newline
   ++ "Reply:")%string.

(** [commentOnPost] (part_000:452-496). *)
Definition commentOnPost (tweet : Element) : M bool :=
  JS.try_catch
    (a <- JS.asks (fun env => article env tweet);;
     let text := getTweetText a in
     if String.eqb text EmptyString then JS.ret false
     else if negb (replyButton a) then JS.ret false
     else
       JS.perform (MouseMove (ReplyButton tweet));;
       JS.emit (DelayJitter 100 200);;
       JS.perform (Click (ReplyButton tweet));;
       delay 2000;;
       JS.modify (set_currentTweetForComment (Some tweet));;
       JS.perform (SendGroqRequest (prompt_for text));;
       JS.ret true)
    (JS.emit (LogError "Error in commentOnPost:");;
     JS.ret false).

Definition setting (f : Settings -> bool) : M bool :=
  st <- JS.gets settings;;
  match st with
  | Some st => JS.ret (f st)
  | None => JS.throw
  end.

(** [shouldComment] (part_000:328-331). *)
Definition shouldComment : M bool :=
  r <- JS.asks Math_random;;
  JS.ret (negb (Qle_bool (4 # 10) r)).

(** [engageWithTweet] (part_000:285-325). *)
Definition engageWithTweet (tweet : Element) : M bool :=
  JS.try_catch
    (JS.perform (ScrollIntoView tweet);;
     delay 1000;;
     a <- JS.asks (fun env => article env tweet);;
     innerHeight <- JS.asks window_innerHeight;;
     if (rect_top (rectInEngage a) <? 0) || (rect_bottom (rectInEngage a) >? innerHeight)
     then JS.ret false
     else
       wantLike <- setting enableLiking;;
       liked <- (if wantLike then likePost tweet else JS.ret false);;
       wantComment <- setting enableCommenting;;
       gate <- (if wantComment then shouldComment else JS.ret false);;
       commented <- (if gate then commentOnPost tweet else JS.ret false);;
       let actionTaken := liked || commented in
       when actionTaken
         (now <- JS.asks Date_now;;
          JS.modify (set_lastActionTime now);;
          JS.emit (DelayJitter 30000 5000));;
       JS.ret actionTaken)
    (JS.emit (LogError "Error engaging with tweet:");;
     JS.ret false).

(** [findReplyButton] (part_000:552-574): over the four selectors in order,
    the first button whose lowercased text includes reply, post or tweet. *)
Definition is_reply_button (b : Button) : bool :=
  let buttonText := toLowerCase (button_text b) in
  includes "reply" buttonText || includes "post" buttonText
  || includes "tweet" buttonText.

Fixpoint first_reply_button (selector index : nat) (bs : list Button) : option Target :=
  match bs with
  | [] => None
  | b :: bs' =>
      if is_reply_button b then Some (SubmitButton selector index)
      else first_reply_button selector (S index) bs'
  end.

Fixpoint findReplyButton_from (env : Env) (selectors : list nat) : option Target :=
  match selectors with
  | [] => None
  | selector :: rest =>
      match first_reply_button selector 0 (buttons env selector) with
      | Some button => Some button
      | None => findReplyButton_from env rest
      end
  end.

Definition findReplyButton (env : Env) : option Target :=
  findReplyButton_from env [0; 1; 2; 3]%nat.

(** The loop of [handleCommentError] over the close buttons. *)
Fixpoint click_close_buttons (indices : list nat) : M unit :=
  match indices with
  | [] => JS.ret tt
  | i :: rest =>
      JS.try_catch
        (JS.perform (Click (CloseButton i));;
         delay 500)
        (JS.ret tt);;
      click_close_buttons rest
  end.

(** [handleCommentError] (part_000:659-681). *)
Definition handleCommentError : M unit :=
  n <- JS.asks closeButtons;;
  click_close_buttons (seq 0 n);;
  JS.perform PressEscape;;
  delay 1000.

(** [handleGroqResponse] (part_000:499-549). *)
Definition handleGroqResponse (reply : string) : M unit :=
  JS.try_catch
    (delay 1500;;
     JS.perform (InsertText (trim reply));;
     delay 500;;
     active <- JS.asks activeElement;;
     when (match active with
           | Some el => negb (String.eqb (textContent el) (trim reply))
           | None => false
           end)
       (JS.perform (TypeKeys (trim reply)));;
     delay 1000;;
     replySubmitButton <- JS.asks findReplyButton;;
     match replySubmitButton with
     | None => handleCommentError
     | Some button =>
         JS.perform (MouseMove button);;
         JS.emit (DelayJitter 100 200);;
         JS.perform (Click button);;
         delay 3000;;
         JS.modify (fun s => set_processedComments (processedComments s + 1) s);;
         updateCounterDisplay
     end)
    (JS.emit (LogError "Error handling Groq response:");;
     handleCommentError).

Definition Math_min (x y : Q) : Q := if Qle_bool x y then x else y.

(** [smoothScroll] (part_000:878-916). *)
Definition smoothScroll : M bool :=
  env <- JS.asks id;;
  let scrollHeight := Z.max (documentElement_scrollHeight env) (body_scrollHeight env) in
  let viewportHeight := window_innerHeight env in
  let scrollAmount := (inject_Z viewportHeight / 2)%Q in
  let currentScroll := window_scrollY env in
  let targetScroll :=
    Math_min (inject_Z currentScroll + scrollAmount) (inject_Z (scrollHeight - viewportHeight)) in
  if currentScroll <? scrollHeight - viewportHeight then
    JS.perform (ScrollTo targetScroll);;
    delay 3000;;
    JS.ret true
  else JS.ret false.

(** The filter of lines 812-816. *)
Definition rendered (env : Env) (tweet : Element) : bool :=
  let a := article env tweet in
  (rect_height (rect a) >? 0) && (rect_width (rect a) >? 0).

(** The loop of lines 822-852; its result is [processedAnyTweet]. *)
Fixpoint process_tweets (tweets : list Element) : M bool :=
  match tweets with
  | [] => JS.ret false
  | tweet :: rest =>
      a <- JS.asks (fun env => article env tweet);;
      processed <- JS.gets processedTweets;;
      if bool_decide (getTweetId a ∈ processed) then process_tweets rest
      else
        done <-
          JS.try_catch
            (JS.perform (ScrollIntoView tweet);;
             delay 2000;;
             innerHeight <- JS.asks window_innerHeight;;
             if (rect_top (rectInCycle a) >=? 0)
                && (rect_bottom (rectInCycle a) <=? innerHeight)
             then
               success <- engageWithTweet tweet;;
               if success then
                 JS.modify (fun s => set_processedTweets
                                       ({[ getTweetId a ]} ∪ processedTweets s) s);;
                 JS.ret true
               else JS.ret false
             else JS.ret false)
            (JS.emit (LogError "Error processing tweet:");;
             JS.ret false);;
        if done then JS.ret true else process_tweets rest
  end.

(** Lines 810-852: the scan, the seen counter, the loop. *)
Definition scan_and_process : M bool :=
  env <- JS.asks id;;
  let tweets := List.filter (rendered env) (tweets env) in
  JS.modify (set_totalTweets (Z.of_nat (length tweets)));;
  updateCounterDisplay;;
  process_tweets tweets.

(** Lines 854-869: scroll for more, or end of feed. *)
Definition scroll_or_reset (processedAnyTweet : bool) : M unit :=
  when (negb processedAnyTweet)
    (scrolled <- smoothScroll;;
     when (negb scrolled)
       (JS.modify (set_totalTweets 0);;
        JS.modify (set_processedLikes 0);;
        JS.modify (set_processedComments 0);;
        updateCounterDisplay;;
        JS.modify (set_processedTweets ∅);;
        JS.emit (ReloadAfter 5000))).

(** [runAutomation] (part_000:803-875), a whole cycle as one step. *)
Definition runAutomation : M unit :=
  s <- JS.gets id;;
  if negb (bool_decide (is_Some (settings s))) || isRunning s || negb (automationEnabled s)
  then JS.ret tt
  else
    JS.modify (set_isRunning true);;
    JS.try_catch_finally
      (processedAnyTweet <- scan_and_process;;
       scroll_or_reset processedAnyTweet)
      (JS.emit (LogError "Error in automation cycle:"))
      (JS.modify (set_isRunning false)).

(** What [handleCommentError] does to the page when nothing throws. *)
Definition close_clicks (n : nat) : list Effect :=
  flat_map (fun i => [Click (CloseButton i); Delay 500]) (seq 0 n).

End Original.

(** * The optimized background script (background.js): the response cache *)

Module Background.

(** The cache key of a prompt (content_script.js:671 and 774). *)
Definition cacheKey (prompt : string) : string :=
  String.substring 0 50 (toLowerCase prompt).

(** The lookup of [handleGroqApiRequestFast] (content_script.js:671-679). *)
Definition cached_response (prompt : string) (apiCache : JsMap.t) : option string :=
  JsMap.get (cacheKey prompt) apiCache.

(** The store of [processApiRequest] (content_script.js:773-781). *)
Definition cache_response (prompt cleanResponse : string) (apiCache : JsMap.t) : JsMap.t :=
  set_and_trim apiCache_capacity (cacheKey prompt) cleanResponse apiCache.

End Background.

(** Storing a list of entries one after the other. *)
Definition store_all (cap : Z) (entries : list (string * string)) (m : JsMap.t) : JsMap.t :=
  fold_left (fun m '(k, v) => set_and_trim cap k v m) entries m.

(** * Pages for the examples *)

Module Page.

Definition in_view : Rect :=
  {| rect_top := 100; rect_bottom := 400; rect_height := 300; rect_width := 600 |}.

(** A tweet in view that can be liked and replied to. *)
Definition plain (id : string) : Article :=
  {| dataset_tweetId := Some id; freshId := id;
     rect := in_view; rectInCycle := in_view; rectInEngage := in_view;
     likeButton := true; likeButtonRetry := true;
     unlikeMarker := false; unlikeAfterClick := true;
     tweetText := Some "hello"; langSpanText := None; cssClassText := None;
     tweetBodyText := Some "hello"; replyButton := true |}.

(** The same with the liked marker next to the like button. *)
Definition liked (id : string) : Article :=
  {| dataset_tweetId := Some id; freshId := id;
     rect := in_view; rectInCycle := in_view; rectInEngage := in_view;
     likeButton := true; likeButtonRetry := true;
     unlikeMarker := true; unlikeAfterClick := true;
     tweetText := Some "hello"; langSpanText := None; cssClassText := None;
     tweetBodyText := Some "hello"; replyButton := true |}.

(** A liked tweet whose button carries the liked marker in place of the
    like marker. *)
Definition liked_no_like_button (id : string) : Article :=
  {| dataset_tweetId := Some id; freshId := id;
     rect := in_view; rectInCycle := in_view; rectInEngage := in_view;
     likeButton := false; likeButtonRetry := false;
     unlikeMarker := true; unlikeAfterClick := true;
     tweetText := Some "hello"; langSpanText := None; cssClassText := None;
     tweetBodyText := Some "hello"; replyButton := true |}.

(** A page showing [articles] at time [now]: the viewport is 800 high, the
    document 2000, scrolled to [scrollY]; no composer is open; nothing
    throws; [Math.random()] gives 1/2. *)
Definition at_scroll (scrollY now : Z) (articles : list Article) : Env :=
  {| Date_now := now; Math_random := 1 # 2;
     window_innerHeight := 800; window_scrollY := scrollY;
     documentElement_scrollHeight := 2000; body_scrollHeight := 2000;
     tweets := seq 0 (length articles);
     article := fun i => nth i articles (plain EmptyString);
     activeElement := None; execCommand_defined := true;
     buttons := fun _ => []; closeButtons := 0;
     throws := fun _ => false |}.

Definition showing (now : Z) (articles : list Article) : Env :=
  at_scroll 0 now articles.

(** The same page when [Math.random()] gives 1/10. *)
Definition showing_keen (now : Z) (articles : list Article) : Env :=
  {| Date_now := now; Math_random := 1 # 10;
     window_innerHeight := 800; window_scrollY := 0;
     documentElement_scrollHeight := 2000; body_scrollHeight := 2000;
     tweets := seq 0 (length articles);
     article := fun i => nth i articles (plain EmptyString);
     activeElement := None; execCommand_defined := true;
     buttons := fun _ => []; closeButtons := 0;
     throws := fun _ => false |}.

(** A page with an open reply composer that has the focus and holds
    [content], and the buttons [submit] under the selector tweetButton. *)
Definition composer (now : Z) (content : string) (submit : list Button) : Env :=
  {| Date_now := now; Math_random := 1 # 2;
     window_innerHeight := 800; window_scrollY := 0;
     documentElement_scrollHeight := 2000; body_scrollHeight := 2000;
     tweets := []; article := fun _ => plain EmptyString;
     activeElement :=
       Some {| contentEditable := true; isTextArea := false; textContent := content |};
     execCommand_defined := true;
     buttons := fun selector => match selector with O => submit | _ => [] end;
     closeButtons := 1;
     throws := fun _ => false |}.

Definition all_on : Settings :=
  {| enableLiking := true; enableCommenting := true; settings_automationEnabled := true |}.

Definition like_only : Settings :=
  {| enableLiking := true; enableCommenting := false; settings_automationEnabled := true |}.

(** The original script in the middle of a session: automation is on,
    only liking is enabled, and the tweet "A" has been liked. *)
Definition original_session : Original.State :=
  {| Original.settings := Some like_only; Original.isRunning := false;
     Original.lastActionTime := 400; Original.processedTweets := {[ "A" ]};
     Original.automationEnabled := true; Original.automationInterval := Some 1%nat;
     Original.totalTweets := 1; Original.processedLikes := 1;
     Original.processedComments := 0; Original.currentTweetForComment := None |}.

End Page.

(** * Runs for the examples *)

Module Scenario.

Import Fast Sched.

(** A liked tweet "A" whose like button is gone stays unprocessed: liking
    reports failure, and with [Math.random()] at 1/2 no comment is tried.
    The first cycle and the first scan both meet it; two more scans, each
    500 ms after a batch of mutations, fall into the pacing delay of the
    queue loop. *)
Definition page_A (now : Z) : Env := Page.showing now [Page.liked_no_like_button "A"].

Definition duplicate_run : list (Env * Event) :=
  [ (page_A 500, RunTimeout);
    (page_A 500, CycleResumes 0);
    (page_A 600, Mutations [1%nat]);
    (page_A 1100, DebounceTimeout);
    (page_A 1100, DrainResumes 0);
    (page_A 1150, Mutations [1%nat]);
    (page_A 1650, DebounceTimeout);
    (page_A 1700, Mutations [2%nat]);
    (page_A 2200, DebounceTimeout) ].


(** The tweet "A" is liked in the first cycle.  The next cycle finds the
    page scrolled to the end of the document (1200 of 2000, the viewport
    being 800 high) and nothing to process. *)
Definition exhausted_run : list (Env * Event) :=
  [ (Page.showing 500 [Page.liked "A"], RunTimeout);
    (Page.showing 600 [Page.liked "A"], CycleResumes 0);
    (Page.at_scroll 1200 3000 [Page.liked "A"], IntervalTick);
    (Page.at_scroll 1200 4500 [Page.liked "A"], CycleResumes 0) ].

(** One tweet is on the page; the first cycle scans it and likes it. *)
Definition seen_run : list (Env * Event) :=
  [ (Page.showing 500 [Page.plain "A"], RunTimeout);
    (Page.showing 900 [Page.plain "A"], CycleResumes 0) ].

(** A comment is started on "A" ([Math.random()] gives 1/10): the reply
    button is clicked and the request is sent.  Automation is switched off.
    Then the reply arrives; the composer has the focus. *)
Definition stale_reply_run : list (Env * Event) :=
  [ (Page.showing_keen 500 [Page.plain "A"], RunTimeout);
    (Page.showing_keen 2000 [Page.plain "A"], CycleResumes 0);
    (Page.showing_keen 2100 [Page.plain "A"], Receive (automationToggle false));
    (Page.composer 2500 EmptyString [ {| button_text := "Reply" |} ],
     Receive (groqApiResponse "nice")) ].

End Scenario.

(** * The background scripts: requests to the generation service

    The optimized background script (content_script.js:587-884) and the
    original one (content_script.js:884-1122).  A text is held in UTF-8:
    every byte of a character outside ASCII is above 127, so that removing
    the characters outside ASCII removes these bytes, and a text is
    measured only after that. *)

Module Worker.

Definition TabId : Type := nat.

(** What a background script sends to a tab with
    [chrome.tabs.sendMessage(tabId, {type, ...})]. *)
Inductive ToTab : Type :=
| GroqApiResponse (data : string)
| GroqApiError (error : string).

Record Sent : Type := mkSent {
  to : TabId;
  message : ToTab
}.

(** *** Cleaning the text of a reply *)

Definition quote_char : ascii := ascii_of_nat 34.
Definition newline_char : ascii := ascii_of_nat 10.
Definition space_char : ascii := ascii_of_nat 32.

Definition is_ascii (c : ascii) : bool := (nat_of_ascii c <? 128)%nat.

(** A character that a cleaned text may hold: an ASCII character other than
    the double quote and the newline. *)
Definition plain (c : ascii) : bool :=
  is_ascii c && negb (Ascii.eqb c quote_char) && negb (Ascii.eqb c newline_char).

(** [s.replace(/c/g, empty)] for the characters [c] that [drop] accepts. *)
Fixpoint remove_chars (drop : ascii -> bool) (s : string) : string :=
  match s with
  | EmptyString => EmptyString
  | String c s' =>
      if drop c then remove_chars drop s' else String c (remove_chars drop s')
  end.

(** [s.replace(/from/g, to)] for single characters. *)
Fixpoint replace_char (from to : ascii) (s : string) : string :=
  match s with
  | EmptyString => EmptyString
  | String c s' =>
      String (if Ascii.eqb c from then to else c) (replace_char from to s')
  end.

(** The cleaning of content_script.js:759-763 and 1009-1013: the
    characters outside ASCII are removed, then the double quotes, then every
    newline becomes a space, then the text is trimmed. *)
Definition clean (content : string) : string :=
  trim
    (replace_char newline_char space_char
       (remove_chars (Ascii.eqb quote_char)
          (remove_chars (fun c => negb (is_ascii c)) content))).

(** [if (s.length > limit) s = s.substring(0, keep) + dots], the dots being
    three full stops (lines 765-767 with 150 and 147, lines 1016-1018 with
    200 and 197). *)
Definition shorten (limit keep : nat) (s : string) : string :=
  if (limit <? String.length s)%nat then (String.substring 0 keep s ++ "...")%string
  else s.

(** [!s || s.length < 3] (lines 769 and 1021). *)
Definition too_short (s : string) : bool :=
  String.eqb s EmptyString || (String.length s <? 3)%nat.

(** *** The optimized script *)

(** The fallback replies (content_script.js:809-813). *)
Definition responses : list string :=
  [ "So true! ðŸ’¯";
    "This! ðŸ‘†";
    "Exactly!";
    "Facts ðŸ”¥";
    "Love this take";
    "Well said!";
    "This hits different";
    "Big mood";
    "Couldn't agree more";
    "This is it!" ].

(** [getRandomFallback] (content_script.js:808-815):
    [responses[Math.floor(Math.random() * responses.length)]], for a value
    of [Math.random()] in its range, from 0 up to but not including 1. *)
Definition getRandomFallback (random : Q) : string :=
  nth (Z.to_nat (Qfloor (random * inject_Z (Z.of_nat (length responses)))))
    responses EmptyString.

(** An entry of [rateLimitQueue] (content_script.js:682). *)
Record Request : Type := mkRequest {
  prompt : string;      (* data.prompt *)
  tabId : TabId;
  timestamp : Z
}.

(** The variables of the script (content_script.js:590-594). *)
Record State : Type := mkState {
  activeTabId : option TabId;
  apiCache : JsMap.t;
  rateLimitQueue : list Request;
  isProcessingQueue : bool
}.

Definition initial_state : State :=
  {| activeTabId := None; apiCache := JsMap.empty; rateLimitQueue := [];
     isProcessingQueue := false |}.

Definition set_activeTabId v (s : State) : State :=
  let '(mkState _ b c d) := s in mkState v b c d.
Definition set_apiCache v (s : State) : State :=
  let '(mkState a _ c d) := s in mkState a v c d.
Definition set_rateLimitQueue v (s : State) : State :=
  let '(mkState a b _ d) := s in mkState a b v d.
Definition set_isProcessingQueue v (s : State) : State :=
  let '(mkState a b c _) := s in mkState a b c v.

(** What the service answers to one request. *)
Inductive Fetched : Type :=
| FetchFailed
    (* fetch rejects, or the timer of 5 seconds rejects first *)
| Responded (ok : bool) (content : option string).
    (* response.ok, and result.choices?.[0]?.message?.content: None when
       reading the body fails or the path is missing *)

(** What [chrome.storage.sync.get(['groqApiKey', 'groqModel'])] gives. *)
Inductive Stored : Type :=
| ReadFailed                    (* the promise rejects *)
| NoKey                         (* settings.groqApiKey is undefined *)
| Key (groqApiKey : string).

(** [!settings.groqApiKey]. *)
Definition no_key (stored : Stored) : bool :=
  match stored with
  | Key key => String.eqb key EmptyString
  | _ => true
  end.

(** What the script observes outside its variables when it handles an
    event. *)
Record World : Type := mkWorld {
  now : Z;                      (* Date.now() *)
  random : Q;                   (* Math.random() *)
  stored : Stored;
  fetched : Fetched
}.

(** [sendFallbackResponse] (content_script.js:800-806). *)
Definition sendFallbackResponse (w : World) (tabId : TabId) : list Sent :=
  [ {| to := tabId; message := GroqApiResponse (getRandomFallback (random w)) |} ].

(** [processApiRequest] (content_script.js:715-797), run when it settles:
    the new variables and what was sent. *)
Definition processApiRequest (w : World) (request : Request) (s : State)
  : State * list Sent :=
  let fallback := (s, sendFallbackResponse w (tabId request)) in
  if no_key (stored w) then fallback
  else
    match fetched w with
    | FetchFailed => fallback
    | Responded false _ => fallback                   (* !response.ok *)
    | Responded true None => fallback
    | Responded true (Some content) =>
        if String.eqb content EmptyString then fallback   (* a falsy content *)
        else
          let cleanResponse := shorten 150 147 (clean content) in
          let cleanResponse :=
            if too_short cleanResponse then getRandomFallback (random w)
            else cleanResponse in
          (set_apiCache
             (Background.cache_response (prompt request) cleanResponse (apiCache s)) s,
           [ {| to := tabId request; message := GroqApiResponse cleanResponse |} ])
    end.

(** What is left of a suspended activation of [processApiQueue]. *)
Inductive Pending : Type :=
| Requesting (request : Request)
    (* suspended at `await processApiRequest(request)` *)
| Pacing.
    (* suspended at the delay of 100 ms *)

(** The head of the [while] loop (content_script.js:696-703): [shift], and
    [continue] on a request older than 30 seconds. *)
Fixpoint next_request (now : Z) (queue : list Request)
  : option Request * list Request :=
  match queue with
  | [] => (None, [])
  | request :: rest =>
      if now - timestamp request >? 30000 then next_request now rest
      else (Some request, rest)
  end.

(** The loop from its head to the next [await], or to its end with
    [isProcessingQueue = false] (line 711). *)
Definition queue_loop (w : World) (s : State) : State * option Pending :=
  let '(next, rest) := next_request (now w) (rateLimitQueue s) in
  match next with
  | Some request => (set_rateLimitQueue rest s, Some (Requesting request))
  | None => (set_isProcessingQueue false (set_rateLimitQueue rest s), None)
  end.

(** [processApiQueue] (content_script.js:691-712), up to its first
    [await]. *)
Definition processApiQueue (w : World) (s : State) : State * option Pending :=
  if isProcessingQueue s || (length (rateLimitQueue s) =? 0)%nat then (s, None)
  else queue_loop w (set_isProcessingQueue true s).

(** A suspended activation goes on: the request settles and the delay
    starts, or the delay is over and the loop is at its head. *)
Definition queue_resume (w : World) (p : Pending) (s : State)
  : State * list Sent * option Pending :=
  match p with
  | Requesting request =>
      let '(s1, sent) := processApiRequest w request s in (s1, sent, Some Pacing)
  | Pacing =>
      let '(s1, next) := queue_loop w s in (s1, [], next)
  end.

(** [handleGroqApiRequestFast] (content_script.js:667-688): a cached reply
    is sent at once; otherwise the request is queued and the queue is
    started unless it is being processed. *)
Definition handleGroqApiRequestFast (w : World) (prompt : string) (tabId : TabId)
    (s : State) : State * list Sent * option Pending :=
  match Background.cached_response prompt (apiCache s) with
  | Some data => (s, [ {| to := tabId; message := GroqApiResponse data |} ], None)
  | None =>
      let s1 :=
        set_rateLimitQueue
          (rateLimitQueue s
           ++ [ {| prompt := prompt; tabId := tabId; timestamp := now w |} ]) s in
      if negb (isProcessingQueue s1) then
        let '(s2, next) := processApiQueue w s1 in (s2, [], next)
      else (s1, [], None)
  end.

(** The listeners of the script that read or write its variables
    (content_script.js:597-612, 872-881).  A [ping] is answered without
    touching them, and the switch has no case for the [automationToggle]
    message of the popup. *)
Inductive Event : Type :=
| GroqApiRequest (prompt : string) (sender : TabId)
| Ping
| AutomationToggle (enabled : bool)
| TabActivated (tabId : TabId)
| TabRemoved (tabId : TabId)
| LoopResumes (i : nat).

Record System : Type := mkSystem {
  vars : State;
  loops : list Pending;   (* suspended activations of processApiQueue *)
  sent : list Sent        (* what has been sent to the tabs so far *)
}.

Definition suspend (next : option Pending) (loops : list Pending) : list Pending :=
  match next with
  | Some p => loops ++ [p]
  | None => loops
  end.

Definition step (w : World) (ev : Event) (sys : System) : System :=
  match ev with
  | GroqApiRequest prompt sender =>
      let '(s, out, next) := handleGroqApiRequestFast w prompt sender (vars sys) in
      {| vars := s; loops := suspend next (loops sys); sent := sent sys ++ out |}
  | Ping => sys
  | AutomationToggle _ => sys
  | TabActivated tabId =>
      {| vars := set_activeTabId (Some tabId) (vars sys); loops := loops sys;
         sent := sent sys |}
  | TabRemoved tabId =>
      if bool_decide (activeTabId (vars sys) = Some tabId) then
        {| vars := set_activeTabId None (vars sys); loops := loops sys;
           sent := sent sys |}
      else sys
  | LoopResumes i =>
      match loops sys !! i with
      | Some p =>
          let '(s, out, next) := queue_resume w p (vars sys) in
          {| vars := s; loops := suspend next (delete i (loops sys));
             sent := sent sys ++ out |}
      | None => sys
      end
  end.

Definition run (steps : list (World * Event)) (sys : System) : System :=
  fold_left (fun sys '(w, ev) => step w ev sys) steps sys.

Definition boot : System :=
  {| vars := initial_state; loops := []; sent := [] |}.

(** At most one activation of [processApiQueue] is suspended, and
    [isProcessingQueue] is set exactly while one is. *)
Definition one_loop (sys : System) : Prop :=
  (isProcessingQueue (vars sys) = false /\ loops sys = [])
  \/ (isProcessingQueue (vars sys) = true /\ exists p, loops sys = [p]).



(** *** The original script *)

(** The fallback replies of the original script (content_script.js:1037-1048). *)
Definition fallbackResponses : list string :=
  [ "Great point! ðŸ‘";
    "Interesting perspective!";
    "Thanks for sharing this!";
    "Really insightful!";
    "I agree with this!";
    "Well said!";
    "This is so true!";
    "Exactly my thoughts!";
    "Love this take!";
    "Couldn't agree more!" ].

(** The reply put in place of a cleaned text that is too short (line 1022). *)
Definition shortReply : string := "Interesting point! ðŸ‘".

(** [handleGroqApiRequest] (content_script.js:958-1057), run when it
    settles: what was sent to the tab. *)
Definition handleGroqApiRequest (w : World) (tabId : TabId) : list Sent :=
  let fallback :=
    [ {| to := tabId;
         message :=
           GroqApiResponse
             (nth (Z.to_nat
                     (Qfloor (random w * inject_Z (Z.of_nat (length fallbackResponses)))))
                fallbackResponses EmptyString) |} ] in
  match stored w with
  | ReadFailed => fallback
  | _ =>
      if no_key (stored w)
      then [ {| to := tabId; message := GroqApiError "No API key configured" |} ]
      else
        match fetched w with
        | FetchFailed => fallback
        | Responded false _ => fallback
        | Responded true None => fallback
        | Responded true (Some content) =>
            let cleanResponse := shorten 200 197 (clean content) in
            let cleanResponse :=
              if too_short cleanResponse then shortReply else cleanResponse in
            [ {| to := tabId; message := GroqApiResponse cleanResponse |} ]
        end
  end.

End Worker.

(** * What holds along every run of the optimized content script *)

Module Invariant.

Import Fast Sched.

(** At most one activation of [processActionQueue] is suspended, and
    [isProcessingQueue] is set exactly while one is. *)
Definition one_queue_loop (sys : System) : Prop :=
  (isProcessingQueue (vars sys) = false /\ drains sys = [])
  \/ (isProcessingQueue (vars sys) = true /\ exists d, drains sys = [d]).

(** [P] withstands every callback of the script, and the arming and firing
    of its one-shot timers. *)
Definition kept_by_callbacks (P : State -> Prop) : Prop :=
  (forall message, maintains P (onMessage message))
  /\ maintains P runAutomation
  /\ maintains P onInterval
  /\ maintains P onHeartbeat
  /\ (forall hidden, maintains P (onVisibilityChange hidden))
  /\ (forall addedNodes, maintains P (onMutations addedNodes))
  /\ maintains P processTweetsQuickly
  /\ (forall c, maintains P (runAutomation_resume c))
  /\ (forall d, maintains P (drain_resume d))
  /\ (forall n s, P s -> P (set_runTimeouts n s))
  /\ (forall b s, P s -> P (set_debounceTimer b s)).

(** The session at [s] has kept what it had at [s0]: the processed ids, and
    at least the likes and comments counted. *)
Definition keeps (s0 s : State) : Prop :=
  processedTweets s0 ⊆ processedTweets s
  /\ processedLikes s0 <= processedLikes s
  /\ processedComments s0 <= processedComments s.

End Invariant.
(** * The popup (popup.js) *)

Module Popup.

(** The keys of [chrome.storage.sync] that the popup reads and writes;
    [None]: the key is not stored. *)
Record Storage : Type := mkStorage {
  stored_groqApiKey : option string;
  stored_groqModel : option string;
  stored_enableLiking : option bool;
  stored_enableCommenting : option bool;
  stored_automationEnabled : option bool
}.

(** The fields of the form of popup.html. *)
Record Form : Type := mkForm {
  groqApiKey : string;
  groqModel : string;         (* the value of the select *)
  enableLiking : bool;
  enableCommenting : bool;
  automationToggle : bool
}.

(** The options of the select. *)
Definition models : list string :=
  [ "llama-3.3-70b-versatile"; "gemma-7b-it"; "mixtral-8x7b-32768" ].

(** Assigning to the value of the select: the option with that value is
    selected; when there is none, no option is selected and the value
    reads as the empty string. *)
Definition select (value : string) : string :=
  if bool_decide (value ∈ models) then value else EmptyString.

(** [x || fallback] on a string that may be undefined. *)
Definition or_else (x : option string) (fallback : string) : string :=
  match x with
  | Some value => if String.eqb value EmptyString then fallback else value
  | None => fallback
  end.

(** The form as the popup fills it from storage (popup.js:3-22). *)
Definition load (items : Storage) : Form :=
  {| groqApiKey := or_else (stored_groqApiKey items) EmptyString;
     groqModel := select (or_else (stored_groqModel items) "llama-3.3-70b-versatile");
     enableLiking :=
       match stored_enableLiking items with Some false => false | _ => true end;
     enableCommenting :=
       match stored_enableCommenting items with Some false => false | _ => true end;
     automationToggle :=
       match stored_automationEnabled items with Some b => b | None => false end |}.

(** What the popup sends with [chrome.runtime.sendMessage]. *)
Inductive Message : Type :=
| SettingsUpdated (settings : Form)
| AutomationToggle (enabled : bool).

(** What a handler of the popup leaves behind: the storage, the messages
    sent, and the status line it shows, if any, with its success flag. *)
Record Outcome : Type := mkOutcome {
  storage : Storage;
  sent : list Message;
  status : option (string * bool)
}.

(** The click on Save (popup.js:25-59). *)
Definition save (form : Form) (items : Storage) : Outcome :=
  if String.eqb (groqApiKey form) EmptyString then
    {| storage := items; sent := [];
       status := Some ("Please enter your Groq API key", false) |}
  else
    {| storage :=
         {| stored_groqApiKey := Some (groqApiKey form);
            stored_groqModel := Some (groqModel form);
            stored_enableLiking := Some (enableLiking form);
            stored_enableCommenting := Some (enableCommenting form);
            stored_automationEnabled := Some (automationToggle form) |};
       sent := [SettingsUpdated form];
       status := Some ("Settings saved successfully!", true) |}.

(** A change of the automation toggle (popup.js:62-74). *)
Definition toggle (isEnabled : bool) (items : Storage) : Outcome :=
  {| storage :=
       {| stored_groqApiKey := stored_groqApiKey items;
          stored_groqModel := stored_groqModel items;
          stored_enableLiking := stored_enableLiking items;
          stored_enableCommenting := stored_enableCommenting items;
          stored_automationEnabled := Some isEnabled |};
     sent := [AutomationToggle isEnabled];
     status := None |}.

End Popup.

(** * From the background script to the content script *)

(** A message sent to a tab, as the listener of the content script in
    that tab receives it. *)
Definition deliver (m : Worker.ToTab) : Fast.Message :=
  match m with
  | Worker.GroqApiResponse data => Fast.groqApiResponse data
  | Worker.GroqApiError _ => Fast.groqApiError
  end.

(** * Text as a list of characters *)

Abbreviation chars := String.list_ascii_of_string.

(** [trim_start] on the characters of a text. *)
Fixpoint lstrip (l : list ascii) : list ascii :=
  match l with
  | c :: l' => if Ascii.is_space c then lstrip l' else l
  | [] => []
  end.

(** The text neither starts nor ends with white space. *)
Definition trimmed (s : string) : Prop :=
  lstrip (chars s) = chars s /\ lstrip (rev (chars s)) = rev (chars s).

(** * What a query of the page holds *)



(** A rectangle lies within a viewport of the given height. *)
Definition within_viewport (r : Rect) (innerHeight : Z) : Prop :=
  0 <= rect_top r /\ rect_bottom r <= innerHeight.

(** * What a trace holds *)

(** The clicks of a trace: what the script pressed on the page. *)
Definition is_click (eff : Effect) : bool :=
  match eff with
  | Click _ => true
  | _ => false
  end.

Definition clicks (t : list Effect) : list Effect := List.filter is_click t.

(** The requests a trace sends to the generation service. *)
Definition requests (t : list Effect) : list string :=
  omap (fun eff => match eff with SendGroqRequest prompt => Some prompt | _ => None end) t.

(** The outcome of a reply handler that counted a comment only after it
    clicked the submit button it found, and that sent no request.
    [comments] reads the comment counter, [before] is that counter at the
    start, [found] what [findReplyButton] returns. *)
Definition counts_after_click {S} (comments : S -> Z) (before : Z)
    (found : option Target) (out : JS.Res unit * S * list Effect) : Prop :=
  requests (JS.trace_of out) = []
  /\ (comments (JS.state_of out) = before
      \/ comments (JS.state_of out) = before + 1
         /\ exists button, found = Some button /\ Click button ∈ JS.trace_of out).

(** * More pages for the examples *)

Module Fixture.

(** A tweet whose like button is rendered late: the first query misses it,
    the query a second later finds it. *)
Definition late_like_button (id : string) : Article :=
  {| dataset_tweetId := Some id; freshId := id;
     rect := Page.in_view; rectInCycle := Page.in_view; rectInEngage := Page.in_view;
     likeButton := false; likeButtonRetry := true;
     unlikeMarker := false; unlikeAfterClick := true;
     tweetText := Some "hello"; langSpanText := None; cssClassText := None;
     tweetBodyText := Some "hello"; replyButton := true |}.


End Fixture.

(** * Properties *)

(** ** Lemmas on the map *)

Section JsMapFacts.

Implicit Types (m : JsMap.t) (k v : string).

Lemma keys_set_in k v m :
  k ∈ JsMap.keys m -> JsMap.keys (JsMap.set k v m) = JsMap.keys m.
Proof.
  induction m as [|[k' v'] m IH]; cbn; intros Hin.
  - by apply elem_of_nil in Hin.
  - destruct (String.eqb k' k) eqn:E; [done|]. cbn. f_equal. apply IH.
    apply elem_of_cons in Hin as [->|Hin]; [|done].
    rewrite String.eqb_refl in E. discriminate.
Qed.

Lemma set_notin k v m :
  k ∉ JsMap.keys m -> JsMap.set k v m = m ++ [(k, v)].
Proof.
  induction m as [|[k' v'] m IH]; cbn; intros Hnin; [done|].
  destruct (String.eqb k' k) eqn:E.
  - apply String.eqb_eq in E as ->. exfalso. apply Hnin. left.
  - f_equal. apply IH. intros Hin. apply Hnin. by right.
Qed.

Lemma length_set_in k v m :
  k ∈ JsMap.keys m -> length (JsMap.set k v m) = length m.
Proof.
  intros Hin. apply keys_set_in with (v := v) in Hin.
  unfold JsMap.keys in Hin.
  by rewrite <- (length_fmap fst), Hin, length_fmap.
Qed.

Lemma keys_NoDup_set k v m :
  NoDup (JsMap.keys m) -> NoDup (JsMap.keys (JsMap.set k v m)).
Proof.
  intros Hnd. destruct (decide (k ∈ JsMap.keys m)) as [Hin|Hnin].
  - by rewrite keys_set_in.
  - rewrite set_notin by done. unfold JsMap.keys in *.
    rewrite fmap_app. cbn. apply NoDup_app. split_and!; [done| |].
    + intros x Hx Hx'. apply list_elem_of_singleton in Hx'. by subst.
    + apply NoDup_singleton.
Qed.

Lemma keys_delete_subseteq k m : JsMap.keys (JsMap.delete k m) ⊆ JsMap.keys m.
Proof.
  induction m as [|[k' v'] m IH]; cbn; [done|].
  destruct (String.eqb k' k); cbn.
  - intros x Hx. by right.
  - intros x Hx. apply elem_of_cons in Hx as [->|Hx]; [left|right; by apply IH].
Qed.

Lemma keys_NoDup_delete k m :
  NoDup (JsMap.keys m) -> NoDup (JsMap.keys (JsMap.delete k m)).
Proof.
  induction m as [|[k' v'] m IH]; cbn; [done|].
  intros Hnd. apply NoDup_cons in Hnd as [Hk' Hnd].
  destruct (String.eqb k' k); cbn; [done|].
  apply NoDup_cons. split; [|by apply IH].
  intros Hin. apply Hk'. by apply (keys_delete_subseteq k m).
Qed.

Lemma length_delete_first m firstKey :
  JsMap.first_key m = Some firstKey ->
  length (JsMap.delete firstKey m) = pred (length m).
Proof.
  destruct m as [|[k' v'] m]; cbn; [done|].
  intros [= ->]. by rewrite String.eqb_refl.
Qed.

Lemma set_and_trim_NoDup cap k v m :
  NoDup (JsMap.keys m) -> NoDup (JsMap.keys (set_and_trim cap k v m)).
Proof.
  intros Hnd. unfold set_and_trim.
  pose proof (keys_NoDup_set k v m Hnd) as Hnd1.
  destruct (JsMap.size _ >? cap); [|done].
  destruct (JsMap.first_key _); [|done]. by apply keys_NoDup_delete.
Qed.

Lemma length_set_le k v m : (length (JsMap.set k v m) <= S (length m))%nat.
Proof.
  destruct (decide (k ∈ JsMap.keys m)) as [Hin|Hnin].
  - rewrite length_set_in by done. lia.
  - rewrite set_notin by done. rewrite length_app. cbn. lia.
Qed.

Lemma set_and_trim_size cap k v m :
  0 <= cap -> JsMap.size m <= cap -> JsMap.size (set_and_trim cap k v m) <= cap.
Proof.
  unfold set_and_trim, JsMap.size. intros Hcap Hle.
  pose proof (length_set_le k v m) as Hs.
  destruct (Z.gtb_spec (Z.of_nat (length (JsMap.set k v m))) cap) as [Hgt|Hngt];
    [|done].
  destruct (JsMap.first_key (JsMap.set k v m)) as [fk|] eqn:Hfk.
  - rewrite (length_delete_first _ _ Hfk). lia.
  - destruct (JsMap.set k v m) as [|[??] ?]; cbn in *; [lia|done].
Qed.

Lemma cache_reachable_inv cap m :
  0 <= cap -> cache_reachable cap m ->
  NoDup (JsMap.keys m) /\ JsMap.size m <= cap.
Proof.
  intros Hcap. induction 1 as [|k v m _ [IHnd IHsz]].
  - split; [apply NoDup_nil_2 | unfold JsMap.size; cbn; lia].
  - split; [by apply set_and_trim_NoDup | by apply set_and_trim_size].
Qed.

(** Inserting a new key into a full cache drops the head (the key
    inserted first among those present) and nothing else. *)
Lemma set_and_trim_full cap k v k0 v0 rest :
  JsMap.size ((k0, v0) :: rest) = cap ->
  k ∉ JsMap.keys ((k0, v0) :: rest) ->
  set_and_trim cap k v ((k0, v0) :: rest) = rest ++ [(k, v)].
Proof.
  intros Hsz Hnin. unfold set_and_trim.
  rewrite (set_notin _ _ _ Hnin).
  replace (JsMap.size (((k0, v0) :: rest) ++ [(k, v)]) >? cap) with true.
  - cbn. by rewrite String.eqb_refl.
  - symmetry. apply Z.gtb_lt. unfold JsMap.size in *.
    rewrite length_app. cbn in *. lia.
Qed.

(** Any other insertion (the key is present, or the cache is not full)
    keeps the map produced by [set] whole. *)
Lemma set_and_trim_no_eviction cap k v m :
  JsMap.size m <= cap ->
  k ∈ JsMap.keys m \/ JsMap.size m < cap ->
  set_and_trim cap k v m = JsMap.set k v m.
Proof.
  intros Hle Hcase. unfold set_and_trim.
  replace (JsMap.size (JsMap.set k v m) >? cap) with false; [done|].
  symmetry. rewrite Z.gtb_ltb. apply Z.ltb_ge. unfold JsMap.size in *.
  destruct Hcase as [Hin|Hlt].
  - rewrite length_set_in by done. lia.
  - pose proof (length_set_le k v m). lia.
Qed.

Lemma keys_set_superset k v m : JsMap.keys m ⊆ JsMap.keys (JsMap.set k v m).
Proof.
  destruct (decide (k ∈ JsMap.keys m)) as [Hin|Hnin].
  - by rewrite keys_set_in.
  - rewrite set_notin by done. unfold JsMap.keys. rewrite fmap_app.
    intros x Hx. apply elem_of_app. by left.
Qed.

End JsMapFacts.

Section CacheFacts.

Implicit Types (m : JsMap.t) (k v : string).

Lemma store_all_snoc cap entries k v m :
  store_all cap (entries ++ [(k, v)]) m = set_and_trim cap k v (store_all cap entries m).
Proof. unfold store_all. by rewrite fold_left_app. Qed.

Lemma store_all_reachable cap entries :
  cache_reachable cap (store_all cap entries JsMap.empty).
Proof.
  induction entries as [|[k v] entries IH] using rev_ind.
  - constructor.
  - rewrite store_all_snoc. by constructor.
Qed.

(** Distinct keys stored into an empty cache: the cache holds the last
    [cap] of them, in the order they were stored. *)
Lemma store_all_distinct cap entries :
  0 <= cap -> NoDup entries.*1 ->
  store_all cap entries JsMap.empty
  = drop (length entries - Z.to_nat cap) entries.
Proof.
  intros Hcap. induction entries as [|[k v] entries IH] using rev_ind; intros Hnd.
  - done.
  - rewrite store_all_snoc. rewrite fmap_app in Hnd.
    apply NoDup_app in Hnd as (Hnd & Hk & _). rewrite IH by done. clear IH.
    assert (k ∉ JsMap.keys (drop (length entries - Z.to_nat cap) entries)) as Hnin.
    { intros Hin. apply (Hk k); [|cbn; left].
      unfold JsMap.keys in Hin. rewrite fmap_drop in Hin.
      rewrite <- (take_drop (length entries - Z.to_nat cap) entries.*1).
      apply elem_of_app. by right. }
    unfold set_and_trim. rewrite (set_notin _ _ _ Hnin).
    unfold JsMap.size. rewrite !length_app, length_drop. cbn [length].
    destruct (Z.gtb_spec
                (Z.of_nat (length entries - (length entries - Z.to_nat cap) + 1)) cap)
      as [Hgt|Hle].
    + assert (Z.to_nat cap <= length entries)%nat as Hfull by lia.
      destruct (drop (length entries - Z.to_nat cap) entries) as [|[k0 v0] rest] eqn:Hd.
      { apply (f_equal length) in Hd. rewrite length_drop in Hd. cbn in Hd.
        cbn. replace (length entries + 1 - Z.to_nat cap)%nat
          with (S (length entries - Z.to_nat cap)) by lia.
        assert (Z.to_nat cap = 0)%nat as Hc by lia. rewrite Hc, Nat.sub_0_r.
        rewrite String.eqb_refl. symmetry. apply drop_ge.
        rewrite length_app. cbn. lia. }
      cbn. rewrite String.eqb_refl.
      replace (length entries + 1 - Z.to_nat cap)%nat
        with (S (length entries - Z.to_nat cap)) by lia.
      assert (S (length entries - Z.to_nat cap) <= length entries)%nat as Hlt.
      { apply (f_equal length) in Hd. rewrite length_drop in Hd. cbn in Hd. lia. }
      rewrite drop_app_le by done. f_equal.
      replace (S (length entries - Z.to_nat cap))
        with ((length entries - Z.to_nat cap) + 1)%nat by lia.
      by rewrite <- drop_drop, Hd.
    + rewrite drop_app_le by lia.
      replace (length entries + 1 - Z.to_nat cap)%nat
        with (length entries - Z.to_nat cap)%nat by lia.
      done.
Qed.

(** C8.  [cap] is the capacity of the text cache of the content script
    (50) or of the response cache of the background script (100), and [m] a
    cache as the script can build it.  The cache holds at most [cap]
    entries, before and after an insertion.  Inserting a new key into a
    full cache evicts the key at the head, which is the oldest inserted of
    those present, and only it: the other entries are all retained in their
    order, followed by the new one.  Any other insertion (the key is
    present, or the cache is not full) evicts nothing.  Storing distinct
    keys into an empty cache leaves the last [cap] of them, the first
    stored being the first to go; 51 distinct keys stored into the cache
    of capacity 50 leave all but the first. *)
Theorem cache_is_bounded_and_evicts_oldest_inserted
    (cap : Z) (m : JsMap.t) (k v : string) :
  cap = tweetCache_capacity \/ cap = apiCache_capacity ->
  cache_reachable cap m ->
  JsMap.size m <= cap
  /\ JsMap.size (set_and_trim cap k v m) <= cap
  /\ (JsMap.size m = cap -> k ∉ JsMap.keys m ->
      exists k0 v0 rest,
        m = (k0, v0) :: rest
        /\ set_and_trim cap k v m = rest ++ [(k, v)]
        /\ k0 ∉ JsMap.keys (set_and_trim cap k v m))
  /\ (k ∈ JsMap.keys m \/ JsMap.size m < cap ->
      set_and_trim cap k v m = JsMap.set k v m
      /\ JsMap.keys m ⊆ JsMap.keys (set_and_trim cap k v m))
  /\ (forall entries : list (string * string),
        NoDup entries.*1 ->
        store_all cap entries JsMap.empty
        = drop (length entries - Z.to_nat cap) entries)
  /\ (forall entry (entries : list (string * string)),
        NoDup (entry :: entries).*1 -> length entries = 50%nat ->
        store_all tweetCache_capacity (entry :: entries) JsMap.empty = entries).
Proof.
  intros Hcap Hreach.
  assert (0 <= cap) as Hpos
    by (unfold tweetCache_capacity, apiCache_capacity in Hcap; lia).
  pose proof (cache_reachable_inv cap m Hpos Hreach) as [Hnd Hsize].
  split_and!.
  - done.
  - by apply set_and_trim_size.
  - intros Hfull Hnew. destruct m as [|[k0 v0] rest].
    + unfold JsMap.size in Hfull. cbn in Hfull. exists k, v, [].
      subst cap. unfold tweetCache_capacity, apiCache_capacity in Hcap. lia.
    + exists k0, v0, rest. rewrite (set_and_trim_full cap k v k0 v0 rest Hfull Hnew).
      split_and!; try done. unfold JsMap.keys in *. rewrite fmap_app. cbn in *.
      apply NoDup_cons in Hnd as [Hhead _]. intros Hin.
      apply elem_of_app in Hin as [Hin|Hin]; [done|].
      apply list_elem_of_singleton in Hin. subst k0. apply Hnew. left.
  - intros Hcase. rewrite (set_and_trim_no_eviction cap k v m Hsize Hcase).
    split; [done|apply keys_set_superset].
  - intros entries Hdistinct. by apply store_all_distinct.
  - intros entry entries Hdistinct Hlen.
    rewrite store_all_distinct by done. cbn [length]. rewrite Hlen. done.
Qed.

Lemma cache_is_bounded_and_evicts_oldest_inserted_witness :
  (tweetCache_capacity = tweetCache_capacity \/ tweetCache_capacity = apiCache_capacity)
  /\ cache_reachable tweetCache_capacity
       (store_all tweetCache_capacity [("t1", "one"); ("t2", "two")] JsMap.empty)
  /\ JsMap.size (store_all tweetCache_capacity [("t1", "one"); ("t2", "two")] JsMap.empty)
     <= tweetCache_capacity.
Proof.
  split; [by left|]. split; [apply store_all_reachable|].
  exact (proj1
    (cache_is_bounded_and_evicts_oldest_inserted tweetCache_capacity
       (store_all tweetCache_capacity [("t1", "one"); ("t2", "two")] JsMap.empty)
       "t3" "three" (or_introl eq_refl)
       (store_all_reachable tweetCache_capacity [("t1", "one"); ("t2", "two")]))).
Defined.

(** The response cache of [processApiRequest] is filled by [set_and_trim]
    with the capacity 100. *)
Lemma cache_response_reachable prompt cleanResponse apiCache :
  cache_reachable apiCache_capacity apiCache ->
  cache_reachable apiCache_capacity
    (Background.cache_response prompt cleanResponse apiCache).
Proof. intros Hreach. by constructor. Qed.

End CacheFacts.

(** ** Rules for [maintains] *)

Section Rules.

Context {S : Type} (P : S -> Prop).

Lemma maintains_ret {A} (a : A) : maintains P (JS.ret a).
Proof. by intros env s. Qed.

Lemma maintains_gets {A} (g : S -> A) : maintains P (JS.gets g).
Proof. by intros env s. Qed.

Lemma maintains_asks {A} (g : Env -> A) : maintains P (JS.asks g).
Proof. by intros env s. Qed.

Lemma maintains_emit eff : maintains P (JS.emit eff).
Proof. by intros env s. Qed.

Lemma maintains_throw {A} : maintains P (@JS.throw S A).
Proof. by intros env s. Qed.

Lemma maintains_perform eff : maintains P (JS.perform eff).
Proof. intros env s. unfold JS.perform. by destruct (throws env eff). Qed.

Lemma maintains_modify (g : S -> S) :
  (forall s, P s -> P (g s)) -> maintains P (JS.modify g).
Proof. intros Hg env s. apply Hg. Qed.

Lemma maintains_bind {A B} (m : JS.M S A) (k : A -> JS.M S B) :
  maintains P m -> (forall a, maintains P (k a)) -> maintains P (JS.bind m k).
Proof.
  intros Hm Hk env s Hs. specialize (Hm env s Hs).
  unfold JS.bind, JS.state_of in *.
  destruct (m env s) as [[[a|] s1] t1]; cbn in *; [|done].
  specialize (Hk a env s1 Hm). unfold JS.state_of in Hk.
  by destruct (k a env s1) as [[r s2] t2].
Qed.

Lemma maintains_try_catch {A} (body handler : JS.M S A) :
  maintains P body -> maintains P handler ->
  maintains P (JS.try_catch body handler).
Proof.
  intros Hb Hh env s Hs. specialize (Hb env s Hs).
  unfold JS.try_catch, JS.state_of in *.
  destruct (body env s) as [[[a|] s1] t1]; cbn in *; [done|].
  specialize (Hh env s1 Hb). unfold JS.state_of in Hh.
  by destruct (handler env s1) as [[r s2] t2].
Qed.

Lemma maintains_try_catch_finally (body handler final : JS.M S unit) :
  maintains P body -> maintains P handler -> maintains P final ->
  maintains P (JS.try_catch_finally body handler final).
Proof.
  intros Hb Hh Hf env s Hs.
  pose proof (maintains_try_catch body handler Hb Hh env s Hs) as H1.
  unfold JS.try_catch_finally, JS.state_of in *.
  destruct (JS.try_catch body handler env s) as [[r1 s1] t1]; cbn in *.
  specialize (Hf env s1 H1). unfold JS.state_of in Hf.
  by destruct (final env s1) as [[r2 s2] t2].
Qed.

Lemma maintains_detached {A} (m : JS.M S A) :
  maintains P m -> maintains P (JS.detached m).
Proof.
  intros Hm env s Hs. specialize (Hm env s Hs).
  unfold JS.detached, JS.state_of in *.
  by destruct (m env s) as [[r s1] t1].
Qed.

Lemma maintains_when c (m : JS.M S unit) : maintains P m -> maintains P (when c m).
Proof. intros Hm. destruct c; [done|apply maintains_ret]. Qed.

End Rules.

Lemma preserves_eq {S X A} (f : S -> X) (m : JS.M S A) env s :
  preserves f m -> f (JS.state_of (m env s)) = f s.
Proof. intros Hm. by apply (Hm (f s) env s). Qed.

(** One step of a proof of [maintains]: the rule for the head of the
    handler, a case split on what it tests, or [side] for an assignment. *)
Ltac maintains_step side :=
  first
    [ apply maintains_ret | apply maintains_gets | apply maintains_asks
    | apply maintains_emit | apply maintains_perform | apply maintains_throw
    | apply maintains_modify; side
    | apply maintains_when
    | apply maintains_detached
    | apply maintains_try_catch
    | apply maintains_try_catch_finally
    | apply maintains_bind; [|intros ?]
    | match goal with
      | |- maintains _ (if ?c then _ else _) => destruct c
      | |- maintains _ (match ?x with _ => _ end) => destruct x
      end ].

(** Assignments to other variables leave [f] alone. *)
Ltac frame_side := intros [] ?; first [assumption | reflexivity].

Ltac frame := intros ?; repeat maintains_step frame_side.

(** ** Running a handler symbolically *)

Section Exec.

Context {S : Type}.

Implicit Types (env : Env) (s : S).

Lemma after_nil {A} (x : JS.Res A * S * list Effect) : after [] x = x.
Proof. by destruct x as [[r s] t]. Qed.

Lemma after_after {A} t1 t2 (x : JS.Res A * S * list Effect) :
  after t1 (after t2 x) = after (t1 ++ t2) x.
Proof. destruct x as [[r s] t]. unfold after. cbn. by rewrite app_assoc. Qed.

Lemma after_ret {A} t (a : A) env s :
  after t (JS.ret a env s) = (JS.Ok a, s, t).
Proof. unfold after. cbn. by rewrite app_nil_r. Qed.

Lemma after_emit t eff env s :
  after t (JS.emit eff env s) = (JS.Ok tt, s, t ++ [eff]).
Proof. done. Qed.


Lemma bind_run {A B} (m : JS.M S A) (k : A -> JS.M S B) env s :
  JS.bind m k env s
  = match m env s with
    | (JS.Ok a, s1, t1) => after t1 (k a env s1)
    | (JS.Exn, s1, t1) => (JS.Exn, s1, t1)
    end.
Proof.
  unfold JS.bind, after. destruct (m env s) as [[[a|] s1] t1]; [|done].
  by destruct (k a env s1) as [[r s2] t2].
Qed.

Lemma bind_ret {A B} (a : A) (k : A -> JS.M S B) env s :
  JS.bind (JS.ret a) k env s = k a env s.
Proof. rewrite bind_run. apply after_nil. Qed.

Lemma bind_gets {A B} (g : S -> A) (k : A -> JS.M S B) env s :
  JS.bind (JS.gets g) k env s = k (g s) env s.
Proof. rewrite bind_run. apply after_nil. Qed.

Lemma bind_asks {A B} (g : Env -> A) (k : A -> JS.M S B) env s :
  JS.bind (JS.asks g) k env s = k (g env) env s.
Proof. rewrite bind_run. apply after_nil. Qed.

Lemma bind_modify {B} (g : S -> S) (k : unit -> JS.M S B) env s :
  JS.bind (JS.modify g) k env s = k tt env (g s).
Proof. rewrite bind_run. apply after_nil. Qed.

Lemma bind_emit {B} eff (k : unit -> JS.M S B) env s :
  JS.bind (JS.emit eff) k env s = after [eff] (k tt env s).
Proof. by rewrite bind_run. Qed.

Lemma bind_throw {A B} (k : A -> JS.M S B) env s :
  JS.bind JS.throw k env s = (JS.Exn, s, []).
Proof. by rewrite bind_run. Qed.

Lemma bind_perform {B} eff (k : unit -> JS.M S B) env s :
  JS.bind (JS.perform eff) k env s
  = if throws env eff then (JS.Exn, s, []) else after [eff] (k tt env s).
Proof. rewrite bind_run. unfold JS.perform. by destruct (throws env eff). Qed.

Lemma bind_bind {A B C} (m : JS.M S A) (k1 : A -> JS.M S B) (k2 : B -> JS.M S C) env s :
  JS.bind (JS.bind m k1) k2 env s = JS.bind m (fun a => JS.bind (k1 a) k2) env s.
Proof.
  rewrite !bind_run. destruct (m env s) as [[[a|] s1] t1]; [|done].
  rewrite bind_run. destruct (k1 a env s1) as [[[b|] s2] t2]; [|done].
  cbn. by rewrite after_after.
Qed.

Lemma bind_when {B} c (m : JS.M S unit) (k : unit -> JS.M S B) env s :
  JS.bind (when c m) k env s
  = if c then JS.bind m k env s else k tt env s.
Proof. destruct c; [done|]. apply bind_ret. Qed.

Lemma try_catch_run {A} (body handler : JS.M S A) env s :
  JS.try_catch body handler env s
  = match body env s with
    | (JS.Exn, s1, t1) => after t1 (handler env s1)
    | done => done
    end.
Proof.
  unfold JS.try_catch, after. destruct (body env s) as [[[a|] s1] t1]; [done|].
  by destruct (handler env s1) as [[r s2] t2].
Qed.

End Exec.

(** Rewriting with these runs a handler up to the next call whose outcome
    is not known. *)
Ltac exec :=
  repeat first
    [ rewrite bind_bind | rewrite bind_ret | rewrite bind_gets | rewrite bind_asks
    | rewrite bind_modify | rewrite bind_emit | rewrite bind_throw
    | rewrite bind_when | rewrite after_nil | rewrite after_after
    | rewrite after_ret | rewrite after_emit ].

(** ** Rules for [triple] *)

Section Triples.

Context {S : Type} (env : Env).

Lemma triple_bind {A B} (P : S -> Prop) (Q1 : JS.Res A -> S -> Prop)
    (Q : JS.Res B -> S -> Prop) (m : JS.M S A) (k : A -> JS.M S B) :
  triple env P m Q1 ->
  (forall a, triple env (Q1 (JS.Ok a)) (k a) Q) ->
  (forall s, Q1 JS.Exn s -> Q JS.Exn s) ->
  triple env P (JS.bind m k) Q.
Proof.
  intros Hm Hk Hexn s Hs. specialize (Hm s Hs). rewrite bind_run.
  unfold JS.result_of, JS.state_of in *.
  destruct (m env s) as [[[a|] s1] t1]; cbn in *.
  - apply (Hk a s1 Hm).
  - by apply Hexn.
Qed.

(** A call that keeps [P], followed by the rest. *)
Lemma triple_bind_frame {A B} (P : S -> Prop) (Q : JS.Res B -> S -> Prop)
    (m : JS.M S A) (k : A -> JS.M S B) :
  maintains P m ->
  (forall a, triple env P (k a) Q) ->
  (forall s, P s -> Q JS.Exn s) ->
  triple env P (JS.bind m k) Q.
Proof.
  intros Hm Hk Hexn. apply (triple_bind P (fun _ => P)); [|done|done].
  intros s Hs. by apply Hm.
Qed.

Lemma triple_try_catch {A} (P : S -> Prop) (Q1 Q : JS.Res A -> S -> Prop)
    (body handler : JS.M S A) :
  triple env P body Q1 ->
  (forall a s, Q1 (JS.Ok a) s -> Q (JS.Ok a) s) ->
  triple env (Q1 JS.Exn) handler Q ->
  triple env P (JS.try_catch body handler) Q.
Proof.
  intros Hb Hok Hh s Hs. specialize (Hb s Hs). rewrite try_catch_run.
  unfold JS.result_of, JS.state_of in *.
  destruct (body env s) as [[[a|] s1] t1]; cbn in *.
  - by apply Hok.
  - apply (Hh s1 Hb).
Qed.

Lemma triple_asks_bind {A B} (P : S -> Prop) (Q : JS.Res B -> S -> Prop)
    (g : Env -> A) (k : A -> JS.M S B) :
  triple env P (k (g env)) Q -> triple env P (JS.bind (JS.asks g) k) Q.
Proof. intros Hk s Hs. rewrite bind_asks. by apply Hk. Qed.

Lemma triple_maintains {A} (P : S -> Prop) (m : JS.M S A) :
  maintains P m -> triple env P m (fun _ => P).
Proof. intros Hm s Hs. by apply Hm. Qed.

End Triples.

(** ** Liking *)

Section Like.

Lemma likePostFast_liked env s tweet :
  likeButton (article env tweet) = true ->
  unlikeMarker (article env tweet) = true ->
  Fast.likePostFast tweet env s
  = (JS.Ok true, Fast.set_processedLikes (Fast.processedLikes s + 1) s, []).
Proof.
  intros Hlike Hmark. unfold Fast.likePostFast. exec.
  rewrite Hlike, Hmark. cbn [negb]. by exec.
Qed.

Lemma likePostFast_no_button env s tweet :
  likeButton (article env tweet) = false ->
  Fast.likePostFast tweet env s = (JS.Ok false, s, []).
Proof. intros Hlike. unfold Fast.likePostFast. exec. by rewrite Hlike. Qed.

Lemma likePost_liked env s tweet :
  likeButton (article env tweet) = true ->
  unlikeMarker (article env tweet) = true ->
  let s' := Original.set_processedLikes (Original.processedLikes s + 1) s in
  let shown :=
    UpdateCounterDisplay (Original.totalTweets s') (Original.processedLikes s')
      (Original.processedComments s') in
  Original.likePost tweet env s
  = if throws env shown then (JS.Exn, s', []) else (JS.Ok true, s', [shown]).
Proof.
  intros Hlike Hmark. unfold Original.likePost, Original.likePost_found. exec.
  rewrite Hlike. cbn [negb]. exec. rewrite Hmark. exec.
  unfold Original.updateCounterDisplay. exec. rewrite bind_perform.
  destruct s; cbn. by destruct (throws env _).
Qed.

(** C4 (amended).  On an item bearing the liked marker, [like] succeeds
    without a click when it finds the like affordance, and adds one to the
    like counter on every such call: two calls in a row add two.  When the
    like affordance is not found it reports failure whatever the marker
    says (the original script looks for it a second time, a second later).
    The optimized and the original script agree, the original refreshing
    the counter display as well. *)
Theorem like_on_liked_item_counts_every_call
    (env : Env) (s : Fast.State) (s0 : Original.State) (tweet : Element) :
  unlikeMarker (article env tweet) = true ->
  (forall t l c, throws env (UpdateCounterDisplay t l c) = false) ->
  Fast.likePostFast tweet env s
  = (if likeButton (article env tweet)
     then (JS.Ok true, Fast.set_processedLikes (Fast.processedLikes s + 1) s, [])
     else (JS.Ok false, s, []))
  /\ JS.bind (Fast.likePostFast tweet) (fun _ => Fast.likePostFast tweet) env s
     = (if likeButton (article env tweet)
        then (JS.Ok true, Fast.set_processedLikes (Fast.processedLikes s + 2) s, [])
        else (JS.Ok false, s, []))
  /\ Original.likePost tweet env s0
     = (let s1 := Original.set_processedLikes (Original.processedLikes s0 + 1) s0 in
        let shown :=
          UpdateCounterDisplay (Original.totalTweets s1) (Original.processedLikes s1)
            (Original.processedComments s1) in
        if likeButton (article env tweet) then (JS.Ok true, s1, [shown])
        else if likeButtonRetry (article env tweet)
             then (JS.Ok true, s1, [Delay 1000; shown])
             else (JS.Ok false, s0, [Delay 1000])).
Proof.
  intros Hmark Hshow. destruct (likeButton (article env tweet)) eqn:Hlike.
  - split_and!.
    + by apply likePostFast_liked.
    + rewrite bind_run, likePostFast_liked by done.
      rewrite after_nil, likePostFast_liked by done.
      destruct s; cbn. do 3 f_equal. lia.
    + rewrite likePost_liked by done. cbn zeta. by rewrite Hshow.
  - split_and!.
    + by apply likePostFast_no_button.
    + rewrite bind_run, likePostFast_no_button by done.
      by rewrite likePostFast_no_button.
    + unfold Original.likePost, Original.likePost_found. exec.
      rewrite Hlike. cbn [negb]. unfold Original.delay. exec.
      destruct (likeButtonRetry (article env tweet)); cbn [negb]; [|by exec].
      exec. rewrite Hmark. exec. unfold Original.updateCounterDisplay. exec.
      rewrite bind_perform. destruct s0; cbn. by rewrite Hshow.
Qed.

Lemma like_on_liked_item_counts_every_call_witness :
  unlikeMarker (article (Page.showing 0 [Page.liked "A"]) 0%nat) = true
  /\ (forall t l c,
        throws (Page.showing 0 [Page.liked "A"]) (UpdateCounterDisplay t l c) = false)
  /\ Fast.likePostFast 0%nat (Page.showing 0 [Page.liked "A"]) Fast.initial_state
     = (JS.Ok true, Fast.set_processedLikes 1 Fast.initial_state, []).
Proof.
  split; [reflexivity|]. split; [reflexivity|].
  apply (like_on_liked_item_counts_every_call
           (Page.showing 0 [Page.liked "A"]) Fast.initial_state
           Original.initial_state 0%nat); reflexivity.
Defined.

(** C4, as stated, fails: the second call on the same liked item adds to
    the like counter again. *)
Lemma like_twice_counts_twice :
  unlikeMarker (article (Page.showing 0 [Page.liked "A"]) 0%nat) = true
  /\ Fast.likePostFast 0%nat (Page.showing 0 [Page.liked "A"]) Fast.initial_state
     = (JS.Ok true, Fast.set_processedLikes 1 Fast.initial_state, [])
  /\ Fast.likePostFast 0%nat (Page.showing 0 [Page.liked "A"])
       (Fast.set_processedLikes 1 Fast.initial_state)
     = (JS.Ok true, Fast.set_processedLikes 2 Fast.initial_state, [])
  /\ Fast.processedLikes (Fast.set_processedLikes 1 Fast.initial_state) = 1
  /\ Fast.processedLikes (Fast.set_processedLikes 2 Fast.initial_state) = 2.
Proof. repeat split. Qed.

End Like.

(** ** What the handlers of the optimized script leave alone *)

(** A property of the form [f s = x] withstands the assignments to the
    variables other than the one [f] reads. *)
Ltac stable := repeat split; intros ? [] ?; assumption.

Section FastFrames.

Import Fast.

Ltac stable_side H :=
  let s := fresh "s" in
  let Hs := fresh "Hs" in
  intros s Hs; cbn beta;
  destruct H as (?H & ?H & ?H & ?H & ?H & ?H);
  first [ eauto ].

Lemma engageWithTweetFast_maintains P tweet tweetId :
  engage_stable P -> maintains P (engageWithTweetFast tweet tweetId).
Proof.
  intros H.
  unfold engageWithTweetFast, likePostFast, commentOnPostFast, getTweetTextFast,
    shouldCommentFast, updateLastActionTime, updateCounterDisplay, setting, delay.
  repeat maintains_step ltac:(stable_side H).
Qed.

Lemma engageWithTweetFast_actionQueue tweet tweetId :
  preserves actionQueue (engageWithTweetFast tweet tweetId).
Proof. intros x. apply engageWithTweetFast_maintains. stable. Qed.

Lemma engageWithTweetFast_fastMode tweet tweetId :
  preserves fastMode (engageWithTweetFast tweet tweetId).
Proof. intros x. apply engageWithTweetFast_maintains. stable. Qed.

(** An engagement settles with a boolean: its [catch] returns [false]. *)
Lemma engageWithTweetFast_returns tweet tweetId env s :
  exists actionTaken,
    JS.result_of (engageWithTweetFast tweet tweetId env s) = JS.Ok actionTaken.
Proof.
  unfold engageWithTweetFast. rewrite try_catch_run.
  match goal with |- context [match ?b env s with _ => _ end] =>
    destruct (b env s) as [[[a|] s1] t1] end.
  - by exists a.
  - exists false. by exec.
Qed.

(** The text cache is filled by [set_and_trim] with the capacity 50. *)
Lemma getTweetTextFast_cache_reachable tweet :
  maintains (fun s => cache_reachable tweetCache_capacity (tweetCache s))
    (getTweetTextFast tweet).
Proof.
  intros env s Hreach. unfold getTweetTextFast. exec.
  destruct (JsMap.get _ _); [done|]. destruct (tweetText _); [|done].
  exec. cbn. destruct s; cbn in *. by constructor.
Qed.

End FastFrames.

(** ** The action queue *)

Section Queue.

Import Fast.

Lemma set_actionQueue_twice q q' s :
  set_actionQueue q' (set_actionQueue q s) = set_actionQueue q' s.
Proof. by destruct s. Qed.

Lemma actionQueue_set q s : actionQueue (set_actionQueue q s) = q.
Proof. by destruct s. Qed.

Lemma drain_loop_run env s :
  drain_loop env s
  = match next_action (Date_now env) (actionQueue s) with
    | (Some action, rest) =>
        (JS.Ok (Some (DrainEngaging action)), set_actionQueue rest s, [])
    | (None, rest) =>
        (JS.Ok None, set_isProcessingQueue false (set_actionQueue rest s), [])
    end.
Proof.
  unfold drain_loop. exec.
  destruct (next_action _ _) as [[action|] rest]; by exec.
Qed.

Lemma next_action_stale now action rest :
  now - timestamp action > 30000 ->
  next_action now (action :: rest) = next_action now rest.
Proof.
  intros Hold. cbn.
  by destruct (Z.gtb_spec (now - timestamp action) 30000); [|lia].
Qed.

Lemma next_action_fresh now action rest :
  now - timestamp action <= 30000 ->
  next_action now (action :: rest) = (Some action, rest).
Proof.
  intros Hnew. cbn.
  by destruct (Z.gtb_spec (now - timestamp action) 30000); [lia|].
Qed.

(** What the loop dispatches is not older than 30 seconds. *)
Lemma next_action_not_stale now queue action rest :
  next_action now queue = (Some action, rest) ->
  now - timestamp action <= 30000.
Proof.
  induction queue as [|a queue IH]; cbn; [done|].
  destruct (Z.gtb_spec (now - timestamp a) 30000); [done|].
  intros [= <- _]. lia.
Qed.

Lemma drain_loop_frame {X} (f : State -> X) :
  (forall v s, f (set_actionQueue v s) = f s) ->
  (forall v s, f (set_isProcessingQueue v s) = f s) ->
  preserves f drain_loop.
Proof.
  intros Hq Hp x env s <-. rewrite drain_loop_run.
  destruct (next_action _ _) as [[action|] rest]; cbn; by rewrite ?Hp, ?Hq.
Qed.

Lemma drain_resume_engaging action env s :
  drain_resume (DrainEngaging action) env s
  = (JS.Ok (Some DrainPacing),
     JS.state_of (engageWithTweetFast (tweet action) (tweetId action) env s),
     JS.trace_of (engageWithTweetFast (tweet action) (tweetId action) env s)
     ++ [Delay (if fastMode s then 2000 else 5000)]).
Proof.
  unfold drain_resume. rewrite bind_run.
  pose proof (engageWithTweetFast_returns (tweet action) (tweetId action) env s)
    as [b Hb].
  pose proof (preserves_eq fastMode _ env s
                (engageWithTweetFast_fastMode (tweet action) (tweetId action)))
    as Hfast.
  destruct (engageWithTweetFast _ _ env s) as [[r s1] t1]. cbn in *. subst r.
  unfold delay. exec. by rewrite Hfast.
Qed.

(** C3.  The loop reaches [action] at the head of the queue at time
    [Date_now env].  If the action is older than 30000 ms, the loop goes on
    exactly as if the action had not been queued: it is not dispatched,
    nothing is done to the page, and no counter changes.  Otherwise the loop
    pops it and suspends on its engagement; when the loop resumes at a later
    [env'], the engagement of that tweet runs, the pacing delay follows
    (2000 ms in fast mode, 5000 ms otherwise), and the queue is not popped
    again before that delay. *)
Theorem stale_actions_are_dropped_and_fresh_ones_dispatched
    (env env' : Env) (s s' : State) (action : QueuedAction) (rest : list QueuedAction) :
  actionQueue s = action :: rest ->
  (if Date_now env - timestamp action >? 30000 then
     drain_loop env s = drain_loop env (set_actionQueue rest s)
     /\ JS.result_of (drain_loop env s) <> JS.Ok (Some (DrainEngaging action))
     /\ JS.trace_of (drain_loop env s) = []
     /\ totalTweets (JS.state_of (drain_loop env s)) = totalTweets s
     /\ processedLikes (JS.state_of (drain_loop env s)) = processedLikes s
     /\ processedComments (JS.state_of (drain_loop env s)) = processedComments s
     /\ processedTweets (JS.state_of (drain_loop env s)) = processedTweets s
   else
     drain_loop env s
     = (JS.Ok (Some (DrainEngaging action)), set_actionQueue rest s, []))
  /\ drain_resume (DrainEngaging action) env' s'
     = (JS.Ok (Some DrainPacing),
        JS.state_of (engageWithTweetFast (tweet action) (tweetId action) env' s'),
        JS.trace_of (engageWithTweetFast (tweet action) (tweetId action) env' s')
        ++ [Delay (if fastMode s' then 2000 else 5000)])
  /\ actionQueue (JS.state_of (drain_resume (DrainEngaging action) env' s'))
     = actionQueue s'.
Proof.
  intros Hqueue. split_and!.
  - destruct (Z.gtb_spec (Date_now env - timestamp action) 30000) as [Hold|Hnew].
    + split_and!.
      * rewrite !drain_loop_run, Hqueue, actionQueue_set.
        rewrite next_action_stale by lia.
        destruct (next_action _ rest) as [[next|] rest'];
          by rewrite set_actionQueue_twice.
      * rewrite drain_loop_run, Hqueue, next_action_stale by lia.
        destruct (next_action _ rest) as [[next|] rest'] eqn:Hnext; [|done].
        cbn. intros [= ->]. apply next_action_not_stale in Hnext. lia.
      * rewrite drain_loop_run. by destruct (next_action _ _) as [[next|] rest'].
      * by apply (preserves_eq totalTweets), drain_loop_frame; intros ? [].
      * by apply (preserves_eq processedLikes), drain_loop_frame; intros ? [].
      * by apply (preserves_eq processedComments), drain_loop_frame; intros ? [].
      * by apply (preserves_eq processedTweets), drain_loop_frame; intros ? [].
    + by rewrite drain_loop_run, Hqueue, next_action_fresh.
  - apply drain_resume_engaging.
  - rewrite drain_resume_engaging. cbn.
    apply (preserves_eq actionQueue), engageWithTweetFast_actionQueue.
Qed.

Lemma stale_actions_are_dropped_and_fresh_ones_dispatched_witness :
  actionQueue
    (set_actionQueue [ {| tweet := 0%nat; tweetId := "A"; timestamp := 0 |} ]
       initial_state)
  = [ {| tweet := 0%nat; tweetId := "A"; timestamp := 0 |} ]
  /\ drain_loop (Page.showing 30001 [Page.plain "A"])
       (set_actionQueue [ {| tweet := 0%nat; tweetId := "A"; timestamp := 0 |} ]
          initial_state)
     = drain_loop (Page.showing 30001 [Page.plain "A"])
         (set_actionQueue []
            (set_actionQueue [ {| tweet := 0%nat; tweetId := "A"; timestamp := 0 |} ]
               initial_state)).
Proof.
  split; [reflexivity|].
  exact (proj1 (proj1
    (stale_actions_are_dropped_and_fresh_ones_dispatched
       (Page.showing 30001 [Page.plain "A"]) (Page.showing 30001 [Page.plain "A"])
       (set_actionQueue [ {| tweet := 0%nat; tweetId := "A"; timestamp := 0 |} ]
          initial_state)
       initial_state
       {| tweet := 0%nat; tweetId := "A"; timestamp := 0 |} [] eq_refl))).
Defined.

(** The boundary: reached 30001 ms after it was queued an action is dropped
    and the queue, now empty, is released; reached after 29999 ms, or after
    exactly 30000 ms, it is dispatched. *)
Example reached_after_30001_ms :
  drain_loop (Page.showing 30001 [Page.plain "A"])
    (set_actionQueue [ {| tweet := 0%nat; tweetId := "A"; timestamp := 0 |} ]
       initial_state)
  = (JS.Ok None, set_isProcessingQueue false (set_actionQueue [] initial_state), []).
Proof. reflexivity. Qed.

Example reached_after_29999_ms :
  drain_loop (Page.showing 29999 [Page.plain "A"])
    (set_actionQueue [ {| tweet := 0%nat; tweetId := "A"; timestamp := 0 |} ]
       initial_state)
  = (JS.Ok (Some (DrainEngaging {| tweet := 0%nat; tweetId := "A"; timestamp := 0 |})),
     set_actionQueue [] initial_state, []).
Proof. reflexivity. Qed.

Example reached_after_30000_ms :
  drain_loop (Page.showing 30000 [Page.plain "A"])
    (set_actionQueue [ {| tweet := 0%nat; tweetId := "A"; timestamp := 0 |} ]
       initial_state)
  = (JS.Ok (Some (DrainEngaging {| tweet := 0%nat; tweetId := "A"; timestamp := 0 |})),
     set_actionQueue [] initial_state, []).
Proof. reflexivity. Qed.

Lemma find_some_holds {A} (f : A -> bool) (l : list A) (x : A) :
  List.find f l = Some x -> x ∈ l /\ f x = true.
Proof.
  intros H. apply List.find_some in H as [Hin Hf]. split; [|done].
  by apply list_elem_of_In.
Qed.

(** [find] returns the first element that passes the test. *)
Lemma find_first {A} (f : A -> bool) (l : list A) (x : A) :
  List.find f l = Some x ->
  exists before rest,
    l = before ++ x :: rest /\ Forall (fun y => f y = false) before.
Proof.
  induction l as [|y l IH]; cbn; [done|].
  destruct (f y) eqn:Hy.
  - intros [= ->]. by exists [], l.
  - intros Hfind. destruct (IH Hfind) as (before & rest & -> & Hbefore).
    exists (y :: before), rest. split; [done|]. by constructor.
Qed.


End Queue.

(** ** The automation cycle *)

Ltac fast_unfold :=
  unfold Fast.onMessage, Fast.onVisibilityChange, Fast.onMutations, Fast.onInterval,
    Fast.onHeartbeat, Fast.initialize, Fast.startBackgroundMode,
    Fast.toggleAutomation, Fast.stopAutomation, Fast.startAutomationFast,
    Fast.processTweetsQuickly, Fast.scan_and_push, Fast.processActionQueue,
    Fast.drain_resume, Fast.drain_loop, Fast.runAutomation_resume,
    Fast.runAutomation, Fast.cycle_body, Fast.handleGroqResponse,
    Fast.handleCommentError, Fast.quickScroll, Fast.engageWithTweetFast,
    Fast.likePostFast, Fast.commentOnPostFast, Fast.getTweetTextFast,
    Fast.shouldCommentFast, Fast.updateLastActionTime, Fast.updateCounterDisplay,
    Fast.setting, Fast.setInterval, Fast.delay.

Section Cycle.

Import Fast Sched.



(** A call that does not pass the guard changes nothing. *)
Lemma runAutomation_guarded env s :
  guard_fails s = true -> runAutomation env s = (JS.Ok None, s, []).
Proof.
  intros Hguard. unfold runAutomation. exec. unfold id.
  unfold guard_fails in Hguard. by rewrite Hguard.
Qed.

(** A call that passes the guard sets the flag and runs the body: it is
    left suspended when the body reaches its [await]; when the body throws,
    [catch] logs and [finally] resets the flag. *)
Lemma runAutomation_started env s :
  guard_fails s = false ->
  runAutomation env s
  = match cycle_body env (set_isRunning true s) with
    | (JS.Ok c, s1, t1) => (JS.Ok (Some c), s1, t1)
    | (JS.Exn, s1, t1) =>
        (JS.Ok None, set_isRunning false s1,
         t1 ++ [LogError "Error in robust automation cycle"])
    end.
Proof.
  intros Hguard. unfold runAutomation. exec. unfold id.
  unfold guard_fails in Hguard. rewrite Hguard. exec.
  rewrite try_catch_run, bind_run.
  destruct (cycle_body env (set_isRunning true s)) as [[[c|] s1] t1].
  - by exec.
  - by exec.
Qed.










(** A cycle that finds no unprocessed article in view scrolls down by 85%
    of the viewport height and waits; when it goes on it only resets the
    flag. *)
Lemma runAutomation_nothing_in_view env s :
  guard_fails s = false ->
  (forall eff, throws env eff = false) ->
  List.find (unprocessed_in_view env s) (tweets env) = None ->
  runAutomation env s
  = (JS.Ok (Some AwaitScroll),
     set_totalTweets (Z.of_nat (length (tweets env))) (set_isRunning true s),
     [ UpdateCounterDisplay (Z.of_nat (length (tweets env))) (processedLikes s)
         (processedComments s);
       ScrollBy (inject_Z (window_innerHeight env) * (85 # 100)) ]).
Proof.
  intros Hguard Hquiet Hfind. rewrite runAutomation_started by done.
  unfold cycle_body, updateCounterDisplay. exec. rewrite bind_perform, Hquiet. exec.
  unfold id.
  replace (List.find _ (tweets env)) with (List.find (unprocessed_in_view env s) (tweets env))
    by (by destruct s).
  rewrite Hfind. exec. rewrite bind_perform, Hquiet. exec. by destruct s.
Qed.

Lemma runAutomation_resume_scroll env s :
  runAutomation_resume AwaitScroll env s = (JS.Ok tt, set_isRunning false s, []).
Proof. done. Qed.

Lemma onInterval_run env s :
  onInterval env s = if isRunning s then (JS.Ok None, s, []) else runAutomation env s.
Proof. unfold onInterval. exec. by destruct (isRunning s). Qed.

Lemma handle_snd {A} (m : M A) env sys :
  (handle m env sys).2
  = {| vars := JS.state_of (m env (vars sys)); cycles := cycles sys;
       drains := drains sys; trace := trace sys ++ JS.trace_of (m env (vars sys)) |}.
Proof. unfold handle. by destruct (m env (vars sys)) as [[r s1] t1]. Qed.










End Cycle.

(** ** The heartbeat *)

Section Heartbeat.

Import Fast Sched.












Lemma suspend_cycle_vars x : vars (suspend_cycle x) = vars x.2.
Proof. by destruct x as [[[c|]|] sys]. Qed.

Lemma suspend_drain_vars x : vars (suspend_drain x) = vars x.2.
Proof. by destruct x as [[[d|]|] sys]. Qed.



Lemma stopAutomation_run env s :
  stopAutomation env s
  = (JS.Ok tt,
     set_isRunning false (set_pageVisibilityInterval None (set_automationInterval None s)),
     []).
Proof.
  unfold stopAutomation. exec.
  destruct s as [? ? ? ? ? [a|] [h|] ? ? ? ? ? ? ? ? ? ? ?]; cbn; by exec.
Qed.

Lemma startAutomationFast_run env s :
  startAutomationFast env s
  = match automationInterval s with
    | Some _ => (JS.Ok tt, s, [])
    | None =>
        (JS.Ok tt,
         set_automationInterval (Some (S (timerSeq s)))
           (set_timerSeq (S (timerSeq s)) (set_runTimeouts (S (runTimeouts s)) s)),
         [])
    end.
Proof.
  unfold startAutomationFast, setInterval. exec.
  destruct (automationInterval s); exec; [done|]. by destruct s.
Qed.



End Heartbeat.

(** ** The seen counter *)

Section Seen.

Import Fast Sched.

(** A call of [runAutomation] that passes the guard sets the seen counter
    to the number of articles its query returns. *)
Lemma runAutomation_totalTweets env s :
  guard_fails s = false ->
  totalTweets (JS.state_of (runAutomation env s)) = Z.of_nat (length (tweets env)).
Proof.
  intros Hguard. rewrite runAutomation_started by done.
  unfold cycle_body, updateCounterDisplay. exec. rewrite bind_perform.
  set (s1 := set_totalTweets _ _).
  assert (totalTweets s1 = Z.of_nat (length (tweets env))) as H1
    by (subst s1; by destruct s).
  assert (totalTweets (set_isRunning false s1) = Z.of_nat (length (tweets env))) as H2
    by (subst s1; by destruct s).
  destruct (throws env _); [done|]. exec. unfold id.
  destruct (List.find _ _); exec; [done|].
  rewrite bind_perform. destruct (throws env _); [done|]. by exec.
Qed.

(** An engagement adds one to the seen counter when it took an action
    (lines 224-229), and leaves it alone otherwise. *)
Lemma engageWithTweetFast_totalTweets tweet tweetId env n :
  (forall t l c, throws env (UpdateCounterDisplay t l c) = false) ->
  triple env (fun s => totalTweets s = n) (engageWithTweetFast tweet tweetId)
    (fun r s => totalTweets s = n + match r with JS.Ok true => 1 | _ => 0 end).
Proof.
  intros Hshow. unfold engageWithTweetFast.
  apply triple_try_catch with
    (Q1 := fun (r : JS.Res bool) (s : State) =>
             match r with
                      | JS.Ok b => totalTweets s = n + (if b then 1 else 0)
                      | JS.Exn => totalTweets s = n
                      end).
  - repeat (apply triple_bind_frame;
              [solve [fast_unfold; repeat maintains_step frame_side]
              | intros ? | done]).
    intros s Hs. cbn zeta.
    match goal with |- context [when ?c _] => destruct c end.
    + unfold when, updateLastActionTime, updateCounterDisplay. exec.
      rewrite bind_perform, Hshow. exec. cbn. destruct s; cbn in *. lia.
    + unfold when. exec. cbn. lia.
  - intros [] s Hs; done.
  - intros s Hs. exec. cbn. lia.
Qed.

Lemma engageWithTweet_totalTweets tweet :
  preserves Original.totalTweets (Original.engageWithTweet tweet).
Proof.
  unfold Original.engageWithTweet, Original.likePost, Original.likePost_found,
    Original.commentOnPost, Original.setting, Original.shouldComment,
    Original.simulateMouseMovement, Original.updateCounterDisplay, Original.delay.
  frame.
Qed.

(** C9 (amended).  [runAutomation] sets the seen counter to the number of
    tweet articles its query returns (all of them, whether in view or not).
    An engagement of the optimized script then adds one to it when it took
    an action, and leaves it alone otherwise: between two scans the counter
    is the count of the last scan plus the number of items engaged since.
    The engagement of the original script does not touch the counter. *)
Theorem seen_counter_is_scan_count_plus_engagements
    (env : Env) (s : State) (tweet : Element) (tweetId : string) :
  (forall t l c, throws env (UpdateCounterDisplay t l c) = false) ->
  (guard_fails s = false ->
   totalTweets (JS.state_of (runAutomation env s)) = Z.of_nat (length (tweets env)))
  /\ totalTweets (JS.state_of (engageWithTweetFast tweet tweetId env s))
     = totalTweets s
       + match JS.result_of (engageWithTweetFast tweet tweetId env s) with
         | JS.Ok true => 1
         | _ => 0
         end
  /\ (forall s0,
        Original.totalTweets (JS.state_of (Original.engageWithTweet tweet env s0))
        = Original.totalTweets s0).
Proof.
  intros Hshow. split_and!.
  - apply runAutomation_totalTweets.
  - by apply (engageWithTweetFast_totalTweets tweet tweetId env (totalTweets s) Hshow s).
  - intros s0. apply (preserves_eq Original.totalTweets), engageWithTweet_totalTweets.
Qed.

Lemma seen_counter_is_scan_count_plus_engagements_witness :
  (forall t l c,
     throws (Page.showing 500 [Page.plain "A"]) (UpdateCounterDisplay t l c) = false)
  /\ totalTweets
       (JS.state_of
          (engageWithTweetFast 0%nat "A" (Page.showing 500 [Page.plain "A"])
             (set_settings (Some Page.like_only) initial_state)))
     = totalTweets (set_settings (Some Page.like_only) initial_state)
       + match JS.result_of
                 (engageWithTweetFast 0%nat "A" (Page.showing 500 [Page.plain "A"])
                    (set_settings (Some Page.like_only) initial_state)) with
         | JS.Ok true => 1
         | _ => 0
         end.
Proof.
  split; [reflexivity|].
  exact (proj1 (proj2
    (seen_counter_is_scan_count_plus_engagements
       (Page.showing 500 [Page.plain "A"])
       (set_settings (Some Page.like_only) initial_state) 0%nat "A"
       (fun _ _ _ => eq_refl)))).
Defined.

End Seen.

(** ** The reply of the generation service *)

Section Reply.

Import Fast Sched.

(** C7 (amended).  The handler of a generation reply does not look at the
    enabled flag or at the running flag.  Whatever they are, when an
    editable element has the focus, the submit button is found and nothing
    throws, it inserts the text, clicks the button and adds one to the
    comment counter. *)
Theorem reply_handler_acts_whatever_the_flags
    (env : Env) (s : State) (reply : string) (el : ActiveElement) (button : Target)
    (enabled running : bool) :
  (forall eff, throws env eff = false) ->
  activeElement env = Some el ->
  contentEditable el || isTextArea el = true ->
  findReplyButton env = Some button ->
  handleGroqResponse reply env (set_automationEnabled enabled (set_isRunning running s))
  = (JS.Ok tt,
     set_processedComments (processedComments s + 1)
       (set_automationEnabled enabled (set_isRunning running s)),
     [ Delay (if fastMode s then 500 else 1000);
       (if execCommand_defined env then InsertText reply else SetTextContent reply);
       Delay (if fastMode s then 500 else 1000);
       Click button;
       UpdateCounterDisplay (totalTweets s) (processedLikes s) (processedComments s + 1);
       Delay (if fastMode s then 1000 else 2000);
       ScrollBy (inject_Z (window_innerHeight env) * (3 # 10));
       Delay (if fastMode s then 300 else 1000) ]).
Proof.
  intros Hquiet Hactive Hedit Hbutton.
  unfold handleGroqResponse, quickScroll, updateCounterDisplay, delay.
  rewrite try_catch_run. exec. rewrite Hactive, Hedit.
  assert (forall k : unit -> M unit,
            JS.bind (if execCommand_defined env then JS.perform (InsertText reply)
                     else JS.perform (SetTextContent reply)) k env
              (set_automationEnabled enabled (set_isRunning running s))
            = after [if execCommand_defined env then InsertText reply
                     else SetTextContent reply]
                (k tt env (set_automationEnabled enabled (set_isRunning running s))))
    as Hinsert.
  { intros k. destruct (execCommand_defined env); by rewrite bind_perform, Hquiet. }
  rewrite Hinsert. exec. rewrite Hbutton.
  rewrite bind_perform, Hquiet. exec. rewrite bind_perform, Hquiet. exec.
  rewrite bind_perform, Hquiet. exec. by destruct s.
Qed.

Lemma reply_handler_acts_whatever_the_flags_witness :
  (forall eff, throws (Page.composer 900 EmptyString [ {| button_text := "Reply" |} ]) eff = false)
  /\ activeElement (Page.composer 900 EmptyString [ {| button_text := "Reply" |} ])
     = Some {| contentEditable := true; isTextArea := false; textContent := EmptyString |}
  /\ findReplyButton (Page.composer 900 EmptyString [ {| button_text := "Reply" |} ])
     = Some (SubmitButton 0 0)
  /\ handleGroqResponse "nice" (Page.composer 900 EmptyString [ {| button_text := "Reply" |} ])
       (set_automationEnabled false (set_isRunning false initial_state))
     = (JS.Ok tt,
        set_processedComments 1
          (set_automationEnabled false (set_isRunning false initial_state)),
        [ Delay 500; InsertText "nice"; Delay 500; Click (SubmitButton 0 0);
          UpdateCounterDisplay 0 0 1; Delay 1000; ScrollBy (inject_Z 800 * (3 # 10));
          Delay 300 ]).
Proof.
  split; [reflexivity|]. split; [reflexivity|]. split; [reflexivity|].
  exact (reply_handler_acts_whatever_the_flags
           (Page.composer 900 EmptyString [ {| button_text := "Reply" |} ]) initial_state "nice"
           {| contentEditable := true; isTextArea := false; textContent := EmptyString |}
           (SubmitButton 0 0) false false
           (fun _ => eq_refl) eq_refl eq_refl eq_refl).
Defined.

End Reply.

(** ** The original script: recovery and end of feed *)

Section OriginalScript.

Import Original.

Lemma click_close_buttons_quiet env s indices :
  (forall eff, throws env eff = false) ->
  click_close_buttons indices env s
  = (JS.Ok tt, s, flat_map (fun i => [Click (CloseButton i); Delay 500]) indices).
Proof.
  intros Hquiet. induction indices as [|i indices IH]; [done|].
  cbn [click_close_buttons flat_map].
  assert (JS.try_catch (JS.perform (Click (CloseButton i));; delay 500) (JS.ret tt) env s
          = (JS.Ok tt, s, [Click (CloseButton i); Delay 500])) as Hclick.
  { by rewrite try_catch_run, bind_perform, Hquiet. }
  rewrite bind_run, Hclick, IH. done.
Qed.

Lemma handleCommentError_quiet env s :
  (forall eff, throws env eff = false) ->
  handleCommentError env s
  = (JS.Ok tt, s, close_clicks (closeButtons env) ++ [PressEscape; Delay 1000]).
Proof.
  intros Hquiet. unfold handleCommentError, delay. exec.
  rewrite bind_run, click_close_buttons_quiet by done.
  rewrite bind_perform, Hquiet. exec. unfold close_clicks. by rewrite <- app_assoc.
Qed.

Lemma handleGroqResponse_actionQueue reply :
  preserves Fast.actionQueue (Fast.handleGroqResponse reply).
Proof. fast_unfold. frame. Qed.

Lemma handleGroqResponse_no_button reply env s :
  Fast.findReplyButton env = None ->
  Fast.processedComments (JS.state_of (Fast.handleGroqResponse reply env s))
  = Fast.processedComments s.
Proof.
  intros Hnone.
  apply (triple_try_catch env (fun s0 => Fast.processedComments s0 = Fast.processedComments s)
           (fun _ s0 => Fast.processedComments s0 = Fast.processedComments s)
           (fun _ s0 => Fast.processedComments s0 = Fast.processedComments s));
    [|done| |done].
  - do 6 (apply triple_bind_frame;
            [solve [fast_unfold; repeat maintains_step frame_side] | intros ? | done]).
    apply triple_asks_bind. rewrite Hnone. by intros s0 Hs0.
  - apply triple_maintains. fast_unfold. repeat maintains_step frame_side.
Qed.

(** C6 (amended).  Nothing on the page throws.  In the original script a
    handler that does not find the submit button runs the recovery: it
    clicks every close button, sends Escape, and leaves the comment counter
    and every other variable as they were.  A mismatch after the insertion
    makes it type the reply key by key and is no reason for recovery: when
    the submit button is found the handler clicks it and counts the comment,
    mismatch or not.  In the optimized script a handler that does not find
    the submit button leaves the comment counter and the action queue as
    they were, whether or not something throws. *)
Theorem submit_not_found_recovers_and_counts_nothing
    (env : Env) (s : State) (s' : Fast.State) (reply : string) :
  (forall eff, throws env eff = false) ->
  (findReplyButton env = None ->
   handleGroqResponse reply env s
   = (JS.Ok tt, s,
      [Delay 1500; InsertText (trim reply); Delay 500]
      ++ (if match activeElement env with
             | Some el => negb (String.eqb (textContent el) (trim reply))
             | None => false
             end
          then [TypeKeys (trim reply)] else [])
      ++ [Delay 1000]
      ++ close_clicks (closeButtons env) ++ [PressEscape; Delay 1000]))
  /\ (forall button,
        findReplyButton env = Some button ->
        handleGroqResponse reply env s
        = (JS.Ok tt, set_processedComments (processedComments s + 1) s,
           [Delay 1500; InsertText (trim reply); Delay 500]
           ++ (if match activeElement env with
                  | Some el => negb (String.eqb (textContent el) (trim reply))
                  | None => false
                  end
               then [TypeKeys (trim reply)] else [])
           ++ [ Delay 1000; MouseMove button; DelayJitter 100 200; Click button;
                Delay 3000;
                UpdateCounterDisplay (totalTweets s) (processedLikes s)
                  (processedComments s + 1) ]))
  /\ (Fast.findReplyButton env = None ->
      Fast.processedComments (JS.state_of (Fast.handleGroqResponse reply env s'))
      = Fast.processedComments s'
      /\ Fast.actionQueue (JS.state_of (Fast.handleGroqResponse reply env s'))
         = Fast.actionQueue s').
Proof.
  intros Hquiet. split_and!.
  - intros Hnone. unfold handleGroqResponse, delay. rewrite try_catch_run. exec.
    rewrite bind_perform, Hquiet. exec. rewrite Hnone.
    destruct (match activeElement env with Some _ => _ | None => _ end).
    + rewrite bind_perform, Hquiet. exec.
      by rewrite Hnone, handleCommentError_quiet.
    + exec. by rewrite handleCommentError_quiet.
  - intros button Hfound.
    unfold handleGroqResponse, updateCounterDisplay, delay.
    rewrite try_catch_run. exec. rewrite bind_perform, Hquiet. exec. rewrite Hfound.
    destruct (match activeElement env with Some _ => _ | None => _ end).
    + rewrite bind_perform, Hquiet. exec. rewrite Hfound.
      rewrite bind_perform, Hquiet. exec. rewrite bind_perform, Hquiet. exec.
      unfold JS.perform. rewrite Hquiet. by destruct s.
    + exec. rewrite bind_perform, Hquiet. exec. rewrite bind_perform, Hquiet. exec.
      unfold JS.perform. rewrite Hquiet. by destruct s.
  - intros Hnone. split.
    + by apply handleGroqResponse_no_button.
    + apply (preserves_eq Fast.actionQueue), handleGroqResponse_actionQueue.
Qed.

Lemma submit_not_found_recovers_and_counts_nothing_witness :
  (forall eff, throws (Page.composer 900 EmptyString []) eff = false)
  /\ findReplyButton (Page.composer 900 EmptyString []) = None
  /\ handleGroqResponse "nice" (Page.composer 900 EmptyString []) Page.original_session
     = (JS.Ok tt, Page.original_session,
        [ Delay 1500; InsertText "nice"; Delay 500; TypeKeys "nice"; Delay 1000;
          Click (CloseButton 0); Delay 500; PressEscape; Delay 1000 ]).
Proof.
  split; [reflexivity|]. split; [reflexivity|].
  exact (proj1
    (submit_not_found_recovers_and_counts_nothing
       (Page.composer 900 EmptyString []) Page.original_session Fast.initial_state "nice"
       (fun _ => eq_refl)) eq_refl).
Defined.

(** C6, as stated, fails: the inserted text is not in the composer (the
    check of the insertion fails), yet no recovery runs; the handler types
    the reply, finds the submit button, clicks it and counts a comment. *)
Lemma insertion_mismatch_is_not_recovered :
  activeElement (Page.composer 900 EmptyString [ {| button_text := "Reply" |} ])
  = Some {| contentEditable := true; isTextArea := false; textContent := EmptyString |}
  /\ handleGroqResponse "nice" (Page.composer 900 EmptyString [ {| button_text := "Reply" |} ])
       Page.original_session
     = (JS.Ok tt, set_processedComments 1 Page.original_session,
        [ Delay 1500; InsertText "nice"; Delay 500; TypeKeys "nice"; Delay 1000;
          MouseMove (SubmitButton 0 0); DelayJitter 100 200; Click (SubmitButton 0 0);
          Delay 3000; UpdateCounterDisplay 1 1 1 ]).
Proof. vm_compute. repeat split. Qed.

Lemma smoothScroll_at_end env s :
  window_scrollY env
  >= Z.max (documentElement_scrollHeight env) (body_scrollHeight env)
     - window_innerHeight env ->
  smoothScroll env s = (JS.Ok false, s, []).
Proof.
  intros Hend. unfold smoothScroll. exec. unfold id.
  by destruct (Z.ltb_spec (window_scrollY env)
                 (Z.max (documentElement_scrollHeight env) (body_scrollHeight env)
                  - window_innerHeight env)) as [Hlt|_]; [lia|].
Qed.

Lemma scroll_or_reset_at_end env s :
  window_scrollY env
  >= Z.max (documentElement_scrollHeight env) (body_scrollHeight env)
     - window_innerHeight env ->
  throws env (UpdateCounterDisplay 0 0 0) = false ->
  scroll_or_reset false env s
  = (JS.Ok tt,
     set_processedTweets ∅
       (set_processedComments 0 (set_processedLikes 0 (set_totalTweets 0 s))),
     [UpdateCounterDisplay 0 0 0; ReloadAfter 5000]).
Proof.
  intros Hend Hshow. unfold scroll_or_reset, when. cbn [negb].
  rewrite bind_run, smoothScroll_at_end by done. cbv beta iota. cbn [negb].
  unfold updateCounterDisplay. exec.
  replace (totalTweets _) with 0 by (by destruct s).
  replace (processedLikes _) with 0 by (by destruct s).
  replace (processedComments _) with 0 by (by destruct s).
  rewrite bind_perform, Hshow. by exec.
Qed.

(** C5 (amended).  In the original script, a cycle whose scan processed no
    item, with the page scrolled to the end of the document, resets the
    session: the three counters are zero, the processed set is empty (no id
    is skipped any more), the running flag is reset, and a reload of the
    page is scheduled 5000 ms later.  The optimized script does not look at
    the scroll position: a cycle that finds no unprocessed article in view
    sets the seen counter to the number of articles, scrolls down by 85% of
    the viewport height, waits, and then only resets the running flag; the
    like and comment counters and the processed set stay as they are and no
    reload is scheduled. *)
Theorem feed_exhaustion_resets_session
    (env : Env) (s s1 : State) (t1 : list Effect) :
  is_Some (settings s) -> isRunning s = false -> automationEnabled s = true ->
  scan_and_process env (set_isRunning true s) = (JS.Ok false, s1, t1) ->
  window_scrollY env
  >= Z.max (documentElement_scrollHeight env) (body_scrollHeight env)
     - window_innerHeight env ->
  throws env (UpdateCounterDisplay 0 0 0) = false ->
  runAutomation env s
  = (JS.Ok tt,
     set_isRunning false
       (set_processedTweets ∅
          (set_processedComments 0 (set_processedLikes 0 (set_totalTweets 0 s1)))),
     t1 ++ [UpdateCounterDisplay 0 0 0; ReloadAfter 5000])
  /\ totalTweets (JS.state_of (runAutomation env s)) = 0
  /\ processedLikes (JS.state_of (runAutomation env s)) = 0
  /\ processedComments (JS.state_of (runAutomation env s)) = 0
  /\ processedTweets (JS.state_of (runAutomation env s)) = ∅
  /\ (forall id, bool_decide (id ∈ processedTweets (JS.state_of (runAutomation env s)))
                 = false)
  /\ isRunning (JS.state_of (runAutomation env s)) = false
  /\ (forall (env' : Env) (s' : Fast.State),
        Fast.guard_fails s' = false ->
        (forall eff, throws env' eff = false) ->
        List.find (Fast.unprocessed_in_view env' s') (tweets env') = None ->
        Fast.runAutomation env' s'
        = (JS.Ok (Some Fast.AwaitScroll),
           Fast.set_totalTweets (Z.of_nat (length (tweets env')))
             (Fast.set_isRunning true s'),
           [ UpdateCounterDisplay (Z.of_nat (length (tweets env')))
               (Fast.processedLikes s') (Fast.processedComments s');
             ScrollBy (inject_Z (window_innerHeight env') * (85 # 100)) ])
        /\ Fast.runAutomation_resume Fast.AwaitScroll env'
             (Fast.set_totalTweets (Z.of_nat (length (tweets env')))
                (Fast.set_isRunning true s'))
           = (JS.Ok tt,
              Fast.set_isRunning false
                (Fast.set_totalTweets (Z.of_nat (length (tweets env')))
                   (Fast.set_isRunning true s')),
              [])).
Proof.
  intros Hsettings Hidle Henabled Hscan Hend Hshow.
  assert (runAutomation env s
          = (JS.Ok tt,
             set_isRunning false
               (set_processedTweets ∅
                  (set_processedComments 0
                     (set_processedLikes 0 (set_totalTweets 0 s1)))),
             t1 ++ [UpdateCounterDisplay 0 0 0; ReloadAfter 5000])) as Hrun.
  { unfold runAutomation. exec. unfold id.
    rewrite Hidle, Henabled, (bool_decide_eq_true_2 _ Hsettings). cbn [negb orb].
    exec. unfold JS.try_catch_finally. rewrite try_catch_run, bind_run, Hscan.
    cbv beta iota. rewrite scroll_or_reset_at_end by done.
    cbn. by rewrite app_nil_r. }
  rewrite Hrun. unfold JS.state_of. cbn [fst snd].
  split_and!; try done; try (by destruct s1).
  intros env' s' Hguard Hquiet Hnone. split.
  - by apply runAutomation_nothing_in_view.
  - apply runAutomation_resume_scroll.
Qed.

Lemma feed_exhaustion_resets_session_witness :
  is_Some (settings Page.original_session)
  /\ isRunning Page.original_session = false
  /\ automationEnabled Page.original_session = true
  /\ scan_and_process (Page.at_scroll 1200 5000 [Page.liked "A"])
       (set_isRunning true Page.original_session)
     = (JS.Ok false, set_isRunning true Page.original_session,
        [UpdateCounterDisplay 1 1 0])
  /\ window_scrollY (Page.at_scroll 1200 5000 [Page.liked "A"])
     >= Z.max (documentElement_scrollHeight (Page.at_scroll 1200 5000 [Page.liked "A"]))
          (body_scrollHeight (Page.at_scroll 1200 5000 [Page.liked "A"]))
        - window_innerHeight (Page.at_scroll 1200 5000 [Page.liked "A"])
  /\ throws (Page.at_scroll 1200 5000 [Page.liked "A"]) (UpdateCounterDisplay 0 0 0)
     = false
  /\ runAutomation (Page.at_scroll 1200 5000 [Page.liked "A"]) Page.original_session
     = (JS.Ok tt,
        set_isRunning false
          (set_processedTweets ∅
             (set_processedComments 0
                (set_processedLikes 0
                   (set_totalTweets 0 (set_isRunning true Page.original_session))))),
        [UpdateCounterDisplay 1 1 0; UpdateCounterDisplay 0 0 0; ReloadAfter 5000]).
Proof.
  assert (is_Some (settings Page.original_session)) as H1 by (eexists; reflexivity).
  assert (window_scrollY (Page.at_scroll 1200 5000 [Page.liked "A"])
          >= Z.max (documentElement_scrollHeight (Page.at_scroll 1200 5000 [Page.liked "A"]))
               (body_scrollHeight (Page.at_scroll 1200 5000 [Page.liked "A"]))
             - window_innerHeight (Page.at_scroll 1200 5000 [Page.liked "A"])) as H5
    by (vm_compute; discriminate).
  split; [exact H1|]. split; [reflexivity|]. split; [reflexivity|].
  split; [reflexivity|]. split; [exact H5|]. split; [reflexivity|].
  exact (proj1
    (feed_exhaustion_resets_session
       (Page.at_scroll 1200 5000 [Page.liked "A"]) Page.original_session
       (set_isRunning true Page.original_session) [UpdateCounterDisplay 1 1 0]
       H1 eq_refl eq_refl eq_refl H5 eq_refl)).
Defined.

(** After the reset the tweet "A", processed before, is processed again by
    the next cycle. *)
Example processed_again_after_reset :
  bool_decide ("A" ∈ processedTweets Page.original_session) = true
  /\ processedTweets
       (JS.state_of
          (runAutomation (Page.at_scroll 1200 5000 [Page.liked "A"])
             Page.original_session))
     = ∅
  /\ JS.state_of
       (runAutomation (Page.showing 15000 [Page.liked "A"])
          (JS.state_of
             (runAutomation (Page.at_scroll 1200 5000 [Page.liked "A"])
                Page.original_session)))
     = set_lastActionTime 15000
         (set_totalTweets 1 (set_processedComments 0 Page.original_session)).
Proof. vm_compute. repeat split. Qed.

End OriginalScript.

(** ** Runs of the optimized script *)

Section Runs.

Import Fast Sched Scenario.


(** When the pacing delay is over the loop dispatches the first duplicate,
    and after the next pacing delay the second: the engine is invoked on
    the tweet "A" for each of its three entries. *)
Example duplicates_are_dispatched :
  drains (run (duplicate_run ++ [ (page_A 3100, DrainResumes 0) ])
            (boot (Some Page.all_on) (page_A 0)))
  = [ DrainEngaging {| tweet := 0%nat; tweetId := "A"; timestamp := 1650 |} ]
  /\ drains (run (duplicate_run
                  ++ [ (page_A 3100, DrainResumes 0); (page_A 3100, DrainResumes 0);
                       (page_A 5100, DrainResumes 0) ])
               (boot (Some Page.all_on) (page_A 0)))
     = [ DrainEngaging {| tweet := 0%nat; tweetId := "A"; timestamp := 2200 |} ].
Proof. vm_compute. repeat split. Qed.

(** The heartbeat is armed when the script is loaded, cleared by the first
    disable, and not armed again by the re-enable, which arms a new polling
    interval. *)
Example heartbeat_is_not_rearmed :
  pageVisibilityInterval (vars (boot (Some Page.all_on) (Page.showing 0 []))) = Some 2%nat
  /\ automationInterval (vars (boot (Some Page.all_on) (Page.showing 0 []))) = Some 1%nat
  /\ pageVisibilityInterval
       (vars (run [ (Page.showing 600 [], Receive (automationToggle false));
                    (Page.showing 700 [], Receive (automationToggle true)) ]
                (boot (Some Page.all_on) (Page.showing 0 [])))) = None
  /\ automationInterval
       (vars (run [ (Page.showing 600 [], Receive (automationToggle false));
                    (Page.showing 700 [], Receive (automationToggle true)) ]
                (boot (Some Page.all_on) (Page.showing 0 [])))) = Some 3%nat.
Proof. vm_compute. repeat split. Qed.


(** C5, as stated, fails on the optimized script: at the end of the feed
    it scrolls on and resets nothing; the like counter and the processed
    set stay as they were and no reload is scheduled. *)
Lemma optimized_script_never_resets :
  processedLikes
    (vars (run exhausted_run
             (boot (Some Page.like_only) (Page.showing 0 [Page.liked "A"])))) = 1
  /\ bool_decide
       ("A" ∈ processedTweets
                (vars (run exhausted_run
                         (boot (Some Page.like_only)
                            (Page.showing 0 [Page.liked "A"]))))) = true
  /\ cycles (run exhausted_run
               (boot (Some Page.like_only) (Page.showing 0 [Page.liked "A"]))) = []
  /\ trace (run exhausted_run
              (boot (Some Page.like_only) (Page.showing 0 [Page.liked "A"])))
     = [ CreateCounterDisplay; UpdateCounterDisplay 1 0 0; UpdateCounterDisplay 2 1 0;
         UpdateCounterDisplay 1 1 0; ScrollBy (inject_Z 800 * (85 # 100)) ].
Proof. vm_compute. repeat split. Qed.

(** C9, as stated, fails: the scan counted one article, and after the
    engagement the seen counter is two. *)
Lemma seen_counter_exceeds_scan_count :
  length (tweets (Page.showing 500 [Page.plain "A"])) = 1%nat
  /\ totalTweets
       (vars (run (take 1 seen_run)
                (boot (Some Page.like_only) (Page.showing 0 [Page.plain "A"])))) = 1
  /\ totalTweets
       (vars (run seen_run
                (boot (Some Page.like_only) (Page.showing 0 [Page.plain "A"])))) = 2
  /\ cycles (run seen_run
               (boot (Some Page.like_only) (Page.showing 0 [Page.plain "A"]))) = [].
Proof. vm_compute. repeat split. Qed.

(** C7, as stated, fails: automation is off and no cycle is running when
    the reply arrives, and the handler inserts the text, clicks the submit
    button and counts the comment. *)
Lemma stale_reply_is_posted :
  automationEnabled
    (vars (run (take 3 stale_reply_run)
             (boot (Some Page.all_on) (Page.showing_keen 0 [Page.plain "A"])))) = false
  /\ isRunning
       (vars (run (take 3 stale_reply_run)
                (boot (Some Page.all_on) (Page.showing_keen 0 [Page.plain "A"])))) = false
  /\ processedComments
       (vars (run (take 3 stale_reply_run)
                (boot (Some Page.all_on) (Page.showing_keen 0 [Page.plain "A"])))) = 0
  /\ processedComments
       (vars (run stale_reply_run
                (boot (Some Page.all_on) (Page.showing_keen 0 [Page.plain "A"])))) = 1
  /\ drop (length (trace (run (take 3 stale_reply_run)
                            (boot (Some Page.all_on)
                               (Page.showing_keen 0 [Page.plain "A"])))))
       (trace (run stale_reply_run
                 (boot (Some Page.all_on) (Page.showing_keen 0 [Page.plain "A"]))))
     = [ Delay 500; InsertText "nice"; Delay 500; Click (SubmitButton 0 0);
         UpdateCounterDisplay 2 1 1; Delay 1000; ScrollBy (inject_Z 800 * (3 # 10));
         Delay 300; SendResponse "handled" ].
Proof. vm_compute. repeat split. Qed.

End Runs.

(** ** Along every run of the optimized script *)

Section Runs_of_the_queue.

Import Fast Sched Invariant.

Lemma isProcessingQueue_set v s : isProcessingQueue (set_isProcessingQueue v s) = v.
Proof. by destruct s. Qed.

(** A call of [processActionQueue] leaves the flag as it is, unless it is
    left suspended: then the flag was clear and is set. *)
Lemma processActionQueue_flag env s :
  match JS.result_of (processActionQueue env s) with
  | JS.Ok (Some _) =>
      isProcessingQueue s = false
      /\ isProcessingQueue (JS.state_of (processActionQueue env s)) = true
  | JS.Ok None =>
      isProcessingQueue (JS.state_of (processActionQueue env s)) = isProcessingQueue s
  | JS.Exn => False
  end.
Proof.
  unfold processActionQueue. exec. unfold id.
  destruct (isProcessingQueue s) eqn:Hflag; [done|]. cbn [orb].
  destruct (length (actionQueue s) =? 0)%nat; [done|]. exec.
  rewrite drain_loop_run.
  destruct (next_action _ _) as [[action|] rest]; cbn.
  - split; [done|]. by destruct s.
  - by destruct s.
Qed.

Lemma scan_and_push_flag : preserves isProcessingQueue scan_and_push.
Proof. fast_unfold. frame. Qed.

Lemma scan_and_push_returns env s :
  exists pushed, JS.result_of (scan_and_push env s) = JS.Ok pushed.
Proof.
  unfold scan_and_push. exec. unfold id.
  destruct (negb _ || negb _ || isRunning s); [by eexists|]. exec.
  destruct (scan env s); exec; by eexists.
Qed.

Lemma processTweetsQuickly_flag env s :
  match JS.result_of (processTweetsQuickly env s) with
  | JS.Ok (Some _) =>
      isProcessingQueue s = false
      /\ isProcessingQueue (JS.state_of (processTweetsQuickly env s)) = true
  | JS.Ok None =>
      isProcessingQueue (JS.state_of (processTweetsQuickly env s)) = isProcessingQueue s
  | JS.Exn => False
  end.
Proof.
  unfold processTweetsQuickly. rewrite bind_run.
  pose proof (scan_and_push_returns env s) as [pushed Hpushed].
  pose proof (preserves_eq isProcessingQueue _ env s scan_and_push_flag) as Hflag.
  destruct (scan_and_push env s) as [[r s1] t1].
  unfold JS.result_of, JS.state_of in *. cbn [fst snd] in *. subst r.
  destruct pushed; [|by exec].
  exec. destruct (isProcessingQueue s1) eqn:Hs1; cbn [negb].
  - exec. cbn. congruence.
  - pose proof (processActionQueue_flag env s1) as Hcall.
    unfold JS.result_of, JS.state_of in Hcall.
    destruct (processActionQueue env s1) as [[[[d|]|] s2] t2]; cbn in *;
      [|congruence|done].
    destruct Hcall as [_ Hset]. split; congruence.
Qed.

(** A suspended loop that goes on stays suspended with the flag set, or
    ends with the flag clear. *)
Lemma drain_resume_flag d env s :
  isProcessingQueue s = true ->
  match JS.result_of (drain_resume d env s) with
  | JS.Ok (Some _) => isProcessingQueue (JS.state_of (drain_resume d env s)) = true
  | JS.Ok None => isProcessingQueue (JS.state_of (drain_resume d env s)) = false
  | JS.Exn => False
  end.
Proof.
  intros Hflag. destruct d as [action|].
  - rewrite drain_resume_engaging. cbn.
    rewrite <- Hflag. apply (preserves_eq isProcessingQueue).
    intros x. apply engageWithTweetFast_maintains. stable.
  - cbn [drain_resume]. rewrite drain_loop_run.
    destruct (next_action _ _) as [[action|] rest]; cbn; by destruct s.
Qed.

Lemma one_queue_loop_same sys sys' :
  isProcessingQueue (vars sys') = isProcessingQueue (vars sys) ->
  drains sys' = drains sys ->
  one_queue_loop sys -> one_queue_loop sys'.
Proof. unfold one_queue_loop. intros -> ->. done. Qed.

Lemma one_queue_loop_handle {A} (m : M A) env sys :
  preserves isProcessingQueue m ->
  one_queue_loop sys -> one_queue_loop (handle m env sys).2.
Proof.
  intros Hm. apply one_queue_loop_same; rewrite handle_snd; [|done].
  cbn. by apply preserves_eq.
Qed.

Lemma one_queue_loop_suspend_cycle x :
  one_queue_loop x.2 -> one_queue_loop (suspend_cycle x).
Proof. destruct x as [[[c|]|] sys]; by apply one_queue_loop_same. Qed.

Lemma onMessage_isProcessingQueue message :
  preserves isProcessingQueue (onMessage message).
Proof. destruct message; fast_unfold; frame. Qed.

Lemma runAutomation_isProcessingQueue : preserves isProcessingQueue runAutomation.
Proof. fast_unfold. frame. Qed.

Lemma onInterval_isProcessingQueue : preserves isProcessingQueue onInterval.
Proof. fast_unfold. frame. Qed.

Lemma runAutomation_resume_isProcessingQueue c :
  preserves isProcessingQueue (runAutomation_resume c).
Proof. destruct c; fast_unfold; frame. Qed.

Lemma initialize_isProcessingQueue stored :
  preserves isProcessingQueue (initialize stored).
Proof. fast_unfold. frame. Qed.

Lemma step_one_queue_loop env ev sys :
  one_queue_loop sys -> one_queue_loop (step env ev sys).
Proof.
  intros Hsys. destruct ev as [message| | | |hidden|added| |i|i]; cbn [step].
  - apply one_queue_loop_handle; [apply onMessage_isProcessingQueue|done].
  - destruct (runTimeouts (vars sys)) as [|n]; [done|].
    apply one_queue_loop_suspend_cycle, one_queue_loop_handle;
      [apply runAutomation_isProcessingQueue|].
    eapply one_queue_loop_same; [| |exact Hsys]; [|done]. cbn. by destruct (vars sys).
  - destruct (automationInterval (vars sys)); [|done].
    apply one_queue_loop_suspend_cycle, one_queue_loop_handle;
      [apply onInterval_isProcessingQueue|done].
  - destruct (pageVisibilityInterval (vars sys)); [|done].
    apply one_queue_loop_handle; [|done]. fast_unfold. frame.
  - apply one_queue_loop_handle; [|done]. fast_unfold. frame.
  - apply one_queue_loop_handle; [|done]. fast_unfold. frame.
  - destruct (debounceTimer (vars sys)); [|done].
    set (s0 := set_debounceTimer false (vars sys)).
    assert (isProcessingQueue s0 = isProcessingQueue (vars sys)) as Hs0
      by (subst s0; by destruct (vars sys)).
    pose proof (processTweetsQuickly_flag env s0) as Hflag.
    unfold handle, with_vars. cbn [vars cycles drains trace].
    unfold JS.result_of, JS.state_of in Hflag.
    destruct (processTweetsQuickly env s0) as [[[[d|]|] s1] t1];
      cbn [fst snd suspend_drain] in *; [| |done].
    + destruct Hflag as [Hclear Hset]. right. cbn. split; [done|]. exists d.
      destruct Hsys as [[_ ->]|[Hbusy _]]; [done|congruence].
    + eapply one_queue_loop_same; [| |exact Hsys]; [|done]. cbn. congruence.
  - destruct (cycles sys !! i) as [c|]; [|done].
    apply one_queue_loop_handle; [apply runAutomation_resume_isProcessingQueue|].
    by eapply one_queue_loop_same; [| |exact Hsys].
  - destruct (drains sys !! i) as [d|] eqn:Hd; [|done].
    destruct Hsys as [[_ Hnone]|[Hbusy [d' Hone]]]; [by rewrite Hnone in Hd|].
    rewrite Hone in Hd. destruct i as [|i]; [|done]. injection Hd as ->.
    pose proof (drain_resume_flag d env (vars sys) Hbusy) as Hflag.
    unfold handle, take_drain. cbn [vars cycles drains trace]. rewrite Hone.
    unfold JS.result_of, JS.state_of in Hflag.
    destruct (drain_resume d env (vars sys)) as [[[[d1|]|] s1] t1];
      cbn [fst snd suspend_drain] in *; [| |done].
    + right. cbn. split; [done|]. by exists d1.
    + left. by cbn.
Qed.

Lemma run_one_queue_loop steps sys :
  one_queue_loop sys -> one_queue_loop (run steps sys).
Proof.
  unfold run. revert sys.
  induction steps as [|[env ev] steps IH]; intros sys Hsys; [done|].
  cbn. by apply IH, step_one_queue_loop.
Qed.

Lemma boot_one_queue_loop stored env : one_queue_loop (boot stored env).
Proof.
  left. unfold boot. rewrite handle_snd. cbn [vars drains]. split; [|done].
  by rewrite (preserves_eq isProcessingQueue _ _ _ (initialize_isProcessingQueue stored)).
Qed.

(** X1.  Along every run of the loaded script, whatever the messages,
    timers, mutations and resumptions are (switching automation off and on
    included), at most one activation of [processActionQueue] is in
    progress, and [isProcessingQueue] is set exactly while one is.  A call
    while the flag is set returns at once and changes nothing. *)
Theorem queue_loop_excludes_itself
    (stored : option Settings) (env0 : Env) (steps : list (Env * Event)) :
  (length (drains (run steps (boot stored env0))) <= 1)%nat
  /\ (isProcessingQueue (vars (run steps (boot stored env0))) = true
      <-> length (drains (run steps (boot stored env0))) = 1%nat)
  /\ (forall env s,
        isProcessingQueue s = true -> processActionQueue env s = (JS.Ok None, s, [])).
Proof.
  pose proof (run_one_queue_loop steps _ (boot_one_queue_loop stored env0)) as Hinv.
  split_and!.
  - destruct Hinv as [[_ ->]|[_ [d ->]]]; cbn; lia.
  - destruct Hinv as [[Hidle ->]|[Hbusy [d ->]]]; cbn; split; congruence.
  - intros env s Hbusy. unfold processActionQueue. exec. unfold id. by rewrite Hbusy.
Qed.

End Runs_of_the_queue.

Section Kept_along_runs.

Import Fast Sched Invariant.

Lemma step_kept (P : State -> Prop) env ev sys :
  kept_by_callbacks P -> P (vars sys) -> P (vars (step env ev sys)).
Proof.
  intros (Hmsg & Hrun & Hint & Hbeat & Hvis & Hmut & Hscan & Hcyc & Hdrain & Htime & Hdeb) Hs.
  destruct ev as [message| | | |hidden|added| |i|i]; cbn [step].
  - rewrite handle_snd. by apply Hmsg.
  - destruct (runTimeouts (vars sys)) as [|n]; [done|].
    rewrite suspend_cycle_vars, handle_snd. apply Hrun. by apply Htime.
  - destruct (automationInterval (vars sys)); [|done].
    rewrite suspend_cycle_vars, handle_snd. by apply Hint.
  - destruct (pageVisibilityInterval (vars sys)); [|done].
    rewrite handle_snd. by apply Hbeat.
  - rewrite handle_snd. by apply Hvis.
  - rewrite handle_snd. by apply Hmut.
  - destruct (debounceTimer (vars sys)); [|done].
    rewrite suspend_drain_vars, handle_snd. apply Hscan. by apply Hdeb.
  - destruct (cycles sys !! i) as [c|]; [|done].
    rewrite handle_snd. by apply Hcyc.
  - destruct (drains sys !! i) as [d|]; [|done].
    rewrite suspend_drain_vars, handle_snd. by apply Hdrain.
Qed.

Lemma run_kept (P : State -> Prop) steps sys :
  kept_by_callbacks P -> P (vars sys) -> P (vars (run steps sys)).
Proof.
  intros HP. unfold run. revert sys.
  induction steps as [|[env ev] steps IH]; intros sys Hs; [done|].
  cbn. by apply IH, step_kept.
Qed.

(** An assignment of the script keeps [keeps s0]: the processed set only
    grows, the counters only go up. *)
Ltac keeps_side :=
  intros [] (? & ? & ?); unfold keeps in *; cbn in *;
  split_and!; first [assumption | lia | set_solver].

Lemma keeps_kept s0 : kept_by_callbacks (keeps s0).
Proof.
  unfold kept_by_callbacks. split_and!.
  - intros message. destruct message; fast_unfold; repeat maintains_step keeps_side.
  - fast_unfold. repeat maintains_step keeps_side.
  - fast_unfold. repeat maintains_step keeps_side.
  - fast_unfold. repeat maintains_step keeps_side.
  - intros hidden. fast_unfold. repeat maintains_step keeps_side.
  - intros added. fast_unfold. repeat maintains_step keeps_side.
  - fast_unfold. repeat maintains_step keeps_side.
  - intros c. destruct c; fast_unfold; repeat maintains_step keeps_side.
  - intros d. destruct d; fast_unfold; repeat maintains_step keeps_side.
  - intros n. keeps_side.
  - intros b. keeps_side.
Qed.

(** X2.  The optimized script has no reset: along every run from any
    state, an id once in the processed set stays in it, and the like and
    comment counters never go down.  So no later scan, by the observer or by
    a cycle, picks a tweet whose id was processed before. *)
Theorem optimized_session_is_never_reset
    (sys : System) (steps : list (Env * Event)) (env : Env) :
  keeps (vars sys) (vars (run steps sys))
  /\ (forall action,
        scan env (vars (run steps sys)) = Some action ->
        tweetId action ∉ processedTweets (vars sys))
  /\ (forall tweet,
        List.find (unprocessed_in_view env (vars (run steps sys))) (tweets env)
        = Some tweet ->
        getTweetId (article env tweet) ∉ processedTweets (vars sys)).
Proof.
  assert (keeps (vars sys) (vars (run steps sys))) as Hkeeps.
  { apply run_kept; [apply keeps_kept|]. unfold keeps. split_and!; [done|lia|lia]. }
  split_and!; [done| |].
  - intros action. unfold scan.
    destruct (List.find _ _) as [tweet|] eqn:Hfind; [|done].
    intros [= <-]. cbn. apply find_some_holds in Hfind as [_ Hvis].
    unfold unprocessed_visible in Hvis. apply andb_prop in Hvis as [Hnew _].
    apply negb_true_iff, bool_decide_eq_false in Hnew.
    destruct Hkeeps as [Hsub _]. set_solver.
  - intros tweet Hfind. apply find_some_holds in Hfind as [_ Hvis].
    unfold unprocessed_in_view in Hvis. apply andb_prop in Hvis as [Hnew _].
    apply negb_true_iff, bool_decide_eq_false in Hnew.
    destruct Hkeeps as [Hsub _]. set_solver.
Qed.

Ltac cached_side := intros [] ?; assumption.

Ltac cached_step :=
  first [ apply getTweetTextFast_cache_reachable | maintains_step cached_side ].

Ltac cached_unfold :=
  unfold Fast.onMessage, Fast.onVisibilityChange, Fast.onMutations, Fast.onInterval,
    Fast.onHeartbeat, Fast.initialize, Fast.startBackgroundMode,
    Fast.toggleAutomation, Fast.stopAutomation, Fast.startAutomationFast,
    Fast.processTweetsQuickly, Fast.scan_and_push, Fast.processActionQueue,
    Fast.drain_resume, Fast.drain_loop, Fast.runAutomation_resume,
    Fast.runAutomation, Fast.cycle_body, Fast.handleGroqResponse,
    Fast.handleCommentError, Fast.quickScroll, Fast.engageWithTweetFast,
    Fast.likePostFast, Fast.commentOnPostFast,
    Fast.shouldCommentFast, Fast.updateLastActionTime, Fast.updateCounterDisplay,
    Fast.setting, Fast.setInterval, Fast.delay.

Lemma cached_kept :
  kept_by_callbacks (fun s => cache_reachable tweetCache_capacity (tweetCache s)).
Proof.
  unfold kept_by_callbacks. split_and!.
  - intros message. destruct message; cached_unfold; repeat cached_step.
  - cached_unfold. repeat cached_step.
  - cached_unfold. repeat cached_step.
  - cached_unfold. repeat cached_step.
  - intros hidden. cached_unfold. repeat cached_step.
  - intros added. cached_unfold. repeat cached_step.
  - cached_unfold. repeat cached_step.
  - intros c. destruct c; cached_unfold; repeat cached_step.
  - intros d. destruct d; cached_unfold; repeat cached_step.
  - intros n. cached_side.
  - intros b. cached_side.
Qed.

Lemma initialize_cached stored :
  maintains (fun s => cache_reachable tweetCache_capacity (tweetCache s))
    (initialize stored).
Proof. cached_unfold. repeat cached_step. Qed.

(** X3.  Along every run of the loaded script the text cache holds at most
    50 entries, under distinct ids: the only assignment to it is the
    store-and-trim of [getTweetTextFast], whoever calls it. *)
Theorem text_cache_stays_within_capacity
    (stored : option Settings) (env0 : Env) (steps : list (Env * Event)) :
  JsMap.size (tweetCache (vars (run steps (boot stored env0)))) <= 50
  /\ NoDup (JsMap.keys (tweetCache (vars (run steps (boot stored env0)))))
  /\ cache_reachable tweetCache_capacity
       (tweetCache (vars (run steps (boot stored env0)))).
Proof.
  assert (cache_reachable tweetCache_capacity
            (tweetCache (vars (run steps (boot stored env0))))) as Hreach.
  { apply (run_kept (fun s => cache_reachable tweetCache_capacity (tweetCache s)));
      [apply cached_kept|].
    unfold boot. rewrite handle_snd. cbn [vars].
    apply initialize_cached. constructor. }
  pose proof (cache_reachable_inv tweetCache_capacity _ ltac:(done) Hreach) as [Hnd Hsize].
  done.
Qed.

End Kept_along_runs.

(** ** Looking up what was stored *)

Section Lookup.

Implicit Types (m : JsMap.t) (k v : string).

Lemma get_None_notin k m : JsMap.get k m = None <-> k ∉ JsMap.keys m.
Proof.
  induction m as [|[k' v'] m IH]; cbn.
  - split; [intros _; apply not_elem_of_nil|done].
  - destruct (String.eqb k' k) eqn:E.
    + apply String.eqb_eq in E as ->. split; [done|]. intros Hnin. exfalso. apply Hnin. left.
    + rewrite IH. apply String.eqb_neq in E. split.
      * intros Hnin Hin. apply elem_of_cons in Hin as [->|Hin]; [done|by apply Hnin].
      * intros Hnin Hin. apply Hnin. by right.
Qed.

Lemma get_set_same k v m : JsMap.get k (JsMap.set k v m) = Some v.
Proof.
  induction m as [|[k' v'] m IH]; cbn.
  - by rewrite String.eqb_refl.
  - destruct (String.eqb k' k) eqn:E; cbn; by rewrite E.
Qed.

Lemma get_snoc_new k v m :
  k ∉ JsMap.keys m -> JsMap.get k (m ++ [(k, v)]) = Some v.
Proof.
  induction m as [|[k' v'] m IH]; cbn; intros Hnin.
  - by rewrite String.eqb_refl.
  - destruct (String.eqb k' k) eqn:E.
    + apply String.eqb_eq in E as ->. exfalso. apply Hnin. left.
    + apply IH. intros Hin. apply Hnin. by right.
Qed.

(** What the store-and-trim statement stores is found afterwards: the
    entry it may delete is never the one just stored. *)
Lemma get_set_and_trim cap k v m :
  1 <= cap -> cache_reachable cap m ->
  JsMap.get k (set_and_trim cap k v m) = Some v.
Proof.
  intros Hcap Hreach.
  pose proof (cache_reachable_inv cap m ltac:(lia) Hreach) as [Hnd Hsize].
  destruct (decide (k ∈ JsMap.keys m)) as [Hin|Hnin].
  - rewrite set_and_trim_no_eviction by auto. apply get_set_same.
  - destruct (decide (JsMap.size m < cap)) as [Hroom|Hfull].
    + rewrite set_and_trim_no_eviction by auto. apply get_set_same.
    + destruct m as [|[k0 v0] rest].
      { unfold JsMap.size in Hfull. cbn in Hfull. lia. }
      rewrite set_and_trim_full by (done || lia).
      apply get_snoc_new. intros Hin. apply Hnin. by right.
Qed.

End Lookup.

(** ** Reading a tweet's text, liking, engaging *)

Section Engagement.

Import Fast.






End Engagement.

Section Liking_and_engaging.

Import Fast.

(** Closes a goal about the outcome of a handler that has been run. *)
Ltac outcome :=
  first [ done | by auto | cbn; lia | cbn; intros ?; set_solver ].

(** X5.  [likePostFast] counts what it reports, when refreshing the counter
    display does not throw: it returns a boolean, whatever else the page
    throws, and the like counter is one higher exactly when it returns
    true; no other variable changes.  It clicks the like button only when
    the button is there and the tweet does not bear the liked marker, and
    at most once; it reports a like only when the marker is there, before
    or after the click. *)
Theorem like_counts_exactly_what_it_reports
    (env : Env) (s : State) (tweet : Element) :
  (forall t l c, throws env (UpdateCounterDisplay t l c) = false) ->
  exists liked : bool,
    JS.result_of (likePostFast tweet env s) = JS.Ok liked
    /\ JS.state_of (likePostFast tweet env s)
       = (if liked then set_processedLikes (processedLikes s + 1) s else s)
    /\ (Click (LikeButton tweet) ∈ JS.trace_of (likePostFast tweet env s) ->
        likeButton (article env tweet) = true
        /\ unlikeMarker (article env tweet) = false)
    /\ (length (clicks (JS.trace_of (likePostFast tweet env s))) <= 1)%nat
    /\ (liked = true ->
        likeButton (article env tweet) = true
        /\ (unlikeMarker (article env tweet) = true
            \/ unlikeAfterClick (article env tweet) = true)).
Proof.
  intros Hshow. unfold likePostFast. exec.
  destruct (likeButton (article env tweet)) eqn:Hlike; cbn [negb].
  2:{ exists false. split_and!; outcome. }
  destruct (unlikeMarker (article env tweet)) eqn:Hmark.
  { exists true. exec. split_and!; outcome. }
  rewrite try_catch_run, bind_perform.
  destruct (throws env (Focus (LikeButton tweet))) eqn:Hfocus.
  { exists false. exec. split_and!; outcome. }
  unfold delay. exec. rewrite bind_perform.
  destruct (throws env (Click (LikeButton tweet))) eqn:Hclick.
  { exists false. exec. split_and!; outcome. }
  exec. destruct (unlikeAfterClick (article env tweet)) eqn:Hafter.
  - exists true. unfold updateCounterDisplay. exec. rewrite bind_perform, Hshow. exec.
    split_and!; outcome.
  - exists false. exec. split_and!; outcome.
Qed.

Lemma like_counts_exactly_what_it_reports_witness :
  (forall t l c,
     throws (Page.showing 0 [Page.plain "A"]) (UpdateCounterDisplay t l c) = false)
  /\ exists liked : bool,
       JS.result_of (likePostFast 0%nat (Page.showing 0 [Page.plain "A"]) initial_state)
       = JS.Ok liked
       /\ JS.state_of (likePostFast 0%nat (Page.showing 0 [Page.plain "A"]) initial_state)
          = (if liked then set_processedLikes (processedLikes initial_state + 1) initial_state
             else initial_state).
Proof.
  split; [reflexivity|].
  destruct (like_counts_exactly_what_it_reports
              (Page.showing 0 [Page.plain "A"]) initial_state 0%nat (fun _ _ _ => eq_refl))
    as (liked & Hresult & Hstate & _).
  exists liked. split; [exact Hresult|exact Hstate].
Defined.

(** An engagement marks the tweet and notes the time when it took an
    action, and leaves both alone otherwise. *)
Lemma engageWithTweetFast_marks tweet tweetId env X T :
  (forall t l c, throws env (UpdateCounterDisplay t l c) = false) ->
  triple env (fun s => processedTweets s = X /\ lastActionTime s = T)
    (engageWithTweetFast tweet tweetId)
    (fun r s =>
       match r with
       | JS.Ok true =>
           processedTweets s = {[ tweetId ]} ∪ X /\ lastActionTime s = Date_now env
       | _ => processedTweets s = X /\ lastActionTime s = T
       end).
Proof.
  intros Hshow. unfold engageWithTweetFast.
  apply triple_try_catch with
    (Q1 := fun (r : JS.Res bool) (s : State) =>
             match r with
             | JS.Ok true =>
                 processedTweets s = {[ tweetId ]} ∪ X /\ lastActionTime s = Date_now env
             | _ => processedTweets s = X /\ lastActionTime s = T
             end).
  - repeat (apply triple_bind_frame;
              [solve [fast_unfold; repeat maintains_step ltac:(intros [] ?; assumption)]
              | intros ? | done]).
    intros s [Hs Ht]. cbn zeta.
    match goal with |- context [when ?c _] => destruct c end.
    + unfold when, updateLastActionTime, updateCounterDisplay. exec.
      rewrite bind_perform, Hshow. exec. cbn. destruct s; cbn in *. by subst.
    + unfold when. by exec.
  - intros [] s Hs; done.
  - intros s Hs. by exec.
Qed.

(** X6.  An engagement marks the tweet as processed exactly when it reports
    an action, when refreshing the counter display does not throw.  It
    always settles with a boolean.  When it reports an action (a like or a
    started comment), the id it was called with is added to the processed
    set and the time of the last action is the current time; when it
    reports none, the processed set and that time are as before, so the
    tweet is met again by the next scan. *)
Theorem engagement_marks_the_tweet_exactly_when_it_acted
    (env : Env) (s : State) (tweet : Element) (tweetId : string) :
  (forall t l c, throws env (UpdateCounterDisplay t l c) = false) ->
  exists actionTaken : bool,
    JS.result_of (engageWithTweetFast tweet tweetId env s) = JS.Ok actionTaken
    /\ processedTweets (JS.state_of (engageWithTweetFast tweet tweetId env s))
       = (if actionTaken then {[ tweetId ]} ∪ processedTweets s else processedTweets s)
    /\ lastActionTime (JS.state_of (engageWithTweetFast tweet tweetId env s))
       = (if actionTaken then Date_now env else lastActionTime s).
Proof.
  intros Hshow.
  pose proof (engageWithTweetFast_returns tweet tweetId env s) as [actionTaken Hresult].
  pose proof (engageWithTweetFast_marks tweet tweetId env (processedTweets s)
                (lastActionTime s) Hshow s (conj eq_refl eq_refl)) as Hmarks.
  exists actionTaken. split; [done|]. rewrite Hresult in Hmarks.
  by destruct actionTaken.
Qed.

Lemma engagement_marks_the_tweet_exactly_when_it_acted_witness :
  (forall t l c,
     throws (Page.showing 500 [Page.plain "A"]) (UpdateCounterDisplay t l c) = false)
  /\ exists actionTaken : bool,
       JS.result_of
         (engageWithTweetFast 0%nat "A" (Page.showing 500 [Page.plain "A"])
            (set_settings (Some Page.like_only) initial_state))
       = JS.Ok actionTaken
       /\ processedTweets
            (JS.state_of
               (engageWithTweetFast 0%nat "A" (Page.showing 500 [Page.plain "A"])
                  (set_settings (Some Page.like_only) initial_state)))
          = (if actionTaken
             then {[ "A" ]} ∪ processedTweets (set_settings (Some Page.like_only) initial_state)
             else processedTweets (set_settings (Some Page.like_only) initial_state)).
Proof.
  split; [reflexivity|].
  destruct (engagement_marks_the_tweet_exactly_when_it_acted
              (Page.showing 500 [Page.plain "A"])
              (set_settings (Some Page.like_only) initial_state) 0%nat "A"
              (fun _ _ _ => eq_refl))
    as (actionTaken & Hresult & Hmarked & _).
  exists actionTaken. split; [exact Hresult|exact Hmarked].
Defined.

End Liking_and_engaging.

Section Commenting.

Import Fast.

Ltac outcome :=
  first [ done | by auto | cbn; lia | cbn; intros ?; set_solver ].

Lemma getTweetTextFast_quiet tweet env s :
  exists text s1,
    getTweetTextFast tweet env s = (JS.Ok text, s1, [])
    /\ fastMode s1 = fastMode s.
Proof.
  unfold getTweetTextFast. exec.
  destruct (JsMap.get _ _) as [cached|]; [by eexists _, _|].
  destruct (tweetText _) as [text|]; exec; [|by eexists _, _].
  eexists _, _. split; [done|]. by destruct s.
Qed.

(** X7.  [commentOnPostFast] always settles with a boolean.  When it
    reports a started comment, it has clicked the reply button of the tweet
    (its only click), has sent exactly one request to the generation
    service, whose prompt is the text [getTweetTextFast] gave, a non-empty
    one, and the tweet is the one awaiting a reply.  When it reports none,
    no request was sent.  When the text is empty or the tweet has no reply
    button, it does nothing to the page at all. *)
Theorem comment_request_follows_the_reply_click
    (env : Env) (s : State) (tweet : Element) :
  exists commented : bool,
    JS.result_of (commentOnPostFast tweet env s) = JS.Ok commented
    /\ (if commented then
          exists text,
            JS.result_of (getTweetTextFast tweet env s) = JS.Ok text
            /\ text <> EmptyString
            /\ replyButton (article env tweet) = true
            /\ requests (JS.trace_of (commentOnPostFast tweet env s)) = [text]
            /\ clicks (JS.trace_of (commentOnPostFast tweet env s))
               = [Click (ReplyButton tweet)]
            /\ currentTweetForComment (JS.state_of (commentOnPostFast tweet env s))
               = Some tweet
        else requests (JS.trace_of (commentOnPostFast tweet env s)) = [])
    /\ (JS.result_of (getTweetTextFast tweet env s) = JS.Ok EmptyString
        \/ replyButton (article env tweet) = false ->
        commented = false /\ JS.trace_of (commentOnPostFast tweet env s) = []).
Proof.
  unfold commentOnPostFast. rewrite try_catch_run, bind_run.
  destruct (getTweetTextFast_quiet tweet env s) as (text & s1 & -> & Hfast).
  unfold JS.result_of, JS.state_of, JS.trace_of. cbn [fst snd]. exec.
  destruct (String.eqb text EmptyString) eqn:Htext.
  { exists false. split_and!; outcome. }
  apply String.eqb_neq in Htext.
  destruct (replyButton (article env tweet)) eqn:Hreply; cbn [negb].
  2:{ exists false. split_and!; outcome. }
  rewrite bind_perform.
  destruct (throws env (Focus (ReplyButton tweet))).
  { exists false. exec. split_and!; first [outcome | intros [[= ?]|?]; done]. }
  unfold delay. exec. rewrite bind_perform.
  destruct (throws env (Click (ReplyButton tweet))).
  { exists false. exec. split_and!; first [outcome | intros [[= ?]|?]; done]. }
  exec. rewrite bind_perform.
  destruct (throws env (SendGroqRequest text)).
  { exists false. exec. split_and!; first [outcome | intros [[= ?]|?]; done]. }
  exists true. exec. split_and!; first [outcome | intros [[= ?]|?]; done | idtac].
  exists text. split_and!; first [outcome | by destruct s1].
Qed.

End Commenting.

(** ** The original script: liking, reading, scrolling *)

Section Original_engagement.

Import Original.

Ltac outcome :=
  first [ done | by auto | cbn; lia | cbn; intros ?; set_solver ].

(** X8.  In the original script a like button that the first query misses
    is never clicked, whatever the query a second later finds: the click
    goes to the result of the first query.  With the button found late and
    no liked marker, moving the mouse to the missing button throws, the
    error is logged and [likePost] reports failure.  It reports a like only
    when the late button is there and the tweet already bears the liked
    marker. *)
Theorem a_like_button_found_late_is_never_clicked
    (env : Env) (s : State) (tweet : Element) :
  likeButton (article env tweet) = false ->
  clicks (JS.trace_of (likePost tweet env s)) = []
  /\ (JS.result_of (likePost tweet env s) = JS.Ok true ->
      likeButtonRetry (article env tweet) = true
      /\ unlikeMarker (article env tweet) = true)
  /\ (likeButtonRetry (article env tweet) = true ->
      unlikeMarker (article env tweet) = false ->
      likePost tweet env s
      = (JS.Ok false, s, [Delay 1000; LogError "Error while liking:"])).
Proof.
  intros Hlike. unfold likePost, likePost_found, simulateMouseMovement, delay. exec.
  rewrite Hlike. cbn [negb]. exec.
  destruct (likeButtonRetry (article env tweet)) eqn:Hretry; cbn [negb].
  2:{ exec. split_and!; outcome. }
  exec. destruct (unlikeMarker (article env tweet)) eqn:Hmark.
  - unfold updateCounterDisplay. exec. rewrite bind_perform.
    destruct (throws env _); exec; split_and!; outcome.
  - rewrite try_catch_run, Hlike. exec. split_and!; outcome.
Qed.

Lemma a_like_button_found_late_is_never_clicked_witness :
  likeButton (article (Page.showing 0 [Fixture.late_like_button "A"]) 0%nat) = false
  /\ likePost 0%nat (Page.showing 0 [Fixture.late_like_button "A"]) initial_state
     = (JS.Ok false, initial_state, [Delay 1000; LogError "Error while liking:"]).
Proof.
  split; [reflexivity|].
  exact (proj2 (proj2
    (a_like_button_found_late_is_never_clicked
       (Page.showing 0 [Fixture.late_like_button "A"]) initial_state 0%nat eq_refl))
    eq_refl eq_refl).
Defined.

End Original_engagement.

Section Original_text.

Import Original.

Ltac outcome :=
  first [ done | by auto | cbn; lia | cbn; intros ?; set_solver ].







End Original_text.

Section Original_scroll.

Import Original.

Lemma Math_min_le_l x y : (Math_min x y <= x)%Q.
Proof.
  unfold Math_min. destruct (Qle_bool x y) eqn:E.
  - apply Qle_refl.
  - apply Qlt_le_weak, Qnot_le_lt. intros Hle. apply Qle_bool_iff in Hle. congruence.
Qed.

Lemma Math_min_le_r x y : (Math_min x y <= y)%Q.
Proof.
  unfold Math_min. destruct (Qle_bool x y) eqn:E.
  - by apply Qle_bool_iff.
  - apply Qle_refl.
Qed.

Lemma Math_min_glb z x y : (z < x)%Q -> (z < y)%Q -> (z < Math_min x y)%Q.
Proof. intros Hx Hy. unfold Math_min. by destruct (Qle_bool x y). Qed.

(** X10.  [smoothScroll] of the original script never scrolls past the end
    of the document and never backwards.  With a viewport of positive
    height: when the page is above the last scroll position (the height of
    the document less that of the viewport), it scrolls to a target
    strictly below the current position, at most half a viewport further
    and at most at the last position, waits 3000 ms and reports true; when
    the page is at or beyond the last position it does nothing and reports
    false. *)
Theorem smooth_scroll_stays_within_the_document (env : Env) (s : State) :
  0 < window_innerHeight env ->
  (window_scrollY env
   < Z.max (documentElement_scrollHeight env) (body_scrollHeight env)
     - window_innerHeight env ->
   exists target : Q,
     smoothScroll env s
     = (if throws env (ScrollTo target) then (JS.Exn, s, [])
        else (JS.Ok true, s, [ScrollTo target; Delay 3000]))
     /\ (inject_Z (window_scrollY env) < target)%Q
     /\ (target <= inject_Z (window_scrollY env) + inject_Z (window_innerHeight env) / 2)%Q
     /\ (target
         <= inject_Z (Z.max (documentElement_scrollHeight env) (body_scrollHeight env)
                      - window_innerHeight env))%Q)
  /\ (Z.max (documentElement_scrollHeight env) (body_scrollHeight env)
      - window_innerHeight env <= window_scrollY env ->
      smoothScroll env s = (JS.Ok false, s, [])).
Proof.
  intros Hview. split.
  - intros Habove.
    exists (Math_min
              (inject_Z (window_scrollY env) + inject_Z (window_innerHeight env) / 2)
              (inject_Z (Z.max (documentElement_scrollHeight env) (body_scrollHeight env)
                         - window_innerHeight env))).
    split_and!.
    + unfold smoothScroll, delay. exec. unfold id.
      destruct (Z.ltb_spec (window_scrollY env)
                  (Z.max (documentElement_scrollHeight env) (body_scrollHeight env)
                   - window_innerHeight env)) as [_|Hge]; [|lia].
      rewrite bind_perform. destruct (throws env _); [done|]. by exec.
    + apply Math_min_glb.
      * rewrite <- (Qplus_0_r (inject_Z (window_scrollY env))) at 1.
        apply Qplus_lt_r. apply Qlt_shift_div_l; [done|].
        rewrite Qmult_0_l. change 0%Q with (inject_Z 0). by rewrite <- Zlt_Qlt.
      * by rewrite <- Zlt_Qlt.
    + apply Math_min_le_l.
    + apply Math_min_le_r.
  - intros Hend. apply smoothScroll_at_end. lia.
Qed.

Lemma smooth_scroll_stays_within_the_document_witness :
  0 < window_innerHeight (Page.at_scroll 1000 0 [])
  /\ smoothScroll (Page.at_scroll 1000 0 []) initial_state
     = (JS.Ok true, initial_state, [ScrollTo (inject_Z 1200); Delay 3000])
  /\ smoothScroll (Page.at_scroll 1200 0 []) initial_state
     = (JS.Ok false, initial_state, []).
Proof.
  assert (0 < window_innerHeight (Page.at_scroll 1000 0 [])) as Hview by (cbn; lia).
  split; [exact Hview|]. split; [reflexivity|].
  apply (proj2 (smooth_scroll_stays_within_the_document
                  (Page.at_scroll 1200 0 []) initial_state Hview)).
  cbn. lia.
Defined.

End Original_scroll.

Section Original_submit_button.

Import Original.

Lemma first_reply_button_None selector index bs :
  first_reply_button selector index bs = None
  <-> Forall (fun b => is_reply_button b = false) bs.
Proof.
  revert index. induction bs as [|b bs IH]; intros index; cbn.
  - split; [constructor|done].
  - destruct (is_reply_button b) eqn:Hb.
    + split; [done|]. intros Hall. apply Forall_cons in Hall as [Hb' _]. congruence.
    + rewrite IH. split; [by constructor|]. intros Hall. by apply Forall_cons in Hall as [_ ?].
Qed.

Lemma first_reply_button_Some selector index bs t :
  first_reply_button selector index bs = Some t ->
  exists offset b,
    t = SubmitButton selector (index + offset)
    /\ bs !! offset = Some b
    /\ is_reply_button b = true
    /\ Forall (fun b => is_reply_button b = false) (take offset bs).
Proof.
  revert index. induction bs as [|b bs IH]; intros index; cbn; [done|].
  destruct (is_reply_button b) eqn:Hb.
  - intros [= <-]. exists 0%nat, b. rewrite Nat.add_0_r. split_and!; first [done | constructor].
  - intros Hrest. destruct (IH _ Hrest) as (offset & b' & -> & Hlook & Hreply & Hbefore).
    exists (S offset), b'. split_and!; try done.
    + f_equal. lia.
    + cbn. by constructor.
Qed.

Lemma findReplyButton_from_None env selectors :
  findReplyButton_from env selectors = None
  <-> Forall (fun selector =>
                Forall (fun b => is_reply_button b = false) (buttons env selector))
        selectors.
Proof.
  induction selectors as [|selector rest IH]; cbn.
  - split; [constructor|done].
  - destruct (first_reply_button selector 0 (buttons env selector)) as [t|] eqn:Hfirst.
    + split; [done|]. intros Hall. apply Forall_cons in Hall as [Hnone _].
      apply (first_reply_button_None selector 0) in Hnone. congruence.
    + rewrite IH. apply (first_reply_button_None selector 0) in Hfirst.
      split; [by constructor|]. intros Hall. by apply Forall_cons in Hall as [_ ?].
Qed.

Lemma findReplyButton_from_Some env selectors t :
  findReplyButton_from env selectors = Some t ->
  exists before selector rest index b,
    selectors = before ++ selector :: rest
    /\ t = SubmitButton selector index
    /\ buttons env selector !! index = Some b
    /\ is_reply_button b = true
    /\ Forall (fun b => is_reply_button b = false) (take index (buttons env selector))
    /\ Forall (fun earlier =>
                 Forall (fun b => is_reply_button b = false) (buttons env earlier))
         before.
Proof.
  induction selectors as [|selector rest IH]; cbn; [done|].
  destruct (first_reply_button selector 0 (buttons env selector)) as [t'|] eqn:Hfirst.
  - intros [= <-].
    apply first_reply_button_Some in Hfirst as (offset & b & -> & Hlook & Hreply & Hbefore).
    exists [], selector, rest, offset, b. split_and!; first [done | constructor].
  - intros Hrest.
    destruct (IH Hrest) as (before & sel & rest' & index & b & -> & -> & Hlook & Hreply
                            & Hbefore & Hearlier).
    exists (selector :: before), sel, rest', index, b. split_and!; try done.
    constructor; [|done]. by apply (first_reply_button_None selector 0).
Qed.

(** X11.  [findReplyButton] of the original script goes through the
    selectors tweetButton, tweetButtonInline, button[type=submit] and button
    in this order, and returns the first button whose text, in lower case,
    includes reply, post or tweet: every button before it under its
    selector, and every button under an earlier selector, has no such text.
    It returns null exactly when no button under any of the four selectors
    has.  The optimized script does not read the text: it finds a button as
    soon as one exists under one of the first two selectors. *)
Theorem submit_button_is_the_first_whose_text_says_so (env : Env) :
  (findReplyButton env = None
   <-> forall selector, (selector < 4)%nat ->
         Forall (fun b => is_reply_button b = false) (buttons env selector))
  /\ (forall t, findReplyButton env = Some t ->
        exists selector index b,
          t = SubmitButton selector index
          /\ (selector < 4)%nat
          /\ buttons env selector !! index = Some b
          /\ is_reply_button b = true
          /\ Forall (fun b => is_reply_button b = false)
               (take index (buttons env selector))
          /\ (forall earlier, (earlier < selector)%nat ->
                Forall (fun b => is_reply_button b = false) (buttons env earlier)))
  /\ (forall selector index,
        findReplyButton env = Some (SubmitButton selector index) ->
        (selector <= 1)%nat -> is_Some (Fast.findReplyButton env))
  /\ (Fast.findReplyButton env = None <-> buttons env 0 = [] /\ buttons env 1 = []).
Proof.
  unfold findReplyButton. split_and!.
  - rewrite findReplyButton_from_None. split.
    + intros Hall selector Hsel.
      apply Forall_cons in Hall as [H0 Hall]. apply Forall_cons in Hall as [H1 Hall].
      apply Forall_cons in Hall as [H2 Hall]. apply Forall_cons in Hall as [H3 _].
      destruct selector as [|[|[|[|?]]]]; [done..|lia].
    + intros Hall. repeat constructor; apply Hall; lia.
  - intros t Hfound.
    apply findReplyButton_from_Some in Hfound
      as (before & selector & rest & index & b & Hsplit & -> & Hlook & Hreply & Hbefore
          & Hearlier).
    exists selector, index, b.
    assert (selector ∈ [0; 1; 2; 3]%nat /\ before = seq 0 selector) as [Hin Hseq].
    { destruct before as [|b0 [|b1 [|b2 [|b3 [|? ?]]]]]; cbn in Hsplit;
        simplify_eq; split; try done; set_solver. }
    split_and!; try done.
    + set_solver by lia.
    + intros earlier Hlt. rewrite Forall_forall in Hearlier. apply Hearlier.
      rewrite Hseq. apply elem_of_seq. lia.
  - intros selector index Hfound Hsel.
    apply findReplyButton_from_Some in Hfound
      as (before & selector' & rest & index' & b & Hsplit & [= <- <-] & Hlook & _).
    unfold Fast.findReplyButton.
    destruct selector as [|[|?]]; [| |lia].
    + destruct (buttons env 0); [by destruct index|by eexists].
    + destruct (buttons env 0); [|by eexists].
      destruct (buttons env 1); [by destruct index|by eexists].
  - unfold Fast.findReplyButton.
    destruct (buttons env 0); [|split; [done|by intros [? _]]].
    destruct (buttons env 1); [done|split; [done|by intros [_ ?]]].
Qed.

End Original_submit_button.

Section Original_cycle.

Import Original.

Lemma engageWithTweet_processedTweets tweet :
  preserves processedTweets (engageWithTweet tweet).
Proof.
  unfold engageWithTweet, likePost, likePost_found, commentOnPost, setting,
    shouldComment, simulateMouseMovement, updateCounterDisplay, delay.
  frame.
Qed.

(** An engagement of the original script reports an action only for a
    tweet that lies within the viewport after it was scrolled to. *)
Lemma engageWithTweet_true tweet env s :
  JS.result_of (engageWithTweet tweet env s) = JS.Ok true ->
  within_viewport (rectInEngage (article env tweet)) (window_innerHeight env).
Proof.
  unfold engageWithTweet, delay. rewrite try_catch_run, bind_perform.
  destruct (throws env (ScrollIntoView tweet)); [by exec|]. exec.
  destruct (Z.ltb_spec (rect_top (rectInEngage (article env tweet))) 0) as [?|Htop];
    [by exec|].
  destruct (Z.gtb_spec (rect_bottom (rectInEngage (article env tweet)))
              (window_innerHeight env)) as [?|Hbottom]; [by exec|].
  intros _. split; lia.
Qed.

Lemma process_tweets_marks_one env tweets s :
  match JS.result_of (process_tweets tweets env s) with
  | JS.Ok true =>
      exists tweet,
        tweet ∈ tweets
        /\ (getTweetId (article env tweet) ∉ processedTweets s)
        /\ processedTweets (JS.state_of (process_tweets tweets env s))
           = {[ getTweetId (article env tweet) ]} ∪ processedTweets s
        /\ within_viewport (rectInCycle (article env tweet)) (window_innerHeight env)
        /\ within_viewport (rectInEngage (article env tweet)) (window_innerHeight env)
  | _ => processedTweets (JS.state_of (process_tweets tweets env s)) = processedTweets s
  end.
Proof.
  revert s. induction tweets as [|tweet rest IH]; intros s; [done|].
  cbn [process_tweets]. exec.
  destruct (bool_decide (getTweetId (article env tweet) ∈ processedTweets s)) eqn:Hseen.
  { specialize (IH s). destruct (JS.result_of _) as [[|]|]; [|done..].
    destruct IH as (t & Hin & Hrest). exists t. split; [by right|done]. }
  apply bool_decide_eq_false in Hseen.
  match goal with |- context [JS.bind ?m _ env s] => set (attempt := m) end.
  assert (exists (done : bool) s1 t1,
            attempt env s = (JS.Ok done, s1, t1)
            /\ if done
               then processedTweets s1
                    = {[ getTweetId (article env tweet) ]} ∪ processedTweets s
                    /\ within_viewport (rectInCycle (article env tweet))
                         (window_innerHeight env)
                    /\ within_viewport (rectInEngage (article env tweet))
                         (window_innerHeight env)
               else processedTweets s1 = processedTweets s)
    as (done & s1 & t1 & Hattempt & Hdone).
  { subst attempt. rewrite try_catch_run, bind_perform.
    destruct (throws env (ScrollIntoView tweet)); [exists false; exec; by eexists _, _|].
    unfold delay. exec.
    destruct (Z.geb_spec (rect_top (rectInCycle (article env tweet))) 0) as [Htop|?];
      cbn [andb]; [|exists false; exec; by eexists _, _].
    destruct (Z.leb_spec (rect_bottom (rectInCycle (article env tweet)))
                (window_innerHeight env)) as [Hbottom|?];
      [|exists false; exec; by eexists _, _].
    rewrite bind_run.
    pose proof (preserves_eq processedTweets _ env s (engageWithTweet_processedTweets tweet))
      as Hsame.
    pose proof (engageWithTweet_true tweet env s) as Hview.
    destruct (engageWithTweet tweet env s) as [[[[|]|] s1] t1];
      unfold JS.result_of, JS.state_of in *; cbn [fst snd] in *.
    - exists true. exec. eexists _, _. split; [done|].
      split_and!; [by destruct s1; cbn in *; subst|split; lia|by apply Hview].
    - exists false. exec. by eexists _, _.
    - exists false. exec. by eexists _, _. }
  rewrite bind_run, Hattempt. destruct done.
  - exec. cbn. destruct Hdone as (Hmarked & Hcycle & Hengage).
    exists tweet. split_and!; try done. left.
  - specialize (IH s1). unfold JS.result_of, JS.state_of, after in *.
    cbn [fst snd]. rewrite Hdone in IH.
    destruct (process_tweets rest env s1) as [[[[|]|] s2] t2]; cbn [fst snd] in *;
      [|done..].
    destruct IH as (t & Hin & Hrest). exists t. split; [by right|done].
Qed.

(** X12.  A cycle of the original script marks at most one tweet.  When its
    loop reports a processed tweet, exactly one id was added to the
    processed set: that of a rendered tweet which was not in the set and
    which lay within the viewport both after the scroll of the cycle and
    after the scroll of the engagement.  Otherwise the processed set is as
    it was before the loop. *)
Theorem a_cycle_marks_at_most_one_tweet (env : Env) (s : State) :
  match JS.result_of (scan_and_process env s) with
  | JS.Ok true =>
      exists tweet,
        tweet ∈ tweets env
        /\ rendered env tweet = true
        /\ (getTweetId (article env tweet) ∉ processedTweets s)
        /\ processedTweets (JS.state_of (scan_and_process env s))
           = {[ getTweetId (article env tweet) ]} ∪ processedTweets s
        /\ within_viewport (rectInCycle (article env tweet)) (window_innerHeight env)
        /\ within_viewport (rectInEngage (article env tweet)) (window_innerHeight env)
  | _ => processedTweets (JS.state_of (scan_and_process env s)) = processedTweets s
  end.
Proof.
  unfold scan_and_process, updateCounterDisplay. exec. unfold id. rewrite bind_perform.
  set (shown := List.filter (rendered env) (tweets env)).
  set (s0 := set_totalTweets (Z.of_nat (length shown)) s).
  assert (processedTweets s0 = processedTweets s) as Hs0 by (subst s0; by destruct s).
  destruct (throws env _); [done|].
  pose proof (process_tweets_marks_one env shown s0) as Hloop.
  unfold JS.result_of, JS.state_of, after in *. cbn [fst snd].
  destruct (process_tweets shown env s0) as [[[[|]|] s1] t1]; cbn [fst snd] in *;
    [|congruence..].
  destruct Hloop as (tweet & Hin & Hnew & Hmarked & Hview).
  subst shown. apply list_elem_of_In, filter_In in Hin as [Hin Hshown].
  exists tweet. rewrite <- Hs0.
  split_and!; first [done | by apply list_elem_of_In | apply Hview].
Qed.

End Original_cycle.

(** ** Switching automation on and off *)

Section Switching.

Import Fast Sched.

Lemma toggleAutomation_on env s :
  throws env CreateCounterDisplay = false ->
  toggleAutomation true env s
  = (JS.Ok tt,
     match automationInterval s with
     | Some _ => set_automationEnabled true s
     | None =>
         set_automationInterval (Some (S (timerSeq s)))
           (set_timerSeq (S (timerSeq s))
              (set_runTimeouts (S (runTimeouts s)) (set_automationEnabled true s)))
     end,
     [CreateCounterDisplay]).
Proof.
  intros Hcreate. unfold toggleAutomation. exec. rewrite bind_perform, Hcreate.
  rewrite startAutomationFast_run.
  replace (automationInterval (set_automationEnabled true s)) with (automationInterval s)
    by (by destruct s).
  destruct (automationInterval s); [done|]. by destruct s.
Qed.

Lemma toggleAutomation_off env s :
  throws env RemoveCounterDisplay = false ->
  toggleAutomation false env s
  = (JS.Ok tt,
     set_isRunning false
       (set_pageVisibilityInterval None
          (set_automationInterval None (set_automationEnabled false s))),
     [RemoveCounterDisplay]).
Proof.
  intros Hremove. unfold toggleAutomation. exec.
  rewrite bind_run, stopAutomation_run. cbv beta iota.
  unfold JS.perform. by rewrite Hremove.
Qed.

(** X13.  Switching automation on arms the polling interval and one start
    timeout when the interval is not armed, and arms nothing when it is;
    switching it off clears the polling interval, the heartbeat interval
    and the running flag, and leaves a start timeout that is still pending
    armed.  Either way, to switch twice in a row to the same position
    leaves the variables and timers as switching once does: a repeated
    message arms no second interval. *)
Theorem switching_twice_is_switching_once (env : Env) (s : State) (enabled : bool) :
  throws env CreateCounterDisplay = false ->
  throws env RemoveCounterDisplay = false ->
  JS.state_of (JS.bind (toggleAutomation enabled) (fun _ => toggleAutomation enabled) env s)
  = JS.state_of (toggleAutomation enabled env s)
  /\ JS.state_of (toggleAutomation true env s)
     = match automationInterval s with
       | Some _ => set_automationEnabled true s
       | None =>
           set_automationInterval (Some (S (timerSeq s)))
             (set_timerSeq (S (timerSeq s))
                (set_runTimeouts (S (runTimeouts s)) (set_automationEnabled true s)))
       end
  /\ JS.state_of (toggleAutomation false env s)
     = set_isRunning false
         (set_pageVisibilityInterval None
            (set_automationInterval None (set_automationEnabled false s)))
  /\ runTimeouts (JS.state_of (toggleAutomation false env s)) = runTimeouts s.
Proof.
  intros Hcreate Hremove. split_and!.
  - rewrite bind_run. destruct enabled.
    + rewrite !toggleAutomation_on by done. cbv beta iota. rewrite ?toggleAutomation_on by done.
      unfold JS.state_of, after. cbn [fst snd].
      destruct s as [? ? ? ? ? [a|] ? ? ? ? ? ? ? ? ? ? ? ?]; done.
    + rewrite !toggleAutomation_off by done. cbv beta iota.
      rewrite ?toggleAutomation_off by done.
      unfold JS.state_of, after. cbn [fst snd]. by destruct s.
  - by rewrite toggleAutomation_on.
  - by rewrite toggleAutomation_off.
  - rewrite toggleAutomation_off by done. by destruct s.
Qed.

Lemma switching_twice_is_switching_once_witness :
  throws (Page.showing 0 []) CreateCounterDisplay = false
  /\ throws (Page.showing 0 []) RemoveCounterDisplay = false
  /\ JS.state_of
       (JS.bind (toggleAutomation true) (fun _ => toggleAutomation true)
          (Page.showing 0 []) initial_state)
     = JS.state_of (toggleAutomation true (Page.showing 0 []) initial_state).
Proof.
  split; [reflexivity|]. split; [reflexivity|].
  exact (proj1
    (switching_twice_is_switching_once (Page.showing 0 []) initial_state true
       eq_refl eq_refl)).
Defined.

Lemma handle_unchanged {A} (m : M A) env sys r :
  m env (vars sys) = (r, vars sys, []) -> (handle m env sys).2 = sys.
Proof.
  intros Hm. unfold handle. rewrite Hm. cbn. rewrite app_nil_r. by destruct sys.
Qed.

Lemma disabled_guard_fails s : automationEnabled s = false -> guard_fails s = true.
Proof.
  intros Hoff. unfold guard_fails. rewrite Hoff. cbn.
  by destruct (negb _), (isRunning s).
Qed.

Lemma suspend_cycle_none sys : suspend_cycle (@JS.Ok (option Cycle) None, sys) = sys.
Proof. done. Qed.

(** X14.  While automation is switched off, the timers and observers of
    the script start nothing.  A start timeout that fires, a tick of the
    polling interval, a change of visibility, a batch of mutations and the
    debounce timeout leave the variables, the suspended activations and the
    page as they are; only the timer that fired is no longer armed.  (What
    was started before goes on: a suspended cycle or queue loop, and a
    reply that arrives.) *)
Theorem a_disabled_script_starts_nothing (env : Env) (sys : System) :
  automationEnabled (vars sys) = false ->
  step env RunTimeout sys
  = match runTimeouts (vars sys) with
    | O => sys
    | S n => with_vars (set_runTimeouts n (vars sys)) sys
    end
  /\ step env IntervalTick sys = sys
  /\ (forall hidden, step env (VisibilityChange hidden) sys = sys)
  /\ (forall addedNodes, step env (Mutations addedNodes) sys = sys)
  /\ step env DebounceTimeout sys
     = (if debounceTimer (vars sys)
        then with_vars (set_debounceTimer false (vars sys)) sys
        else sys).
Proof.
  intros Hoff. split_and!.
  - cbn [step]. destruct (runTimeouts (vars sys)) as [|n]; [done|].
    set (sys1 := with_vars _ sys).
    assert (automationEnabled (vars sys1) = false) as Hoff1
      by (subst sys1; cbn; by destruct (vars sys)).
    assert ((handle runAutomation env sys1).2 = sys1) as Hsame.
    { eapply handle_unchanged. by apply runAutomation_guarded, disabled_guard_fails. }
    unfold handle in *. rewrite runAutomation_guarded in *
      by (by apply disabled_guard_fails). done.
  - cbn [step]. destruct (automationInterval (vars sys)); [|done].
    assert ((handle onInterval env sys).2 = sys) as Hsame.
    { eapply handle_unchanged. rewrite onInterval_run.
      destruct (isRunning (vars sys)); [done|].
      by apply runAutomation_guarded, disabled_guard_fails. }
    unfold handle in *. rewrite onInterval_run in *.
    destruct (isRunning (vars sys)); [done|].
    rewrite runAutomation_guarded in * by (by apply disabled_guard_fails). done.
  - intros hidden. cbn [step]. eapply handle_unchanged.
    unfold onVisibilityChange. destruct hidden; [done|]. exec. unfold id.
    by rewrite Hoff.
  - intros added. cbn [step]. eapply handle_unchanged.
    unfold onMutations. exec. unfold id. rewrite Hoff. cbn.
    by destruct (isRunning (vars sys)).
  - cbn [step]. destruct (debounceTimer (vars sys)); [|done].
    set (sys1 := with_vars _ sys).
    assert (automationEnabled (vars sys1) = false) as Hoff1
      by (subst sys1; cbn; by destruct (vars sys)).
    assert (processTweetsQuickly env (vars sys1) = (JS.Ok None, vars sys1, [])) as Hscan.
    { unfold processTweetsQuickly, scan_and_push. exec. unfold id. rewrite Hoff1.
      cbn. destruct (negb _); by exec. }
    unfold handle. rewrite Hscan. cbn. rewrite app_nil_r. by destruct sys.
Qed.

Lemma a_disabled_script_starts_nothing_witness :
  automationEnabled (vars (boot None (Page.showing 0 [Page.plain "A"]))) = false
  /\ step (Page.showing 3000 [Page.plain "A"]) IntervalTick
       (boot None (Page.showing 0 [Page.plain "A"]))
     = boot None (Page.showing 0 [Page.plain "A"]).
Proof.
  split; [reflexivity|].
  exact (proj1 (proj2
    (a_disabled_script_starts_nothing (Page.showing 3000 [Page.plain "A"])
       (boot None (Page.showing 0 [Page.plain "A"])) eq_refl))).
Defined.

End Switching.

(** ** Counting a comment *)

Section Counting.

Lemma after_tuple {S A} t (r : JS.Res A) (s : S) t' :
  after t (r, s, t') = (r, s, t ++ t').
Proof. done. Qed.

Lemma perform_run {S} eff env (s : S) :
  JS.perform eff env s = if throws env eff then (JS.Exn, s, []) else (JS.Ok tt, s, [eff]).
Proof. done. Qed.

Lemma requests_app t1 t2 : requests (t1 ++ t2) = requests t1 ++ requests t2.
Proof. unfold requests. apply omap_app. Qed.

Lemma ret_run {S A} (a : A) env (s : S) : JS.ret a env s = (JS.Ok a, s, []).
Proof. done. Qed.

(** Runs a handler to its end along every path: a page call throws or
    does not, a test holds or does not. *)
Ltac run_all :=
  repeat first
    [ progress exec
    | rewrite bind_perform
    | rewrite perform_run
    | rewrite try_catch_run
    | rewrite after_tuple
    | progress cbv beta iota
    | match goal with
      | |- context [throws ?env ?eff] => destruct (throws env eff) eqn:?
      end
    | match goal with
      | |- context [if ?c then _ else _] => destruct c eqn:?
      | |- context [match ?c with Some _ => _ | None => _ end] => destruct c eqn:?
      end ].

Ltac counted :=
  subst; unfold counts_after_click, JS.state_of, JS.trace_of; cbn [fst snd];
  split;
  [ rewrite ?requests_app;
    repeat match goal with H : requests _ = [] |- _ => rewrite ?H; clear H end;
    reflexivity
  | first [ left; done
          | left; by match goal with |- context [Fast.processedComments ?s] => destruct s end
          | right; split;
            [ first [ done | by match goal with s : Fast.State |- _ => destruct s end
                    | by match goal with s : Original.State |- _ => destruct s end ]
            | eexists; split; [reflexivity | set_solver] ] ] ].

Lemma counts_after_click_fast reply env s :
  counts_after_click Fast.processedComments (Fast.processedComments s)
    (Fast.findReplyButton env) (Fast.handleGroqResponse reply env s).
Proof.
  unfold Fast.handleGroqResponse, Fast.handleCommentError, Fast.quickScroll,
    Fast.updateCounterDisplay, Fast.delay.
  set (found := Fast.findReplyButton env).
  assert (Fast.findReplyButton env = found) as Hfound by done. clearbody found.
  destruct (Fast.fastMode s) eqn:Hfast.
  all: run_all.
  all: counted.
Qed.

Lemma click_close_buttons_run indices env (s : Original.State) :
  exists t,
    Original.click_close_buttons indices env s = (JS.Ok tt, s, t)
    /\ requests t = [].
Proof.
  induction indices as [|i indices (t & IH & Hquiet)]; [by exists []|].
  cbn [Original.click_close_buttons]. unfold Original.delay.
  rewrite bind_run, try_catch_run, bind_perform.
  destruct (throws env (Click (CloseButton i))).
  - exists t. split; [|done]. rewrite ret_run. run_all. by rewrite IH.
  - exists ([Click (CloseButton i); Delay 500] ++ t). split.
    + run_all. by rewrite IH, after_tuple.
    + by rewrite requests_app, Hquiet.
Qed.

Lemma handleCommentError_run env (s : Original.State) :
  exists r t,
    Original.handleCommentError env s = (r, s, t) /\ requests t = [].
Proof.
  unfold Original.handleCommentError, Original.delay. exec. rewrite bind_run.
  destruct (click_close_buttons_run (seq 0 (closeButtons env)) env s) as (t & -> & Hquiet).
  rewrite bind_perform. destruct (throws env PressEscape).
  - eexists _, _. rewrite after_tuple. split; [done|]. by rewrite app_nil_r.
  - exec. eexists _, _. split; [done|]. by rewrite !requests_app, Hquiet.
Qed.

Lemma counts_after_click_original reply env s :
  counts_after_click Original.processedComments (Original.processedComments s)
    (Original.findReplyButton env) (Original.handleGroqResponse reply env s).
Proof.
  unfold Original.handleGroqResponse, Original.updateCounterDisplay, Original.delay.
  set (found := Original.findReplyButton env).
  assert (Original.findReplyButton env = found) as Hfound by done. clearbody found.
  run_all.
  all: repeat (match goal with
               | |- context [Original.handleCommentError ?env ?s] =>
                   let r := fresh "r" in
                   destruct (handleCommentError_run env s) as (r & ? & -> & ?);
                   destruct r
               end; run_all).
  all: counted.
Qed.

(** X15.  A comment is counted only after the submit button was clicked.
    Whatever the page shows and whichever of its calls throw, the handler of
    a generation reply leaves the comment counter as it is or adds exactly
    one to it, and in the second case it found the submit button and clicked
    it; it never sends a request to the generation service.  This holds for
    the optimized and for the original script. *)
Theorem a_comment_is_counted_only_after_the_submit_click
    (env : Env) (s : Fast.State) (s0 : Original.State) (reply : string) :
  counts_after_click Fast.processedComments (Fast.processedComments s)
    (Fast.findReplyButton env) (Fast.handleGroqResponse reply env s)
  /\ counts_after_click Original.processedComments (Original.processedComments s0)
       (Original.findReplyButton env) (Original.handleGroqResponse reply env s0)
  /\ (Fast.processedComments (JS.state_of (Fast.handleGroqResponse reply env s))
      <> Fast.processedComments s ->
      exists button,
        Fast.findReplyButton env = Some button
        /\ Click button ∈ JS.trace_of (Fast.handleGroqResponse reply env s))
  /\ (Original.processedComments (JS.state_of (Original.handleGroqResponse reply env s0))
      <> Original.processedComments s0 ->
      exists button,
        Original.findReplyButton env = Some button
        /\ Click button ∈ JS.trace_of (Original.handleGroqResponse reply env s0)).
Proof.
  pose proof (counts_after_click_fast reply env s) as Hfast.
  pose proof (counts_after_click_original reply env s0) as Horiginal.
  split_and!; try done.
  - intros Hchanged. by destruct Hfast as [_ [?|[_ ?]]].
  - intros Hchanged. by destruct Horiginal as [_ [?|[_ ?]]].
Qed.

End Counting.

(** ** What a cycle takes *)

Section Cycle_choice.

Import Fast.

Lemma unprocessed_in_view_spec env s tweet :
  unprocessed_in_view env s tweet = true
  <-> (getTweetId (article env tweet) ∉ processedTweets s)
      /\ 10 < rect_height (rect (article env tweet))
      /\ 0 <= rect_top (rect (article env tweet)) < window_innerHeight env.
Proof.
  unfold unprocessed_in_view. cbv zeta.
  rewrite !andb_true_iff, negb_true_iff, bool_decide_eq_false.
  rewrite Z.gtb_ltb, Z.geb_leb, !Z.ltb_lt, Z.leb_le. tauto.
Qed.

(** X16.  A cycle that passes the guard engages at most one tweet: the
    first in document order whose id is not in the processed set, which is
    taller than 10 pixels and whose top edge lies within the viewport.  It
    sets the seen counter, refreshes the display and is left suspended on
    the engagement of that tweet, under the id the tweet carries.  The
    bottom edge is not looked at; a tweet whose top edge is above the
    viewport is passed over. *)
Theorem a_cycle_takes_the_first_unprocessed_tweet_in_view
    (env : Env) (s : State) (tweet : Element) :
  guard_fails s = false ->
  (forall t l c, throws env (UpdateCounterDisplay t l c) = false) ->
  List.find (unprocessed_in_view env s) (tweets env) = Some tweet ->
  runAutomation env s
  = (JS.Ok (Some (AwaitEngage tweet (getTweetId (article env tweet)))),
     set_totalTweets (Z.of_nat (length (tweets env))) (set_isRunning true s),
     [ UpdateCounterDisplay (Z.of_nat (length (tweets env))) (processedLikes s)
         (processedComments s) ])
  /\ (tweet ∈ tweets env)
  /\ (getTweetId (article env tweet) ∉ processedTweets s)
  /\ 10 < rect_height (rect (article env tweet))
  /\ 0 <= rect_top (rect (article env tweet)) < window_innerHeight env
  /\ (exists before rest,
        tweets env = before ++ tweet :: rest
        /\ Forall (fun earlier =>
                     getTweetId (article env earlier) ∈ processedTweets s
                     \/ rect_height (rect (article env earlier)) <= 10
                     \/ rect_top (rect (article env earlier)) < 0
                     \/ window_innerHeight env <= rect_top (rect (article env earlier)))
             before).
Proof.
  intros Hguard Hshow Hfind.
  pose proof (find_first _ _ _ Hfind) as (before & rest & Hsplit & Hbefore).
  pose proof (find_some_holds _ _ _ Hfind) as [Hin Htest].
  apply unprocessed_in_view_spec in Htest as (Hnew & Hheight & Htop).
  split_and!; try done.
  - rewrite runAutomation_started by done.
    unfold cycle_body, updateCounterDisplay. exec. rewrite bind_perform, Hshow. exec.
    unfold id.
    replace (List.find _ (tweets env))
      with (List.find (unprocessed_in_view env s) (tweets env)) by (by destruct s).
    rewrite Hfind. exec. by destruct s.
  - lia.
  - lia.
  - exists before, rest. split; [done|].
    eapply Forall_impl; [exact Hbefore|]. intros earlier Hnot. cbv beta in Hnot.
    destruct (decide (getTweetId (article env earlier) ∈ processedTweets s)); [by left|].
    right.
    destruct (decide (10 < rect_height (rect (article env earlier)))); [|lia].
    destruct (decide (0 <= rect_top (rect (article env earlier))
                      < window_innerHeight env)); [|lia].
    assert (unprocessed_in_view env s earlier = true) as Hyes
      by (by apply unprocessed_in_view_spec).
    congruence.
Qed.

Lemma a_cycle_takes_the_first_unprocessed_tweet_in_view_witness :
  guard_fails (set_automationEnabled true (set_settings (Some Page.like_only) initial_state))
  = false
  /\ (forall t l c,
        throws (Page.showing 500 [Page.plain "A"; Page.plain "B"])
          (UpdateCounterDisplay t l c) = false)
  /\ runAutomation (Page.showing 500 [Page.plain "A"; Page.plain "B"])
       (set_automationEnabled true (set_settings (Some Page.like_only) initial_state))
     = (JS.Ok (Some (AwaitEngage 0%nat "A")),
        set_totalTweets 2
          (set_isRunning true
             (set_automationEnabled true
                (set_settings (Some Page.like_only) initial_state))),
        [UpdateCounterDisplay 2 0 0]).
Proof.
  split; [reflexivity|]. split; [reflexivity|].
  exact (proj1
    (a_cycle_takes_the_first_unprocessed_tweet_in_view
       (Page.showing 500 [Page.plain "A"; Page.plain "B"])
       (set_automationEnabled true (set_settings (Some Page.like_only) initial_state))
       0%nat eq_refl (fun _ _ _ => eq_refl) eq_refl)).
Defined.

End Cycle_choice.

(** ** The background script: the queue of requests *)

Section Worker_queue.

Import Worker.

Lemma isProcessingQueue_set_flag v s :
  isProcessingQueue (set_isProcessingQueue v s) = v.
Proof. by destruct s. Qed.

Lemma queue_loop_flag w s :
  match (queue_loop w s).2 with
  | Some _ => isProcessingQueue (queue_loop w s).1 = isProcessingQueue s
  | None => isProcessingQueue (queue_loop w s).1 = false
  end.
Proof.
  unfold queue_loop. destruct (next_request _ _) as [[request|] rest]; cbn; by destruct s.
Qed.

Lemma processApiQueue_flag w s :
  match (processApiQueue w s).2 with
  | Some _ =>
      isProcessingQueue s = false /\ isProcessingQueue (processApiQueue w s).1 = true
  | None => isProcessingQueue (processApiQueue w s).1 = isProcessingQueue s
  end.
Proof.
  unfold processApiQueue. destruct (isProcessingQueue s) eqn:Hflag; [done|]. cbn [orb].
  destruct (length (rateLimitQueue s) =? 0)%nat; [done|].
  pose proof (queue_loop_flag w (set_isProcessingQueue true s)) as Hloop.
  destruct (queue_loop w (set_isProcessingQueue true s)) as [s1 [p|]]; cbn in *.
  - split; [done|]. by rewrite Hloop, isProcessingQueue_set_flag.
  - done.
Qed.

Lemma processApiRequest_flag w request s :
  isProcessingQueue (processApiRequest w request s).1 = isProcessingQueue s.
Proof.
  unfold processApiRequest. destruct (no_key (stored w)); [done|].
  destruct (fetched w) as [|[] [content|]]; try done.
  destruct (String.eqb content EmptyString); [done|]. cbn. by destruct s.
Qed.

Lemma one_loop_same sys sys' :
  isProcessingQueue (vars sys') = isProcessingQueue (vars sys) ->
  loops sys' = loops sys ->
  one_loop sys -> one_loop sys'.
Proof. unfold one_loop. intros -> ->. done. Qed.

Lemma step_one_loop w ev sys : one_loop sys -> one_loop (step w ev sys).
Proof.
  intros Hsys. destruct ev as [prompt sender| |enabled|tab|tab|i]; cbn [step]; try done.
  - unfold handleGroqApiRequestFast.
    destruct (Background.cached_response prompt (apiCache (vars sys))); [done|].
    set (s1 := set_rateLimitQueue _ (vars sys)).
    assert (isProcessingQueue s1 = isProcessingQueue (vars sys)) as Hs1
      by (subst s1; by destruct (vars sys)).
    destruct (isProcessingQueue s1) eqn:Hflag; cbn [negb].
    + eapply one_loop_same; [| |exact Hsys]; cbn; congruence.
    + pose proof (processApiQueue_flag w s1) as Hcall.
      destruct (processApiQueue w s1) as [s2 [p|]]; cbn in *.
      * right. split; [by destruct Hcall|]. exists p.
        destruct Hsys as [[_ ->]|[Hbusy _]]; [done|congruence].
      * destruct Hsys as [[Hidle Hnone]|[Hbusy _]]; [|congruence].
        left. cbn. split; [congruence|done].
  - eapply one_loop_same; [| |exact Hsys]; cbn; by destruct (vars sys).
  - destruct (bool_decide _); [|done].
    eapply one_loop_same; [| |exact Hsys]; cbn; by destruct (vars sys).
  - destruct (loops sys !! i) as [p|] eqn:Hp; [|done].
    destruct Hsys as [[_ Hnone]|[Hbusy [p' Hone]]]; [by rewrite Hnone in Hp|].
    rewrite Hone in Hp |- *. destruct i as [|i]; [|done]. injection Hp as ->.
    destruct p as [request|]; cbn [queue_resume].
    + pose proof (processApiRequest_flag w request (vars sys)) as Hflag.
      destruct (processApiRequest w request (vars sys)) as [s1 out]. cbn in *.
      right. cbn. split; [congruence|]. by exists Pacing.
    + pose proof (queue_loop_flag w (vars sys)) as Hflag.
      destruct (queue_loop w (vars sys)) as [s1 [p|]]; cbn in *.
      * right. cbn. split; [congruence|]. by exists p.
      * left. by cbn.
Qed.

Lemma run_one_loop steps sys : one_loop sys -> one_loop (run steps sys).
Proof.
  unfold run. revert sys.
  induction steps as [|[w ev] steps IH]; intros sys Hsys; [done|].
  cbn. by apply IH, step_one_loop.
Qed.

(** X17.  In the optimized background script at most one activation of
    [processApiQueue] is in progress along every run, and
    [isProcessingQueue] is set exactly while one is; a call while the flag
    is set, or on an empty queue, returns at once and changes nothing. *)
Theorem request_queue_loop_excludes_itself (steps : list (World * Event)) :
  (length (loops (run steps boot)) <= 1)%nat
  /\ (isProcessingQueue (vars (run steps boot)) = true
      <-> length (loops (run steps boot)) = 1%nat)
  /\ (forall w s,
        isProcessingQueue s = true \/ rateLimitQueue s = [] ->
        processApiQueue w s = (s, None)).
Proof.
  assert (one_loop (run steps boot)) as Hinv by (apply run_one_loop; by left).
  split_and!.
  - destruct Hinv as [[_ ->]|[_ [p ->]]]; cbn; lia.
  - destruct Hinv as [[Hidle ->]|[Hbusy [p ->]]]; cbn; split; congruence.
  - intros w s [Hbusy|Hempty]; unfold processApiQueue.
    + by rewrite Hbusy.
    + rewrite Hempty. cbn. by destruct (isProcessingQueue s).
Qed.

Lemma next_request_stale now request rest :
  now - timestamp request > 30000 ->
  next_request now (request :: rest) = next_request now rest.
Proof.
  intros Hold. cbn.
  by destruct (Z.gtb_spec (now - timestamp request) 30000); [|lia].
Qed.

Lemma next_request_fresh now queue request rest :
  next_request now queue = (Some request, rest) ->
  now - timestamp request <= 30000 /\ request ∈ queue.
Proof.
  induction queue as [|r queue IH]; cbn; [done|].
  destruct (Z.gtb_spec (now - timestamp r) 30000).
  - intros Hnext. destruct (IH Hnext) as [? ?]. split; [done|by right].
  - intros [= <- _]. split; [lia|left].
Qed.

Lemma next_request_None now queue rest :
  next_request now queue = (None, rest) ->
  rest = [] /\ Forall (fun r => now - timestamp r > 30000) queue.
Proof.
  induction queue as [|r queue IH]; cbn.
  - intros [= <-]. split; [done|constructor].
  - destruct (Z.gtb_spec (now - timestamp r) 30000) as [Hold|Hnew]; [|done].
    intros Hnext. destruct (IH Hnext) as [-> Hall]. split; [done|].
    constructor; [lia|done].
Qed.

Lemma rateLimitQueue_set q s : rateLimitQueue (set_rateLimitQueue q s) = q.
Proof. by destruct s. Qed.

Lemma set_rateLimitQueue_twice q q' s :
  set_rateLimitQueue q' (set_rateLimitQueue q s) = set_rateLimitQueue q' s.
Proof. by destruct s. Qed.

(** X21.  A request that the loop reaches more than 30 seconds after it
    was queued gets no reply: the loop goes on exactly as if the request
    had not been queued, and sends nothing.  What the loop takes up next is
    a request of the rest of the queue that is at most 30 seconds old; when
    it takes up none, every request left was too old, the queue is empty
    and the flag is clear. *)
Theorem an_old_request_gets_no_reply
    (w : World) (s : State) (request : Request) (rest : list Request) :
  rateLimitQueue s = request :: rest ->
  now w - timestamp request > 30000 ->
  queue_resume w Pacing s = queue_resume w Pacing (set_rateLimitQueue rest s)
  /\ (queue_resume w Pacing s).1.2 = []
  /\ (forall next,
        (queue_resume w Pacing s).2 = Some next ->
        exists r,
          next = Requesting r /\ r ∈ rest /\ now w - timestamp r <= 30000)
  /\ ((queue_resume w Pacing s).2 = None ->
      Forall (fun r => now w - timestamp r > 30000) rest
      /\ rateLimitQueue (queue_resume w Pacing s).1.1 = []
      /\ isProcessingQueue (queue_resume w Pacing s).1.1 = false).
Proof.
  intros Hqueue Hold. unfold queue_resume, queue_loop.
  rewrite rateLimitQueue_set, Hqueue, next_request_stale by done.
  destruct (next_request (now w) rest) as [[r|] rest'] eqn:Hnext; cbn.
  - split_and!; try done.
    + by rewrite set_rateLimitQueue_twice.
    + intros next [= <-]. exists r. apply next_request_fresh in Hnext as [? ?]. done.
  - apply next_request_None in Hnext as [-> Hall]. split_and!; try done.
    + by rewrite set_rateLimitQueue_twice.
    + intros _. split_and!; [done| |]; by destruct s.
Qed.

Lemma an_old_request_gets_no_reply_witness :
  rateLimitQueue
    (set_rateLimitQueue [ {| prompt := "hello"; tabId := 7%nat; timestamp := 0 |} ]
       initial_state)
  = [ {| prompt := "hello"; tabId := 7%nat; timestamp := 0 |} ]
  /\ {| now := 30001; random := 0; stored := NoKey; fetched := FetchFailed |}.(now) - 0
     > 30000
  /\ (queue_resume
        {| now := 30001; random := 0; stored := NoKey; fetched := FetchFailed |} Pacing
        (set_rateLimitQueue [ {| prompt := "hello"; tabId := 7%nat; timestamp := 0 |} ]
           initial_state)).1.2 = [].
Proof.
  assert ({| now := 30001; random := 0; stored := NoKey; fetched := FetchFailed |}.(now)
          - 0 > 30000) as Hold by (cbn; lia).
  split; [reflexivity|]. split; [exact Hold|].
  exact (proj1 (proj2
    (an_old_request_gets_no_reply
       {| now := 30001; random := 0; stored := NoKey; fetched := FetchFailed |}
       (set_rateLimitQueue [ {| prompt := "hello"; tabId := 7%nat; timestamp := 0 |} ]
          initial_state)
       {| prompt := "hello"; tabId := 7%nat; timestamp := 0 |} [] eq_refl Hold))).
Defined.

End Worker_queue.

(** ** The background script: replies *)

Section Worker_replies.

Import Worker.

Lemma apiCache_set v s : apiCache (set_apiCache v s) = v.
Proof. by destruct s. Qed.

(** X18.  A request that [processApiRequest] settles gets exactly one
    message, a [groqApiResponse] to the tab that asked: never an error
    message, and never silence.  Without a key, when the request to the
    service fails or is refused, or when the answer holds no content, the
    reply is the fallback reply and the cache is left as it is.  With a
    content, the reply is the cleaned and shortened text, or the fallback
    reply when that text has fewer than 3 characters; it is stored in the
    cache and found there under the prompt.  The queue, the flag and the
    active tab are not touched. *)
Theorem a_settled_request_gets_exactly_one_reply
    (w : World) (request : Request) (s : State) :
  cache_reachable apiCache_capacity (apiCache s) ->
  exists data,
    (processApiRequest w request s).2
    = [ {| to := tabId request; message := GroqApiResponse data |} ]
    /\ (match fetched w with
        | Responded true (Some content) =>
            no_key (stored w) = true \/ content = EmptyString
        | _ => True
        end ->
        data = getRandomFallback (random w)
        /\ (processApiRequest w request s).1 = s)
    /\ (forall content,
          no_key (stored w) = false -> fetched w = Responded true (Some content) ->
          content <> EmptyString ->
          data = (if too_short (shorten 150 147 (clean content))
                  then getRandomFallback (random w)
                  else shorten 150 147 (clean content))
          /\ (processApiRequest w request s).1
          = set_apiCache
              (Background.cache_response (prompt request) data (apiCache s)) s
          /\ Background.cached_response (prompt request)
               (apiCache (processApiRequest w request s).1) = Some data)
    /\ cache_reachable apiCache_capacity (apiCache (processApiRequest w request s).1)
    /\ rateLimitQueue (processApiRequest w request s).1 = rateLimitQueue s
    /\ isProcessingQueue (processApiRequest w request s).1 = isProcessingQueue s
    /\ activeTabId (processApiRequest w request s).1 = activeTabId s.
Proof.
  intros Hreach. unfold processApiRequest, sendFallbackResponse.
  destruct (no_key (stored w)) eqn:Hkey.
  { eexists. split_and!; try done. }
  destruct (fetched w) as [|[] [content|]] eqn:Hfetched;
    try (eexists; split_and!; done).
  destruct (String.eqb content EmptyString) eqn:Hcontent.
  { apply String.eqb_eq in Hcontent as ->. eexists. split_and!; try done.
    by intros content' _ [= <-] ?. }
  apply String.eqb_neq in Hcontent. cbv zeta. cbn [fst snd].
  eexists. split_and!; try done.
  - by intros [?|?].
  - intros content' _ [= <-] _. split_and!; [done..|]. rewrite apiCache_set.
    unfold Background.cached_response, Background.cache_response.
    by apply get_set_and_trim.
  - rewrite apiCache_set. by constructor.
  - by destruct s.
  - by destruct s.
  - by destruct s.
Qed.

Lemma a_settled_request_gets_exactly_one_reply_witness :
  cache_reachable apiCache_capacity (apiCache initial_state)
  /\ exists data,
       (processApiRequest
          {| now := 0; random := 1 # 2; stored := NoKey; fetched := FetchFailed |}
          {| prompt := "hello"; tabId := 7%nat; timestamp := 0 |} initial_state).2
       = [ {| to := 7%nat; message := GroqApiResponse data |} ].
Proof.
  assert (cache_reachable apiCache_capacity (apiCache initial_state)) as Hreach
    by constructor.
  split; [exact Hreach|].
  destruct (a_settled_request_gets_exactly_one_reply
              {| now := 0; random := 1 # 2; stored := NoKey; fetched := FetchFailed |}
              {| prompt := "hello"; tabId := 7%nat; timestamp := 0 |} initial_state Hreach)
    as (data & Hsent & _).
  by exists data.
Defined.









End Worker_replies.

Section Worker_fallback.

Import Worker.

Lemma Qfloor_scaled_range (random : Q) (n : Z) :
  0 < n -> (0 <= random)%Q -> (random < 1)%Q ->
  0 <= Qfloor (random * inject_Z n) < n.
Proof.
  intros Hn Hlow Hhigh.
  assert (0 <= random * inject_Z n)%Q as Hnonneg.
  { apply Qmult_le_0_compat; [done|]. change 0%Q with (inject_Z 0).
    rewrite <- Zle_Qle. lia. }
  assert (random * inject_Z n < inject_Z n)%Q as Hbelow.
  { rewrite <- (Qmult_1_l (inject_Z n)) at 2.
    apply Qmult_lt_compat_r; [|done]. change 0%Q with (inject_Z 0).
    by rewrite <- Zlt_Qlt. }
  split.
  - change 0 with (Qfloor 0). by apply Qfloor_resp_le.
  - rewrite Zlt_Qlt. eapply Qle_lt_trans; [apply Qfloor_le|done].
Qed.

(** X20.  With [Math.random()] in its range, from 0 up to but not
    including 1, [getRandomFallback] returns one of the ten fallback
    replies: the index it computes is within the list, so the reply is
    never undefined, and it is not empty.  The same holds for the fallback
    of the original background script. *)
Theorem the_fallback_reply_is_one_of_the_canned_ones (w : World) (tab : TabId) :
  (0 <= random w)%Q -> (random w < 1)%Q ->
  (getRandomFallback (random w) ∈ responses)
  /\ (exists i,
        (i < 10)%nat
        /\ responses !! i = Some (getRandomFallback (random w))
        /\ (inject_Z (Z.of_nat i) <= random w * 10)%Q
        /\ (random w * 10 < inject_Z (Z.of_nat i) + 1)%Q)
  /\ getRandomFallback (random w) <> EmptyString
  /\ (exists data,
        sendFallbackResponse w tab = [ {| to := tab; message := GroqApiResponse data |} ]
        /\ data ∈ responses)
  /\ (stored w = ReadFailed \/ (no_key (stored w) = false /\ fetched w = FetchFailed) ->
      exists data,
        handleGroqApiRequest w tab = [ {| to := tab; message := GroqApiResponse data |} ]
        /\ data ∈ fallbackResponses).
Proof.
  intros Hlow Hhigh.
  pose proof (Qfloor_scaled_range (random w) 10 ltac:(lia) Hlow Hhigh) as Hrange.
  set (i := Z.to_nat (Qfloor (random w * inject_Z 10))).
  assert (i < 10)%nat as Hi by (subst i; lia).
  assert (responses !! i = Some (getRandomFallback (random w))) as Hlook.
  { unfold getRandomFallback. change (Z.of_nat (length responses)) with 10. fold i.
    destruct (nth_lookup_or_length responses i EmptyString) as [Hsome|Hlen]; [done|].
    cbn in Hlen. lia. }
  assert (getRandomFallback (random w) ∈ responses) as Hin
    by (by eapply list_elem_of_lookup_2).
  split_and!; try done.
  - exists i. split_and!; try done.
    + subst i. rewrite Z2Nat.id by lia. apply Qfloor_le.
    + subst i. rewrite Z2Nat.id by lia.
      change 1%Q with (inject_Z 1). rewrite <- inject_Z_plus. apply Qlt_floor.
  - intros Hempty. rewrite Hempty in Hin.
    unfold responses in Hin. set_solver.
  - by eexists.
  - intros Hcase. unfold handleGroqApiRequest.
    assert (nth i fallbackResponses EmptyString ∈ fallbackResponses) as Hin'.
    { apply list_elem_of_In, nth_In. by cbn. }
    destruct Hcase as [->|[Hkey ->]].
    + eexists. split; [done|]. change (Z.of_nat (length fallbackResponses)) with 10.
      by fold i.
    + rewrite Hkey. destruct (stored w); eexists; (split; [done|]);
        change (Z.of_nat (length fallbackResponses)) with 10; by fold i.
Qed.

Lemma the_fallback_reply_is_one_of_the_canned_ones_witness :
  (0 <= random {| now := 0; random := 29 # 100; stored := NoKey; fetched := FetchFailed |})%Q
  /\ (random {| now := 0; random := 29 # 100; stored := NoKey; fetched := FetchFailed |} < 1)%Q
  /\ getRandomFallback (29 # 100) = "Exactly!"
  /\ (getRandomFallback (29 # 100) ∈ responses).
Proof.
  assert (0 <= 29 # 100)%Q as Hlow by done.
  assert (29 # 100 < 1)%Q as Hhigh by done.
  split; [exact Hlow|]. split; [exact Hhigh|]. split; [reflexivity|].
  exact (proj1
    (the_fallback_reply_is_one_of_the_canned_ones
       {| now := 0; random := 29 # 100; stored := NoKey; fetched := FetchFailed |}
       0%nat Hlow Hhigh)).
Defined.

End Worker_fallback.

(** ** The background script: cleaning a reply *)

Section Text.

Implicit Types (s : string) (c : ascii) (l : list ascii).

Lemma chars_inj s1 s2 : chars s1 = chars s2 -> s1 = s2.
Proof.
  intros Heq. rewrite <- (String.string_of_list_ascii_of_string s1).
  rewrite <- (String.string_of_list_ascii_of_string s2). by rewrite Heq.
Qed.

Lemma chars_app s1 s2 : chars (s1 ++ s2) = chars s1 ++ chars s2.
Proof.
  induction s1 as [|c s1 IH]; [done|].
  change (String c s1 ++ s2)%string with (String c (s1 ++ s2)). cbn. by rewrite IH.
Qed.

Lemma chars_length s : length (chars s) = String.length s.
Proof. induction s as [|c s IH]; cbn; [done|]. by rewrite IH. Qed.

Lemma chars_rev_app s1 s2 : chars (String.rev_app s1 s2) = rev (chars s1) ++ chars s2.
Proof.
  revert s2. induction s1 as [|c s1 IH]; intros s2; cbn; [done|].
  rewrite IH. cbn. by rewrite <- app_assoc.
Qed.

Lemma chars_rev s : chars (String.rev s) = rev (chars s).
Proof. unfold String.rev. rewrite chars_rev_app. cbn. by rewrite app_nil_r. Qed.

Lemma chars_trim_start s : chars (trim_start s) = lstrip (chars s).
Proof. induction s as [|c s IH]; cbn; [done|]. by destruct (Ascii.is_space c). Qed.

Lemma chars_trim s : chars (trim s) = rev (lstrip (rev (lstrip (chars s)))).
Proof. unfold trim. by rewrite chars_rev, chars_trim_start, chars_rev, chars_trim_start. Qed.

Lemma chars_substring n s : chars (String.substring 0 n s) = take n (chars s).
Proof.
  revert s. induction n as [|n IH]; intros [|c s]; cbn; try done. by rewrite IH.
Qed.

Lemma lstrip_suffix l : exists spaces, l = spaces ++ lstrip l.
Proof.
  induction l as [|c l [spaces IH]]; [by exists []|]. cbn.
  destruct (Ascii.is_space c); [|by exists []].
  exists (c :: spaces). cbn. by rewrite <- IH.
Qed.

Lemma lstrip_idem l : lstrip (lstrip l) = lstrip l.
Proof.
  induction l as [|c l IH]; [done|]. cbn.
  destruct (Ascii.is_space c) eqn:Hc; [done|]. cbn. by rewrite Hc.
Qed.

Lemma lstrip_snoc l c :
  Ascii.is_space c = false -> lstrip (l ++ [c]) = lstrip l ++ [c].
Proof.
  intros Hc. induction l as [|c' l IH]; cbn; [by rewrite Hc|].
  by destruct (Ascii.is_space c').
Qed.

(** Stripping the end of a list that does not start with white space
    leaves a list that does not start with white space. *)
Lemma lstrip_rstrip l :
  lstrip l = l -> lstrip (rev (lstrip (rev l))) = rev (lstrip (rev l)).
Proof.
  destruct l as [|c l]; [done|]. cbn [lstrip rev].
  destruct (Ascii.is_space c) eqn:Hc.
  { intros Heq. pose proof (lstrip_suffix l) as [spaces Hl].
    apply (f_equal length) in Heq. rewrite Hl in Heq at 2.
    cbn in Heq. rewrite length_app in Heq. lia. }
  intros _. rewrite lstrip_snoc by done. rewrite rev_app_distr. cbn. by rewrite Hc.
Qed.

Lemma trim_trimmed s : trimmed (trim s).
Proof.
  unfold trimmed. rewrite chars_trim. split.
  - apply lstrip_rstrip, lstrip_idem.
  - by rewrite rev_involutive, lstrip_idem.
Qed.

Lemma trimmed_trim s : trimmed s -> trim s = s.
Proof.
  intros [Hstart Hend]. apply chars_inj. rewrite chars_trim.
  by rewrite Hstart, Hend, rev_involutive.
Qed.

Lemma lstrip_Forall (P : ascii -> Prop) l : Forall P l -> Forall P (lstrip l).
Proof.
  intros Hall. destruct (lstrip_suffix l) as [spaces Hl].
  rewrite Hl in Hall. by apply Forall_app in Hall as [_ ?].
Qed.

Lemma lstrip_length l : (length (lstrip l) <= length l)%nat.
Proof.
  destruct (lstrip_suffix l) as [spaces Hl]. rewrite Hl at 2. rewrite length_app. lia.
Qed.

Lemma trim_Forall (P : ascii -> Prop) s :
  Forall P (chars s) -> Forall P (chars (trim s)).
Proof.
  intros Hall. rewrite chars_trim.
  apply Forall_rev, lstrip_Forall, Forall_rev, lstrip_Forall, Hall.
Qed.

Lemma trim_length s : (String.length (trim s) <= String.length s)%nat.
Proof.
  rewrite <- !chars_length, chars_trim, length_rev.
  etrans; [apply lstrip_length|]. rewrite length_rev. apply lstrip_length.
Qed.

End Text.

Section Cleaning.

Import Worker.

Implicit Types (s : string) (c : ascii).

Lemma remove_chars_dropped drop s :
  Forall (fun c => drop c = false) (chars (remove_chars drop s)).
Proof.
  induction s as [|c s IH]; cbn; [constructor|].
  destruct (drop c) eqn:Hc; [done|]. cbn. by constructor.
Qed.

Lemma remove_chars_Forall (P : ascii -> Prop) drop s :
  Forall P (chars s) -> Forall P (chars (remove_chars drop s)).
Proof.
  induction s as [|c s IH]; cbn; [done|]. intros Hall.
  apply Forall_cons in Hall as [Hc Hall]. destruct (drop c); [by apply IH|].
  cbn. constructor; [done|by apply IH].
Qed.

Lemma remove_chars_length drop s :
  (String.length (remove_chars drop s) <= String.length s)%nat.
Proof. induction s as [|c s IH]; cbn; [done|]. destruct (drop c); cbn; lia. Qed.

Lemma remove_chars_none drop s :
  Forall (fun c => drop c = false) (chars s) -> remove_chars drop s = s.
Proof.
  induction s as [|c s IH]; cbn; [done|]. intros Hall.
  apply Forall_cons in Hall as [-> Hall]. by rewrite IH.
Qed.

Lemma replace_char_Forall (P Q : ascii -> Prop) from to s :
  (forall c, P c -> c <> from -> Q c) -> Q to ->
  Forall P (chars s) -> Forall Q (chars (replace_char from to s)).
Proof.
  intros Hother Hto. induction s as [|c s IH]; cbn; [done|]. intros Hall.
  apply Forall_cons in Hall as [Hc Hall]. constructor; [|by apply IH].
  destruct (Ascii.eqb_spec c from); [done|by apply Hother].
Qed.

Lemma replace_char_length from to s :
  String.length (replace_char from to s) = String.length s.
Proof. induction s as [|c s IH]; cbn; [done|]. by rewrite IH. Qed.

Lemma replace_char_none from to s :
  Forall (fun c => c <> from) (chars s) -> replace_char from to s = s.
Proof.
  induction s as [|c s IH]; cbn; [done|]. intros Hall.
  apply Forall_cons in Hall as [Hc Hall]. rewrite IH by done.
  by destruct (Ascii.eqb_spec c from).
Qed.

Lemma plain_spec c :
  plain c = true <-> is_ascii c = true /\ c <> quote_char /\ c <> newline_char.
Proof.
  unfold plain. rewrite !andb_true_iff, !negb_true_iff.
  split.
  - intros [[? Hq] Hn]. split_and!; [done| |]; intros ->; by rewrite Ascii.eqb_refl in *.
  - intros (? & Hq & Hn). split_and!; [done| |]; by apply Ascii.eqb_neq.
Qed.

Lemma clean_plain content : Forall (fun c => plain c = true) (chars (clean content)).
Proof.
  unfold clean. apply trim_Forall.
  eapply (replace_char_Forall
            (fun c => is_ascii c = true /\ c <> quote_char)); [| |].
  - intros c [? ?] ?. by apply plain_spec.
  - done.
  - apply Forall_and. split.
    + apply remove_chars_Forall. eapply Forall_impl; [apply remove_chars_dropped|].
      intros c Hc. cbv beta in Hc. by apply negb_false_iff in Hc.
    + eapply Forall_impl; [apply remove_chars_dropped|].
      intros c Hc. cbv beta in Hc. apply Ascii.eqb_neq in Hc. congruence.
Qed.

Lemma clean_of_clean content :
  Forall (fun c => plain c = true) (chars content) -> trimmed content ->
  clean content = content.
Proof.
  intros Hplain Htrimmed. unfold clean.
  rewrite (remove_chars_none (fun c => negb (is_ascii c))).
  2:{ eapply Forall_impl; [exact Hplain|]. intros c Hc. apply plain_spec in Hc as (-> & _). done. }
  rewrite remove_chars_none.
  2:{ eapply Forall_impl; [exact Hplain|]. intros c Hc. apply plain_spec in Hc as (_ & Hq & _).
      apply Ascii.eqb_neq. congruence. }
  rewrite replace_char_none.
  2:{ eapply Forall_impl; [exact Hplain|]. intros c Hc. by apply plain_spec in Hc as (_ & _ & ?). }
  by apply trimmed_trim.
Qed.

Lemma shorten_length limit keep s :
  (keep + 3 <= limit)%nat -> (String.length (shorten limit keep s) <= limit)%nat.
Proof.
  intros Hkeep. unfold shorten.
  destruct (Nat.ltb_spec limit (String.length s)) as [Hlong|Hshort]; [|done].
  rewrite <- chars_length, chars_app, length_app, chars_substring, length_take. cbn. lia.
Qed.

(** X22.  The text of a reply after cleaning holds only ASCII characters,
    no double quote and no newline, and neither starts nor ends with white
    space; it is not longer than the content it was made from, and cleaning
    leaves a text with these properties as it is, so that cleaning twice is
    cleaning once.  Shortening keeps a text within the limit as it is and
    cuts a longer one to exactly the limit, three full stops included: the
    reply of the optimized script has at most 150 characters, that of the
    original script at most 200. *)
Theorem a_cleaned_reply_is_plain_and_short (content : string) :
  Forall (fun c => plain c = true) (chars (clean content))
  /\ trimmed (clean content)
  /\ (String.length (clean content) <= String.length content)%nat
  /\ clean (clean content) = clean content
  /\ (forall text,
        Forall (fun c => plain c = true) (chars text) -> trimmed text ->
        clean text = text)
  /\ (String.length (shorten 150 147 (clean content)) <= 150)%nat
  /\ (String.length (shorten 200 197 (clean content)) <= 200)%nat
  /\ Forall (fun c => plain c = true) (chars (shorten 150 147 (clean content)))
  /\ Forall (fun c => plain c = true) (chars (shorten 200 197 (clean content)))
  /\ (forall limit keep,
        (String.length (clean content) <= limit)%nat ->
        shorten limit keep (clean content) = clean content)
  /\ (forall limit keep,
        (keep + 3 = limit)%nat -> (limit < String.length (clean content))%nat ->
        String.length (shorten limit keep (clean content)) = limit
        /\ chars (shorten limit keep (clean content))
           = take keep (chars (clean content)) ++ chars "...").
Proof.
  pose proof (clean_plain content) as Hplain.
  pose proof (trim_trimmed
                (replace_char newline_char space_char
                   (remove_chars (Ascii.eqb quote_char)
                      (remove_chars (fun c => negb (is_ascii c)) content))))
    as Htrimmed.
  fold (clean content) in Htrimmed.
  assert (forall limit keep,
            Forall (fun c => plain c = true) (chars (shorten limit keep (clean content))))
    as Hshort.
  { intros limit keep. unfold shorten. destruct (_ <? _)%nat; [|done].
    rewrite chars_app, chars_substring. apply Forall_app. split.
    - by apply Forall_take.
    - by repeat constructor. }
  split_and!; try done.
  - unfold clean. etrans; [apply trim_length|]. rewrite replace_char_length.
    etrans; apply remove_chars_length.
  - by apply clean_of_clean.
  - apply clean_of_clean.
  - by apply shorten_length.
  - by apply shorten_length.
  - intros limit keep Hfits. unfold shorten.
    by destruct (Nat.ltb_spec limit (String.length (clean content))); [lia|].
  - intros limit keep Hkeep Hlong. unfold shorten.
    destruct (Nat.ltb_spec limit (String.length (clean content))); [|lia].
    split.
    + rewrite <- chars_length, chars_app, length_app, chars_substring, length_take,
        chars_length. cbn. lia.
    + by rewrite chars_app, chars_substring.
Qed.

End Cleaning.

(** ** The background scripts without a key *)

Section Worker_original.

Import Worker.

(** X23.  The original background script answers a request with exactly
    one message to the tab that asked.  It is the error message exactly
    when the settings were read and hold no key.  When reading the
    settings fails, the request to the service fails or is refused, or the
    answer holds no content, it is one of the fallback replies.  With a
    content it is the cleaned text cut to 200 characters, or the fixed
    short reply when that text has fewer than 3 characters.  The optimized
    script never sends the error message: without a key it sends a fallback
    reply. *)
Theorem the_original_worker_reports_a_missing_key
    (w : World) (tab : TabId) (request : Request) (s : State) :
  (exists m, handleGroqApiRequest w tab = [ {| to := tab; message := m |} ])
  /\ (handleGroqApiRequest w tab
      = [ {| to := tab; message := GroqApiError "No API key configured" |} ]
      <-> stored w <> ReadFailed /\ no_key (stored w) = true)
  /\ (forall content,
        no_key (stored w) = false -> fetched w = Responded true (Some content) ->
        handleGroqApiRequest w tab
        = [ {| to := tab;
               message :=
                 GroqApiResponse
                   (if too_short (shorten 200 197 (clean content)) then shortReply
                    else shorten 200 197 (clean content)) |} ])
  /\ (no_key (stored w) = true ->
      processApiRequest w request s
      = (s, [ {| to := tabId request;
                 message := GroqApiResponse (getRandomFallback (random w)) |} ]))
  /\ (forall error,
        {| to := tabId request; message := GroqApiError error |}
        ∉ (processApiRequest w request s).2).
Proof.
  split_and!.
  - unfold handleGroqApiRequest.
    destruct (stored w) as [| |key]; cbn; [by eexists..|].
    destruct (String.eqb key EmptyString); [by eexists|].
    destruct (fetched w) as [|[] [content|]]; by eexists.
  - unfold handleGroqApiRequest.
    destruct (stored w) as [| |key]; cbn.
    + split; [done|]. by intros [? _].
    + done.
    + destruct (String.eqb key EmptyString); [done|].
      destruct (fetched w) as [|[] [content|]]; split; try done; by intros [_ ?].
  - intros content Hkey Hfetched. unfold handleGroqApiRequest.
    rewrite Hkey, Hfetched. by destruct (stored w).
  - intros Hkey. unfold processApiRequest. by rewrite Hkey.
  - intros error. unfold processApiRequest, sendFallbackResponse.
    destruct (no_key (stored w)); [set_solver|].
    destruct (fetched w) as [|[] [content|]]; try set_solver.
    destruct (String.eqb content EmptyString); set_solver.
Qed.

End Worker_original.

(** ** From a request without a key to a posted reply *)

Section End_to_end.

Import Fast.

(** On a quiet page with the composer focused and the submit button found,
    the handler of a reply inserts the text, submits it and counts it. *)
Lemma handleGroqResponse_posts env s reply el button :
  (forall eff, throws env eff = false) ->
  activeElement env = Some el ->
  contentEditable el || isTextArea el = true ->
  findReplyButton env = Some button ->
  handleGroqResponse reply env s
  = (JS.Ok tt, set_processedComments (processedComments s + 1) s,
     [ Delay (if fastMode s then 500 else 1000);
       (if execCommand_defined env then InsertText reply else SetTextContent reply);
       Delay (if fastMode s then 500 else 1000);
       Click button;
       UpdateCounterDisplay (totalTweets s) (processedLikes s) (processedComments s + 1);
       Delay (if fastMode s then 1000 else 2000);
       ScrollBy (inject_Z (window_innerHeight env) * (3 # 10));
       Delay (if fastMode s then 300 else 1000) ]).
Proof.
  intros Hquiet Hactive Hedit Hbutton.
  unfold handleGroqResponse, quickScroll, updateCounterDisplay, delay.
  rewrite try_catch_run. exec. rewrite Hactive, Hedit.
  destruct (execCommand_defined env).
  - rewrite bind_perform, Hquiet. exec. rewrite Hbutton.
    rewrite bind_perform, Hquiet. exec. rewrite bind_perform, Hquiet. exec.
    rewrite bind_perform, Hquiet. exec. by destruct s.
  - rewrite bind_perform, Hquiet. exec. rewrite Hbutton.
    rewrite bind_perform, Hquiet. exec. rewrite bind_perform, Hquiet. exec.
    rewrite bind_perform, Hquiet. exec. by destruct s.
Qed.

(** X24.  Without a key the optimized extension posts a canned reply.  The
    background script answers the request with one of its ten fallback
    replies and touches none of its variables; the content script, on a
    quiet page whose composer has the focus and whose submit button is
    found, inserts that text, clicks the button and counts a comment.  An
    error message, which only the original background script sends, makes
    the content script log it, press Escape and count nothing. *)
Theorem without_a_key_a_canned_reply_is_posted
    (w : Worker.World) (request : Worker.Request) (ws : Worker.State)
    (env : Env) (s : State) (el : ActiveElement) (button : Target) :
  Worker.no_key (Worker.stored w) = true ->
  (0 <= Worker.random w)%Q -> (Worker.random w < 1)%Q ->
  (forall eff, throws env eff = false) ->
  activeElement env = Some el ->
  contentEditable el || isTextArea el = true ->
  findReplyButton env = Some button ->
  (exists data,
     (data ∈ Worker.responses)
     /\ Worker.processApiRequest w request ws
        = (ws, [ {| Worker.to := Worker.tabId request;
                    Worker.message := Worker.GroqApiResponse data |} ])
     /\ onMessage (deliver (Worker.GroqApiResponse data)) env s
        = (JS.Ok tt, set_processedComments (processedComments s + 1) s,
           [ Delay (if fastMode s then 500 else 1000);
             (if execCommand_defined env then InsertText data else SetTextContent data);
             Delay (if fastMode s then 500 else 1000);
             Click button;
             UpdateCounterDisplay (totalTweets s) (processedLikes s)
               (processedComments s + 1);
             Delay (if fastMode s then 1000 else 2000);
             ScrollBy (inject_Z (window_innerHeight env) * (3 # 10));
             Delay (if fastMode s then 300 else 1000);
             SendResponse "handled" ]))
  /\ (forall error,
        onMessage (deliver (Worker.GroqApiError error)) env s
        = (JS.Ok tt, s,
           [ LogError "Groq API error:"; PressEscape; Delay 500;
             SendResponse "error_handled" ])).
Proof.
  intros Hkey Hlow Hhigh Hquiet Hactive Hedit Hbutton. split.
  - exists (Worker.getRandomFallback (Worker.random w)). split_and!.
    + pose proof (Qfloor_scaled_range (Worker.random w) 10 ltac:(lia) Hlow Hhigh) as Hrange.
      unfold Worker.getRandomFallback. apply list_elem_of_In, nth_In.
      change (length Worker.responses) with 10%nat.
      change (Z.of_nat 10) with 10. lia.
    + unfold Worker.processApiRequest. by rewrite Hkey.
    + cbn [deliver onMessage]. unfold JS.detached at 1. rewrite bind_run.
      rewrite (handleGroqResponse_posts env s _ el button) by done.
      cbv beta iota. unfold JS.perform. by rewrite Hquiet.
  - intros error. cbn [deliver onMessage]. unfold handleCommentError, delay. exec.
    unfold JS.detached. rewrite bind_run, bind_perform, Hquiet. exec.
    unfold JS.perform. by rewrite Hquiet.
Qed.

Lemma without_a_key_a_canned_reply_is_posted_witness :
  Worker.no_key
    (Worker.stored
       {| Worker.now := 0; Worker.random := 29 # 100; Worker.stored := Worker.NoKey;
          Worker.fetched := Worker.FetchFailed |}) = true
  /\ (forall eff,
        throws (Page.composer 900 EmptyString [ {| button_text := "Reply" |} ]) eff = false)
  /\ onMessage (deliver (Worker.GroqApiResponse "Exactly!"))
       (Page.composer 900 EmptyString [ {| button_text := "Reply" |} ]) initial_state
     = (JS.Ok tt, set_processedComments 1 initial_state,
        [ Delay 500; InsertText "Exactly!"; Delay 500; Click (SubmitButton 0 0);
          UpdateCounterDisplay 0 0 1; Delay 1000; ScrollBy (inject_Z 800 * (3 # 10));
          Delay 300; SendResponse "handled" ])
  /\ onMessage (deliver (Worker.GroqApiError "No API key configured"))
       (Page.composer 900 EmptyString [ {| button_text := "Reply" |} ]) initial_state
     = (JS.Ok tt, initial_state,
        [ LogError "Groq API error:"; PressEscape; Delay 500;
          SendResponse "error_handled" ]).
Proof.
  split; [reflexivity|]. split; [reflexivity|]. split; [reflexivity|].
  exact (proj2
    (without_a_key_a_canned_reply_is_posted
       {| Worker.now := 0; Worker.random := 29 # 100; Worker.stored := Worker.NoKey;
          Worker.fetched := Worker.FetchFailed |}
       {| Worker.prompt := "hello"; Worker.tabId := 7%nat; Worker.timestamp := 0 |}
       Worker.initial_state
       (Page.composer 900 EmptyString [ {| button_text := "Reply" |} ]) initial_state
       {| contentEditable := true; isTextArea := false; textContent := EmptyString |}
       (SubmitButton 0 0)
       eq_refl ltac:(done) ltac:(done) (fun _ => eq_refl) eq_refl eq_refl eq_refl)
    "No API key configured").
Defined.

End End_to_end.

(** ** The popup *)

Section Settings_form.

Import Popup.

Lemma select_model value : value ∈ models -> select value = value.
Proof. intros Hin. unfold select. by rewrite bool_decide_eq_true_2. Qed.

Lemma model_not_empty value : value ∈ models -> value <> EmptyString.
Proof. intros Hin ->. unfold models in Hin. set_solver. Qed.

Lemma or_else_some value fallback :
  value <> EmptyString -> or_else (Some value) fallback = value.
Proof. intros Hfull. cbn. apply String.eqb_neq in Hfull. by rewrite Hfull. Qed.

(** X25.  Settings survive the round trip through storage: after a click
    on Save with a key and a model of the select, the popup opened again
    shows the form as it was saved, and one [settingsUpdated] message with
    the form was sent.  With an empty key Save stores nothing, sends
    nothing and shows the error.  A change of the toggle stores the new
    position whatever the key is, touching no other setting, and sends one
    [automationToggle] message; the background script has no case for that
    message and does nothing on it.  On an empty storage the popup shows an
    empty key, the first model, liking and commenting on, automation
    off. *)
Theorem saved_settings_are_shown_again (form : Form) (items : Storage) :
  groqApiKey form <> EmptyString ->
  (groqModel form ∈ models) ->
  load (storage (save form items)) = form
  /\ sent (save form items) = [SettingsUpdated form]
  /\ (forall form0,
        groqApiKey form0 = EmptyString ->
        save form0 items
        = {| storage := items; sent := [];
             status := Some ("Please enter your Groq API key", false) |})
  /\ (forall isEnabled,
        load (storage (toggle isEnabled items))
        = {| groqApiKey := groqApiKey (load items);
             groqModel := groqModel (load items);
             enableLiking := enableLiking (load items);
             enableCommenting := enableCommenting (load items);
             automationToggle := isEnabled |}
        /\ sent (toggle isEnabled items) = [AutomationToggle isEnabled]
        /\ forall w sys, Worker.step w (Worker.AutomationToggle isEnabled) sys = sys)
  /\ load {| stored_groqApiKey := None; stored_groqModel := None;
             stored_enableLiking := None; stored_enableCommenting := None;
             stored_automationEnabled := None |}
     = {| groqApiKey := EmptyString; groqModel := "llama-3.3-70b-versatile";
          enableLiking := true; enableCommenting := true; automationToggle := false |}.
Proof.
  intros Hkey Hmodel. split_and!; try done.
  - unfold save. apply String.eqb_neq in Hkey as Hkey'. rewrite Hkey'.
    unfold load. cbn [storage stored_groqApiKey stored_groqModel stored_enableLiking
                        stored_enableCommenting stored_automationEnabled].
    rewrite !or_else_some by (done || by apply model_not_empty).
    rewrite select_model by done.
    destruct form as [? ? [] [] ?]; done.
  - unfold save. apply String.eqb_neq in Hkey. by rewrite Hkey.
  - intros form0 Hempty. unfold save. by rewrite Hempty.
Qed.

Lemma saved_settings_are_shown_again_witness :
  groqApiKey
    {| groqApiKey := "gsk"; groqModel := "gemma-7b-it"; enableLiking := true;
       enableCommenting := false; automationToggle := true |} <> EmptyString
  /\ (groqModel
        {| groqApiKey := "gsk"; groqModel := "gemma-7b-it"; enableLiking := true;
           enableCommenting := false; automationToggle := true |} ∈ models)
  /\ load
       (storage
          (save
             {| groqApiKey := "gsk"; groqModel := "gemma-7b-it"; enableLiking := true;
                enableCommenting := false; automationToggle := true |}
             {| stored_groqApiKey := None; stored_groqModel := None;
                stored_enableLiking := None; stored_enableCommenting := None;
                stored_automationEnabled := None |}))
     = {| groqApiKey := "gsk"; groqModel := "gemma-7b-it"; enableLiking := true;
          enableCommenting := false; automationToggle := true |}.
Proof.
  assert (groqApiKey
            {| groqApiKey := "gsk"; groqModel := "gemma-7b-it"; enableLiking := true;
               enableCommenting := false; automationToggle := true |} <> EmptyString)
    as Hkey by discriminate.
  assert (groqModel
            {| groqApiKey := "gsk"; groqModel := "gemma-7b-it"; enableLiking := true;
               enableCommenting := false; automationToggle := true |} ∈ models)
    as Hmodel by (right; left).
  split; [exact Hkey|]. split; [exact Hmodel|].
  exact (proj1
    (saved_settings_are_shown_again
       {| groqApiKey := "gsk"; groqModel := "gemma-7b-it"; enableLiking := true;
          enableCommenting := false; automationToggle := true |}
       {| stored_groqApiKey := None; stored_groqModel := None;
          stored_enableLiking := None; stored_enableCommenting := None;
          stored_automationEnabled := None |} Hkey Hmodel)).
Defined.

End Settings_form.

(** ** Loading the script, and a settings message *)

Section Loading.

Import Fast Sched.

(** X26.  A settings message switches automation only when the position
    of the switch in it differs from the current one.  When they agree the
    listener stores the settings and answers, and touches no timer, flag or
    counter: saving the settings while automation runs does not start it
    again.  When they differ it stores the settings and then does what the
    switch does. *)
Theorem a_settings_message_switches_only_on_a_change
    (env : Env) (s : State) (st : Settings) :
  throws env (SendResponse "received") = false ->
  (settings_automationEnabled st = automationEnabled s ->
   onMessage (settingsUpdated st) env s
   = (JS.Ok tt, set_settings (Some st) s, [SendResponse "received"]))
  /\ (settings_automationEnabled st <> automationEnabled s ->
      onMessage (settingsUpdated st) env s
      = JS.bind (toggleAutomation (settings_automationEnabled st))
          (fun _ => JS.perform (SendResponse "received")) env
          (set_settings (Some st) s)).
Proof.
  intros Hanswer. split.
  - intros Hsame. unfold onMessage. exec.
    replace (automationEnabled (set_settings (Some st) s)) with (automationEnabled s)
      by (by destruct s).
    rewrite Hsame. destruct (automationEnabled s); cbn; exec;
      unfold JS.perform; by rewrite Hanswer.
  - intros Hdiffers. unfold onMessage. exec.
    replace (automationEnabled (set_settings (Some st) s)) with (automationEnabled s)
      by (by destruct s).
    by destruct (settings_automationEnabled st), (automationEnabled s).
Qed.

Lemma a_settings_message_switches_only_on_a_change_witness :
  throws (Page.showing 0 []) (SendResponse "received") = false
  /\ onMessage (settingsUpdated Page.like_only) (Page.showing 0 [])
       (set_automationEnabled true initial_state)
     = (JS.Ok tt, set_settings (Some Page.like_only) (set_automationEnabled true initial_state),
        [SendResponse "received"]).
Proof.
  split; [reflexivity|].
  exact (proj1
    (a_settings_message_switches_only_on_a_change (Page.showing 0 [])
       (set_automationEnabled true initial_state) Page.like_only eq_refl) eq_refl).
Defined.

(** The settings [initialize] starts with: those read from storage, or
    the defaults when the read fails. *)
Lemma boot_vars stored env :
  throws env CreateCounterDisplay = false ->
  vars (boot stored env)
  = match stored with
    | Some st =>
        if settings_automationEnabled st then
          set_pageVisibilityInterval (Some 2%nat)
            (set_timerSeq 2
               (set_automationInterval (Some 1%nat)
                  (set_runTimeouts 1
                     (set_automationEnabled true (set_settings (Some st) initial_state)))))
        else
          set_pageVisibilityInterval (Some 1%nat)
            (set_timerSeq 1 (set_settings (Some st) initial_state))
    | None =>
        set_pageVisibilityInterval (Some 1%nat)
          (set_timerSeq 1
             (set_settings
                (Some {| enableLiking := true; enableCommenting := true;
                         settings_automationEnabled := false |})
                initial_state))
    end.
Proof.
  intros Hcreate. unfold boot. rewrite handle_snd. cbn [vars].
  unfold initialize, toggleAutomation, startBackgroundMode, setInterval,
    startAutomationFast.
  destruct stored as [[liking commenting []]|]; cbn [settings_automationEnabled when].
  - exec. rewrite bind_perform, Hcreate. by exec.
  - by exec.
  - by exec.
Qed.

(** X27.  Loading the script starts no cycle by itself.  With automation
    stored as enabled it arms the polling interval and one start timeout
    and creates the counter display; with automation stored as disabled,
    or when the settings cannot be read, it arms neither, and in the second
    case it goes on with liking and commenting enabled and automation off.
    In every case the heartbeat is armed, no activation is suspended and
    the counters are zero. *)
Theorem loading_the_script_starts_no_cycle (stored : option Settings) (env : Env) :
  throws env CreateCounterDisplay = false ->
  cycles (boot stored env) = []
  /\ drains (boot stored env) = []
  /\ settings (vars (boot stored env))
     = Some (default {| enableLiking := true; enableCommenting := true;
                        settings_automationEnabled := false |} stored)
  /\ automationEnabled (vars (boot stored env))
     = from_option settings_automationEnabled false stored
  /\ runTimeouts (vars (boot stored env))
     = (if from_option settings_automationEnabled false stored then 1%nat else 0%nat)
  /\ (is_Some (automationInterval (vars (boot stored env)))
      <-> from_option settings_automationEnabled false stored = true)
  /\ is_Some (pageVisibilityInterval (vars (boot stored env)))
  /\ isRunning (vars (boot stored env)) = false
  /\ processedLikes (vars (boot stored env)) = 0
  /\ processedComments (vars (boot stored env)) = 0
  /\ trace (boot stored env)
     = (if from_option settings_automationEnabled false stored
        then [CreateCounterDisplay] else []).
Proof.
  intros Hcreate.
  assert (trace (boot stored env)
          = (if from_option settings_automationEnabled false stored
             then [CreateCounterDisplay] else [])) as Htrace.
  { unfold boot. rewrite handle_snd. cbn [trace app].
    unfold initialize, toggleAutomation, startBackgroundMode, setInterval,
      startAutomationFast.
    destruct stored as [[liking commenting []]|];
      cbn [settings_automationEnabled when from_option].
    - exec. rewrite bind_perform, Hcreate. by exec.
    - by exec.
    - by exec. }
  assert (cycles (boot stored env) = [] /\ drains (boot stored env) = [])
    as [Hcycles Hdrains] by (unfold boot; by rewrite handle_snd).
  rewrite Hcycles, Hdrains, Htrace, !(boot_vars stored env Hcreate).
  destruct stored as [[liking commenting []]|];
    cbn [from_option default settings_automationEnabled];
    split_and!; try reflexivity; try (by eexists);
    split; first [by intros [? ?] | done | by eexists].
Qed.

Lemma loading_the_script_starts_no_cycle_witness :
  throws (Page.showing 0 []) CreateCounterDisplay = false
  /\ cycles (boot (Some Page.all_on) (Page.showing 0 [])) = [].
Proof.
  split; [reflexivity|].
  exact (proj1
    (loading_the_script_starts_no_cycle (Some Page.all_on) (Page.showing 0 []) eq_refl)).
Defined.

End Loading.

(** ** The background script: where the replies go *)

Section Worker_routing.

Import Worker.








End Worker_routing.
